(** * MDAPackmol: labelling, packing and topology reassignment

    A shallow embedding of [mdapackmol.py].  The molecular data model of
    MDAnalysis is represented by the part of it the module reads and
    writes: per-atom residue membership, residue names, the tables of
    per-atom attributes and of bonded index tuples.  Python exceptions are
    values of [exn]; the [while] loop of [reassign_topology] runs on fuel. *)

From Stdlib Require Import ZArith NArith QArith Decimal DecimalString DecimalN.
From Stdlib Require Import Ascii String List Lia.
From stdpp Require Import base option list strings gmap.

Local Open Scope string_scope.
Local Open Scope list_scope.
Local Open Scope nat_scope.

(** ** Python primitives used by the module *)

Module Py.

(** Exceptions.  The message of a [ValueError] is kept when the module
    itself formats it and is [None] when the interpreter or the library
    produces it. *)
Inductive exn :=
| ValueError (msg : option string)
| IndexError
| AttributeError
| UnicodeDecodeError
| OSError.

Inductive result (A : Type) :=
| Ok (a : A)
| Raise (e : exn).
Arguments Ok {A} a.
Arguments Raise {A} e.

Definition bind {A B} (r : result A) (k : A -> result B) : result B :=
  match r with
  | Ok a => k a
  | Raise e => Raise e
  end.

Definition of_option {A} (e : exn) (o : option A) : result A :=
  match o with
  | Some a => Ok a
  | None => Raise e
  end.

(** A [str]: the code points of its characters.  Residue names, which
    the module takes apart and parses, are of this type; text that it
    only copies or joins is kept as a [string], and a [string] stands for
    the [str] of its characters where one is expected. *)
Definition str : Type := list N.

Definition str_of_string (s : string) : str :=
  map N_of_ascii (list_ascii_of_string s).

(** Characters above the ASCII range that [int] takes for blanks
    ([Py_UNICODE_ISSPACE]), and the zeros of the blocks of ten decimal
    digits ([Py_UNICODE_TODECIMAL]; Unicode 14, as CPython 3.11 has it). *)
Definition unicode_spaces : list N :=
  [133; 160; 5760; 8192; 8193; 8194; 8195; 8196; 8197; 8198;
   8199; 8200; 8201; 8202; 8232; 8233; 8239; 8287; 12288]%N.

Definition decimal_zeros : list N :=
  [48; 1632; 1776; 1984; 2406; 2534; 2662; 2790; 2918; 3046;
   3174; 3302; 3430; 3558; 3664; 3792; 3872; 4160; 4240; 6112;
   6160; 6470; 6608; 6784; 6800; 6992; 7088; 7232; 7248; 42528;
   43216; 43264; 43472; 43504; 43600; 44016; 65296; 66720; 68912; 69734;
   69872; 69942; 70096; 70384; 70736; 70864; 71248; 71360; 71472; 71904;
   72016; 72784; 73040; 73120; 92768; 92864; 93008; 120782; 120792; 120802;
   120812; 120822; 123200; 123632; 125264; 130032]%N.

Definition to_decimal (c : N) : option N :=
  option_map (fun zero => (c - zero)%N)
             (find (fun zero => (zero <=? c)%N && (c <? zero + 10)%N) decimal_zeros).

(** What [int] makes of a character before it parses
    ([_PyUnicode_TransformDecimalAndSpaceToASCII]): an ASCII character
    stays, a blank above the ASCII range becomes a space and a decimal
    digit the ASCII digit of its value; any other character becomes a
    question mark, which no literal contains. *)
Definition to_ascii (c : N) : ascii :=
  if (c <? 127)%N then ascii_of_N c
  else if existsb (N.eqb c) unicode_spaces then " "%char
       else match to_decimal c with
            | Some d => ascii_of_N (48 + d)
            | None => "?"%char
            end.

(** [Py_ISSPACE], the blanks [int] skips around an ASCII literal: TAB to
    CR and the space.  FS to US are not among them. *)
Definition isspace (c : ascii) : bool :=
  let n := nat_of_ascii c in
  ((9 <=? n) && (n <=? 13)) || (n =? 32).

Definition isdigit (c : ascii) : bool :=
  let n := nat_of_ascii c in (48 <=? n) && (n <=? 57).

Fixpoint lstrip (s : list ascii) : list ascii :=
  match s with
  | c :: r => if isspace c then lstrip r else s
  | [] => []
  end.

Definition strip (s : list ascii) : list ascii :=
  rev (lstrip (rev (lstrip s))).

(** Digits of an integer literal: one or more digits, single
    underscores allowed between two digits.  [prev] tells whether the
    previous character was a digit. *)
Fixpoint literal_digits (prev : bool) (s : list ascii) : option (list ascii) :=
  match s with
  | [] => if prev then Some [] else None
  | c :: r =>
      if isdigit c then option_map (cons c) (literal_digits true r)
      else if Ascii.eqb c "_" then
             (if prev then literal_digits false r else None)
           else None
  end.

Definition digits_value (ds : list ascii) : option Z :=
  option_map (fun d => Z.of_N (N.of_uint d))
             (NilEmpty.uint_of_string (string_of_list_ascii ds)).

(** [sys.get_int_max_str_digits()]: zero, which is no limit on the
    number of digits of a literal, as in the interpreters that have no
    such limit and in those where it is turned off. *)
Definition int_max_str_digits : nat := 0.

(** [int(s)] in base ten; [None] stands for the [ValueError]. *)
Definition int (s : str) : option Z :=
  let body := strip (map to_ascii s) in
  let '(neg, rest) :=
    match body with
    | c :: r =>
        if Ascii.eqb c "-" then (true, r)
        else if Ascii.eqb c "+" then (false, r)
        else (false, body)
    | [] => (false, body)
    end in
  match literal_digits false rest with
  | Some ds =>
      if (0 <? int_max_str_digits) && (int_max_str_digits <? length ds) then None
      else option_map (fun v => if neg then Z.opp v else v) (digits_value ds)
  | None => None
  end.

(** ['{}'.format(n)] for a non-negative and for an arbitrary [int]. *)
Definition format_nat (n : nat) : string :=
  NilEmpty.string_of_uint (N.to_uint (N.of_nat n)).

Definition format_int (z : Z) : string :=
  match z with
  | Zneg p => String "-" (NilEmpty.string_of_uint (Pos.to_uint p))
  | _ => NilEmpty.string_of_uint (N.to_uint (Z.to_N z))
  end.

(** [s[1:]] *)
Definition tail (s : str) : str :=
  match s with
  | [] => []
  | _ :: r => r
  end.

(** [l[z]] with Python's negative indices. *)
Definition getitem {A} (l : list A) (z : Z) : result A :=
  let n := Z.of_nat (length l) in
  if (0 <=? z)%Z then of_option IndexError (l !! Z.to_nat z)
  else if (- n <=? z)%Z then of_option IndexError (l !! Z.to_nat (n + z))
  else Raise IndexError.

(** [l[a:b]] for non-negative bounds. *)
Definition slice {A} (a b : nat) (l : list A) : list A :=
  take (b - a) (drop a l).

(** [repr] of a [bytes] object, as ['{}'.format] prints it. *)
Definition hexdigit (n : nat) : ascii :=
  if n <? 10 then ascii_of_nat (48 + n) else ascii_of_nat (87 + n).

Definition squote : ascii := ascii_of_nat 39.
Definition dquote : ascii := ascii_of_nat 34.
Definition backslash : ascii := ascii_of_nat 92.

Definition repr_byte (quote : ascii) (c : ascii) : list ascii :=
  let n := nat_of_ascii c in
  if Ascii.eqb c quote || Ascii.eqb c backslash then [backslash; c]
  else if n =? 9 then [backslash; "t"%char]
  else if n =? 10 then [backslash; "n"%char]
  else if n =? 13 then [backslash; "r"%char]
  else if (n <? 32) || (127 <=? n) then
         [backslash; "x"%char; hexdigit (n / 16); hexdigit (n mod 16)]
  else [c].

Definition repr_bytes (b : list ascii) : string :=
  let has c := existsb (Ascii.eqb c) b in
  let quote := if has squote && negb (has dquote) then dquote else squote in
  string_of_list_ascii
    ("b"%char :: quote :: concat (map (repr_byte quote) b) ++ [quote]).

(** The [bytes] object that a literal as [repr] prints it denotes. *)
Definition unhex (c : ascii) : option nat :=
  let n := nat_of_ascii c in
  if (48 <=? n) && (n <=? 57) then Some (n - 48)
  else if (97 <=? n) && (n <=? 102) then Some (n - 87)
       else None.

Definition unescape (c : ascii) : option ascii :=
  if Ascii.eqb c backslash || Ascii.eqb c squote || Ascii.eqb c dquote then Some c
  else if Ascii.eqb c "t" then Some (ascii_of_nat 9)
  else if Ascii.eqb c "n" then Some (ascii_of_nat 10)
  else if Ascii.eqb c "r" then Some (ascii_of_nat 13)
  else None.

Fixpoint literal_body (quote : ascii) (s : list ascii) : option (list ascii) :=
  match s with
  | [] => None
  | c :: r =>
      if Ascii.eqb c quote then
        match r with
        | [] => Some []
        | _ => None
        end
      else if Ascii.eqb c backslash then
        match r with
        | [] => None
        | e :: r1 =>
            if Ascii.eqb e "x" then
              match r1 with
              | h :: l :: r2 =>
                  match unhex h, unhex l with
                  | Some a, Some b =>
                      option_map (cons (ascii_of_nat (16 * a + b))) (literal_body quote r2)
                  | _, _ => None
                  end
              | _ => None
              end
            else
              match unescape e with
              | Some x => option_map (cons x) (literal_body quote r1)
              | None => None
              end
        end
      else option_map (cons c) (literal_body quote r)
  end.

Definition bytes_literal (s : string) : option (list ascii) :=
  match list_ascii_of_string s with
  | b :: quote :: body =>
      if Ascii.eqb b "b" && (Ascii.eqb quote squote || Ascii.eqb quote dquote)
      then literal_body quote body
      else None
  | _ => None
  end.

(** [bytes.decode()]: strict UTF-8.  The text is kept as the bytes that
    encode it, which is what a file opened for text under a UTF-8 locale
    holds after the text was written to it. *)
Definition between (lo hi : nat) (c : ascii) : bool :=
  let n := nat_of_ascii c in (lo <=? n) && (n <=? hi).

Fixpoint utf8_valid (b : list ascii) : bool :=
  match b with
  | [] => true
  | c :: r =>
      if between 0 127 c then utf8_valid r
      else if between 194 223 c then
        match r with
        | c1 :: r1 => between 128 191 c1 && utf8_valid r1
        | _ => false
        end
      else if between 224 239 c then
        match r with
        | c1 :: c2 :: r2 =>
            (if between 224 224 c then between 160 191 c1
             else if between 237 237 c then between 128 159 c1
                  else between 128 191 c1)
            && between 128 191 c2 && utf8_valid r2
        | _ => false
        end
      else if between 240 244 c then
        match r with
        | c1 :: c2 :: c3 :: r3 =>
            (if between 240 240 c then between 144 191 c1
             else if between 244 244 c then between 128 143 c1
                  else between 128 191 c1)
            && between 128 191 c2 && between 128 191 c3 && utf8_valid r3
        | _ => false
        end
      else false
  end.

Definition decode_utf8 (b : list ascii) : option string :=
  if utf8_valid b then Some (string_of_list_ascii b) else None.

End Py.

Import Py.

Coercion Py.str_of_string : string >-> Py.str.

(** The element type of a list or of an option is taken from the
    context, so that a list or an option of string literals is read as one of [str] where
    that is expected. *)
Arguments cons {A} & a l.
Arguments Some {A} & a.

#[global] Instance result_ret : MRet result := fun _ a => Ok a.
#[global] Instance result_bind : MBind result := fun _ _ k r => Py.bind r k.

(** ** The molecular data model (the part of MDAnalysis the module uses) *)

Module MDA.

(** Values of the per-atom attributes: [types] and [names] hold
    strings, [charges] and [masses] hold numbers, which the module only
    copies. *)
Inductive value :=
| VStr (s : string)
| VFloat (x : Q).

(** An [AtomGroup] or a [Universe]: for every atom the position of its
    residue in [.residues], the residue names, the per-atom attribute
    arrays by attribute name and the bonded index tuples by attribute
    name ([.to_indices()] of bonds, angles, dihedrals, impropers). *)
Record Topology := mkTopology {
  resindices : list nat;
  resnames : list Py.str;
  atom_attrs : gmap string (list value);
  connections : gmap string (list (list nat))
}.

Definition n_atoms (u : Topology) : nat := length (resindices u).
Definition n_residues (u : Topology) : nat := length (resnames u).

Definition with_resnames (u : Topology) (rn : list Py.str) : Topology :=
  mkTopology (resindices u) rn (atom_attrs u) (connections u).
Definition with_atom_attrs (u : Topology) (m : gmap string (list value)) : Topology :=
  mkTopology (resindices u) (resnames u) m (connections u).
Definition with_connections (u : Topology) (m : gmap string (list (list nat))) : Topology :=
  mkTopology (resindices u) (resnames u) (atom_attrs u) m.

(** [atom.resname] *)
Definition atom_resname (u : Topology) (i : nat) : option Py.str :=
  ri ← resindices u !! i; resnames u !! ri.

(** The value a blank attribute array is filled with. *)
Definition blank (attr : string) : value :=
  if bool_decide (attr = "charges" ∨ attr = "masses") then VFloat 0 else VStr "".

(** [u.add_TopologyAttr(attr)] for a per-atom attribute: a blank array,
    replacing what was there. *)
Definition add_TopologyAttr (attr : string) (u : Topology) : Topology :=
  with_atom_attrs u (<[attr := replicate (n_atoms u) (blank attr)]> (atom_attrs u)).

(** [u.add_TopologyAttr(attr, values=vals)] for a bonded attribute. *)
Definition add_connections (attr : string) (vals : list (list nat)) (u : Topology) : Topology :=
  with_connections u (<[attr := vals]> (connections u)).

(** [group[a:b].attr = vals] on the array [arr] behind the group: the
    setter accepts as many values as the slice has members, or a single
    value for all of them, and raises [ValueError] otherwise. *)
Definition set_values {A} (a b : nat) (vals : list A) (arr : list A) : result (list A) :=
  let n_group := length (Py.slice a b arr) in
  if length vals =? n_group then
    Ok (take a arr ++ vals ++ drop (a + n_group) arr)
  else
    match vals with
    | [v] => Ok (take a arr ++ replicate n_group v ++ drop (a + n_group) arr)
    | _ => Raise (ValueError None)
    end.

(** [u.residues[a:b].resnames = vals] *)
Definition set_resnames (a b : nat) (vals : list Py.str) (u : Topology)
  : result Topology :=
  rn ← set_values a b vals (resnames u); mret (with_resnames u rn).

(** [setattr(u.atoms[a:b], attr, vals)] *)
Definition set_atom_attr (a b : nat) (attr : string) (vals : list value) (u : Topology)
  : result Topology :=
  arr ← Py.of_option AttributeError (atom_attrs u !! attr);
  arr' ← set_values a b vals arr;
  mret (with_atom_attrs u (<[attr := arr']> (atom_attrs u))).

(** [hasattr(group, attr)] *)
Definition hasattr (u : Topology) (attr : string) : bool :=
  bool_decide (is_Some (atom_attrs u !! attr)).

(** The residue name in the ATOM record of an atom, as the PDB writer
    puts it there: the field is four columns wide and takes the first
    four characters of the name ([resname[:4]]). *)
Definition pdb_resname (name : Py.str) : Py.str := take 4 name.

(** The residue name fields of the ATOM records of a group, one record
    per atom, in the order of the atoms. *)
Definition pdb_records (g : Topology) : list (option Py.str) :=
  map (fun ri => option_map pdb_resname (resnames g !! ri)) (resindices g).

End MDA.

Import MDA.

(** ** mdapackmol.py *)

(** Lines 6-8. *)
Definition PACKMOL_INP : string := "packmol.inp".
Definition PACKMOL_STRUCTURE_FILES (index : nat) : string :=
  "input" +:+ Py.format_nat index +:+ ".pdb".
Definition PACKMOL_OUT : string := "output.pdb".

Definition newline : string := String (ascii_of_nat 10) EmptyString.

(** [class PackmolStructure], lines 11-28. *)
Record PackmolStructure := mkPackmolStructure {
  ag : Topology;
  number : Z;
  instructions : list string
}.

Definition with_ag (self : PackmolStructure) (g : Topology) : PackmolStructure :=
  mkPackmolStructure g (number self) (instructions self).

(** Lines 30-38. *)
Definition to_packmol_inp (self : PackmolStructure) (index : nat) : string :=
  let output := "structure " +:+ PACKMOL_STRUCTURE_FILES index +:+ newline in
  let output := output +:+ "  number " +:+ Py.format_int (number self) +:+ newline in
  let output :=
    fold_left (fun out instruction => out +:+ "  " +:+ instruction +:+ newline)
              (instructions self) output in
  output +:+ "end structure" +:+ newline +:+ newline.

(** The replica label ['R{}'.format(index)]. *)
Definition replica_label (index : nat) : Py.str := "R" +:+ Py.format_nat index.

(** What a coordinate write does: it leaves the text of the file, or it
    raises, possibly after having created the file. *)
Inductive written :=
| Written (text : string)
| Failed (e : exn) (partial : option string).

(** What the shell returns for the packer. *)
Record CompletedProcess := mkCompleted {
  returncode : Z;
  stdout : list ascii;
  stderr : list ascii
}.

Inductive event :=
| Wrote (name : string)
| Ran (cmd : string)
| Loaded (name : string).

(** The working directory and what the module did to it so far. *)
Record World := mkWorld {
  files : gmap string string;
  trace : list event
}.

Definition write_file (name text : string) (w : World) : World :=
  mkWorld (<[name := text]> (files w)) (trace w ++ [Wrote name]).

Definition is_Loaded (e : event) : bool :=
  match e with
  | Loaded _ => true
  | _ => false
  end.

(** *** Input generation, packer invocation, output loading *)

Section Collaborators.

(** [mda.Writer(name).write(ag)] *)
Variable pdb_write : Topology -> written.
(** [mda.Universe(name)] on the content of the file, if it exists *)
Variable pdb_read : option string -> result Topology.
(** [subprocess.run(cmd, shell=True, ...)]: the completed process and
    the files it leaves *)
Variable run_shell : string -> gmap string string -> CompletedProcess * gmap string string.
(** [bytes.decode()] *)
Variable decode : list ascii -> option string.
(** ['{}'.format] of a float *)
Variable format_float : Q -> string.

(** Lines 40-45.  The first assignment gives one string to all residues,
    the last one gives back the copy taken before; the descriptor returned
    is the one the caller holds after the call. *)
Definition save_structure (self : PackmolStructure) (index : nat) (w : World)
  : result unit * PackmolStructure * World :=
  let old_resnames := resnames (ag self) in
  match set_resnames 0 (n_residues (ag self)) [replica_label index] (ag self) with
  | Raise e => (Raise e, self, w)
  | Ok g =>
      let self := with_ag self g in
      match pdb_write g with
      | Failed e partial =>
          let w := match partial with
                   | Some text => write_file (PACKMOL_STRUCTURE_FILES index) text w
                   | None => w
                   end in
          (Raise e, self, w)
      | Written text =>
          let w := write_file (PACKMOL_STRUCTURE_FILES index) text w in
          match set_resnames 0 (n_residues g) old_resnames g with
          | Raise e => (Raise e, self, w)
          | Ok g' => (Ok tt, with_ag self g', w)
          end
      end
  end.

(** The [for i, structure in enumerate(structures)] loop, from
    position [i] on; [out] is the text written to the input file so
    far. *)
Fixpoint write_structures (i : nat) (todo : list PackmolStructure) (out : string) (w : World)
  : result unit * list PackmolStructure * string * World :=
  match todo with
  | [] => (Ok tt, [], out, w)
  | structure :: rest =>
      let out := out +:+ to_packmol_inp structure i in
      match save_structure structure i w with
      | (Raise e, structure', w') => (Raise e, structure' :: rest, out, w')
      | (Ok _, structure', w') =>
          let '(r, rest', out', w'') := write_structures (S i) rest out w' in
          (r, structure' :: rest', out', w'')
      end
  end.

(** Lines 48-71.  The input file is complete on disk when the [with]
    block closes it, also when an exception leaves the block. *)
Definition make_packmol_input (structures : list PackmolStructure) (tolerance : option Q)
           (w : World) : result unit * list PackmolStructure * World :=
  let tolerance := match tolerance with
                   | None => 2%Q
                   | Some t => t
                   end in
  let out := "# autogenerated packmol input" +:+ newline +:+ newline in
  let out := out +:+ "tolerance " +:+ format_float tolerance +:+ newline +:+ newline in
  let out := out +:+ "filetype pdb" +:+ newline +:+ newline in
  match write_structures 0 structures out w with
  | (Raise e, structures', out, w') =>
      (Raise e, structures', write_file PACKMOL_INP out w')
  | (Ok _, structures', out, w') =>
      let out := out +:+ "output " +:+ PACKMOL_OUT +:+ newline +:+ newline in
      (Ok tt, structures', write_file PACKMOL_INP out w')
  end.

(** The message of lines 83-84; [e.stderr] is a [bytes] object. *)
Definition packmol_failed (p : CompletedProcess) : string :=
  "Packmol failed with errorcode " +:+ Py.format_int (returncode p)
    +:+ " and stderr: " +:+ Py.repr_bytes (stderr p).

(** Lines 74-87.  [check=True] turns a nonzero return code into
    [CalledProcessError], which line 83 turns into [ValueError]; on the
    other branch the log file is opened before the output is decoded. *)
Definition run_packmol (w : World) : result unit * World :=
  let cmd := "packmol < " +:+ PACKMOL_INP in
  let '(p, fs) := run_shell cmd (files w) in
  let w := mkWorld fs (trace w ++ [Ran cmd]) in
  if (returncode p =? 0)%Z then
    match decode (stdout p) with
    | Some text => (Ok tt, write_file "packmol.stdout" text w)
    | None => (Raise UnicodeDecodeError, write_file "packmol.stdout" "" w)
    end
  else (Raise (ValueError (Some (packmol_failed p))), w).

(** Lines 90-92. *)
Definition load_packmol_output (w : World) : result Topology * World :=
  (pdb_read (files w !! PACKMOL_OUT),
   mkWorld (files w) (trace w ++ [Loaded PACKMOL_OUT])).

End Collaborators.

(** *** Topology reassignment *)

Definition atom_attr_names : list string := ["types"; "names"; "charges"; "masses"].

Definition partial_warning : string := "added attribute which not all templates had".

(** One round of the [# add required attributes] loop, lines 121-126: the
    universe and the messages passed to [warnings.warn] so far. *)
Definition add_required (structures : list PackmolStructure)
           (st : Topology * list string) (attr : string) : Topology * list string :=
  if existsb (fun pms => hasattr (ag pms) attr) structures then
    let new := add_TopologyAttr attr (fst st) in
    if negb (forallb (fun pms => hasattr (ag pms) attr) structures)
    then (new, snd st ++ [partial_warning])
    else (new, snd st)
  else st.

(** The variables of the [while] loop, lines 113-118. *)
Record walk := mkWalk {
  index : nat;
  new : Topology;
  bonds : list (list nat);
  angles : list (list nat);
  dihedrals : list (list nat);
  impropers : list (list nat)
}.

(** [acc.extend((template.<attr>.to_indices() + index).tolist())],
    guarded by [hasattr(template, attr)] *)
Definition extend (template : Topology) (attr : string) (index : nat)
           (acc : list (list nat)) : list (list nat) :=
  match connections template !! attr with
  | Some tuples => acc ++ map (map (fun i => i + index)) tuples
  | None => acc
  end.

(** [setattr(to_change, attr, getattr(template.atoms, attr))], guarded by
    [hasattr(template.atoms, attr)] *)
Definition copy_attr (template : Topology) (lo hi : nat)
           (new : result Topology) (attr : string) : result Topology :=
  new ← new;
  match atom_attrs template !! attr with
  | Some vals => set_atom_attr lo hi attr vals new
  | None => Ok new
  end.

(** The template the atom at the cursor points to, lines 130-132. *)
Definition template_at (structures : list PackmolStructure) (st : walk) : result Topology :=
  start_resindex ← Py.of_option IndexError (resindices (new st) !! index st);
  start_resname ← Py.of_option IndexError (resnames (new st) !! start_resindex);
  t ← Py.of_option (ValueError None) (Py.int (Py.tail start_resname));
  pms ← Py.getitem structures t;
  mret (ag pms).

(** Lines 130-156. *)
Definition loop_body (structures : list PackmolStructure) (st : walk) : result walk :=
  template ← template_at structures st;
  start_resindex ← Py.of_option IndexError (resindices (new st) !! index st);
  let hi := index st + n_atoms template in
  let nres := n_residues template in
  new' ← set_resnames start_resindex (start_resindex + nres) (resnames template) (new st);
  new' ← fold_left (copy_attr template (index st) hi) atom_attr_names (Ok new');
  mret (mkWalk hi new'
               (extend template "bonds" (index st) (bonds st))
               (extend template "angles" (index st) (angles st))
               (extend template "dihedrals" (index st) (dihedrals st))
               (extend template "impropers" (index st) (impropers st))).

(** [while index < len(new.atoms)], line 128; [None] when the fuel runs
    out. *)
Fixpoint while_loop (fuel : nat) (structures : list PackmolStructure) (st : walk)
  : option (result walk) :=
  if index st <? n_atoms (new st) then
    match fuel with
    | 0 => None
    | S fuel =>
        match loop_body structures st with
        | Ok st' => while_loop fuel structures st'
        | Raise e => Some (Raise e)
        end
    end
  else Some (Ok st).

Definition nonempty {A} (l : list A) : bool :=
  match l with
  | [] => false
  | _ => true
  end.

(** The four [if <list>: ... add_TopologyAttr] statements after the loop,
    lines 158-170.  Line 163 makes the tuples of the angles attribute from
    [bonds]. *)
Definition attach (st : walk) : Topology :=
  let new := new st in
  let bonds := bonds st in
  let new := if nonempty bonds then add_connections "bonds" bonds new else new in
  let new := if nonempty (angles st) then add_connections "angles" bonds new else new in
  let new := if nonempty (dihedrals st)
             then add_connections "dihedrals" (dihedrals st) new else new in
  let new := if nonempty (impropers st)
             then add_connections "impropers" (impropers st) new else new in
  new.

Definition initial_walk (structures : list PackmolStructure) (new : Topology) : walk :=
  mkWalk 0 (fst (fold_left (add_required structures) atom_attr_names (new, []))) [] [] [] [].

(** Lines 95-172.  The warnings emitted, and the outcome: the universe, an
    exception, or [None] when [fuel] iterations did not finish the walk. *)
Definition reassign_topology (fuel : nat) (structures : list PackmolStructure)
           (new : Topology) : list string * option (result Topology) :=
  let warned := snd (fold_left (add_required structures) atom_attr_names (new, [])) in
  (warned,
   match while_loop fuel structures (initial_walk structures new) with
   | None => None
   | Some (Raise e) => Some (Raise e)
   | Some (Ok st) => Some (Ok (attach st))
   end).

Section Orchestrator.

Variable pdb_write : Topology -> written.
Variable pdb_read : option string -> result Topology.
Variable run_shell : string -> gmap string string -> CompletedProcess * gmap string string.
Variable decode : list ascii -> option string.
Variable format_float : Q -> string.

(** Lines 175-198.  The outcome, the descriptors as the call leaves them,
    the warnings and the world. *)
Definition packmol (fuel : nat) (structures : list PackmolStructure) (tolerance : option Q)
           (w : World)
  : option (result Topology) * list PackmolStructure * list string * World :=
  match make_packmol_input pdb_write format_float structures tolerance w with
  | (Raise e, structures, w) => (Some (Raise e), structures, [], w)
  | (Ok _, structures, w) =>
      match run_packmol run_shell decode w with
      | (Raise e, w) => (Some (Raise e), structures, [], w)
      | (Ok _, w) =>
          match load_packmol_output pdb_read w with
          | (Raise e, w) => (Some (Raise e), structures, [], w)
          | (Ok new, w) =>
              let '(warned, r) := reassign_topology fuel structures new in
              (r, structures, warned, w)
          end
      end
  end.

End Orchestrator.

(** ** Packed structures and what reassembly is expected to produce *)

(** A block: the position of a descriptor in the list and its template. *)
Definition Block : Type := nat * Topology.

Definition block_of (structures : list PackmolStructure) (b : Block) : Prop :=
  ag <$> structures !! fst b = Some (snd b).

(** A template as the library hands it over: every residue position is
    one of the group's residues, the first atom is in the first residue,
    and a per-atom array has one value per atom. *)
Record wf_template (template : Topology) : Prop := {
  wf_first : head (resindices template) = Some 0;
  wf_resindices : Forall (fun ri => ri < n_residues template) (resindices template);
  wf_attrs : forall attr vals,
      atom_attrs template !! attr = Some vals -> length vals = n_atoms template
}.

Definition total_atoms (blocks : list Block) : nat :=
  sum_list (map (fun b => n_atoms (snd b)) blocks).

(** Residue positions of the atoms of the blocks, the first block starting
    at residue [r]. *)
Fixpoint packed_resindices (r : nat) (blocks : list Block) : list nat :=
  match blocks with
  | [] => []
  | b :: rest =>
      map (fun ri => r + ri) (resindices (snd b))
          ++ packed_resindices (r + n_residues (snd b)) rest
  end.

(** Residue names of the blocks as the packer copies them: the label of
    the descriptor on every residue. *)
Definition packed_resnames (blocks : list Block) : list Py.str :=
  flat_map (fun b => replicate (n_residues (snd b)) (replica_label (fst b))) blocks.

(** [new] is the output of the packer for the replicas [blocks], in that
    order. *)
Definition is_packing (blocks : list Block) (new : Topology) : Prop :=
  resindices new = packed_resindices 0 blocks /\ resnames new = packed_resnames blocks.

Definition restored_resnames (blocks : list Block) : list Py.str :=
  flat_map (fun b => resnames (snd b)) blocks.

(** The values of a per-atom attribute, block after block: the template's
    own, or blanks where the template has none. *)
Definition restored_attr (attr : string) (blocks : list Block) : list value :=
  flat_map (fun b => match atom_attrs (snd b) !! attr with
                     | Some vals => vals
                     | None => replicate (n_atoms (snd b)) (blank attr)
                     end) blocks.

(** The index tuples of a bonded attribute, each block's shifted by the
    position of its first atom; the first block starts at [cursor]. *)
Fixpoint offset_tuples (attr : string) (cursor : nat) (blocks : list Block)
  : list (list nat) :=
  match blocks with
  | [] => []
  | b :: rest =>
      match connections (snd b) !! attr with
      | Some tuples => map (map (fun i => i + cursor)) tuples
      | None => []
      end ++ offset_tuples attr (cursor + n_atoms (snd b)) rest
  end.

(** The per-atom array [arr] after the values of a template were copied
    onto the block at [cursor], and after all the blocks were. *)
Definition copy1 (attr : string) (cursor : nat) (template : Topology)
           (arr : list value) : list value :=
  match atom_attrs template !! attr with
  | Some vals => take cursor arr ++ vals ++ drop (cursor + n_atoms template) arr
  | None => arr
  end.

Fixpoint copied (attr : string) (cursor : nat) (blocks : list Block)
         (arr : list value) : list value :=
  match blocks with
  | [] => arr
  | b :: rest =>
      copied attr (cursor + n_atoms (snd b)) rest (copy1 attr cursor (snd b) arr)
  end.

Definition any_hasattr (structures : list PackmolStructure) (attr : string) : bool :=
  existsb (fun pms => hasattr (ag pms) attr) structures.
Definition all_hasattr (structures : list PackmolStructure) (attr : string) : bool :=
  forallb (fun pms => hasattr (ag pms) attr) structures.

(** The universe has an array, one value per atom, for every per-atom
    attribute the template defines. *)
Definition provisioned (template u : Topology) : Prop :=
  forall attr vals,
    attr ∈ atom_attr_names -> atom_attrs template !! attr = Some vals ->
    exists arr, atom_attrs u !! attr = Some arr /\ length arr = n_atoms u.

(** The template with the label of position [index] on every residue, as
    it is handed to the writer. *)
Definition relabel (index : nat) (g : Topology) : Topology :=
  with_resnames g (replicate (n_residues g) (replica_label index)).

(** [pdb_write] writes PDB files: in the text it leaves, read by
    [records], the ATOM records hold the residue name fields of the atoms
    of the group it was given. *)
Definition writes_pdb (pdb_write : Topology -> written)
           (records : string -> list (option Py.str)) : Prop :=
  forall g text, pdb_write g = Written text -> records text = pdb_records g.

Definition total_residues (blocks : list Block) : nat :=
  sum_list (map (fun b => n_residues (snd b)) blocks).

(** The warnings of the provisioning loop, attribute by attribute. *)
Definition partial_warnings (structures : list PackmolStructure) : list string :=
  flat_map (fun attr =>
              if any_hasattr structures attr && negb (all_hasattr structures attr)
              then [partial_warning] else []) atom_attr_names.

(** From [w] to [w'] the module wrote files and ran commands, and loaded
    nothing. *)
Definition only_writes_and_runs (w w' : World) : Prop :=
  exists evs, trace w' = trace w ++ evs /\ Forall (fun e => is_Loaded e = false) evs.

(** States of the walk reachable from a given one. *)
Inductive reaches (structures : list PackmolStructure) (st0 : walk) : walk -> Prop :=
| reaches_refl : reaches structures st0 st0
| reaches_step st st' :
    reaches structures st0 st ->
    index st < n_atoms (new st) ->
    loop_body structures st = Ok st' ->
    reaches structures st0 st'.

(** ** Sample data *)

Module Sample.

(** Template A: three atoms in one residue, bonds (0,1) and (1,2). *)
Definition A : Topology :=
  mkTopology [0; 0; 0] ["SOL"] ∅ {["bonds" := [[0; 1]; [1; 2]]]}.
(** Template B: two atoms in one residue, bond (0,1). *)
Definition B : Topology :=
  mkTopology [0; 0] ["ION"] ∅ {["bonds" := [[0; 1]]]}.

Definition structures : list PackmolStructure :=
  [mkPackmolStructure A 2 ["inside box 0. 0. 0. 40. 40. 40."];
   mkPackmolStructure B 1 []].

Definition blocks : list Block := [(0, A); (0, A); (1, B)].

Definition packed : Topology :=
  mkTopology (packed_resindices 0 blocks) (packed_resnames blocks) ∅ ∅.

(** Water: two bonds and the angle between them. *)
Definition W : Topology :=
  mkTopology [0; 0; 0] ["SOL"] ∅
             {["bonds" := [[0; 1]; [0; 2]]; "angles" := [[1; 0; 2]]]}.
Definition water : list PackmolStructure := [mkPackmolStructure W 1 []].
Definition packed_water : Topology :=
  mkTopology (packed_resindices 0 [(0, W)]) (packed_resnames [(0, W)]) ∅ ∅.

(** A two-atom template, with and without atom names, and a packed
    structure that holds one atom only. *)
Definition pair : Topology := mkTopology [0; 0] ["SOL"] ∅ ∅.
Definition named_pair : Topology :=
  mkTopology [0; 0] ["SOL"] {["names" := [VStr "OW"; VStr "HW"]]} ∅.
Definition short : Topology := mkTopology [0] ["R0"] ∅ ∅.
Definition pairs : list PackmolStructure := [mkPackmolStructure pair 1 []].
Definition named_pairs : list PackmolStructure := [mkPackmolStructure named_pair 1 []].

(** A template whose own residue name reads like a label. *)
Definition R0named : Topology := mkTopology [0] ["R0"] ∅ ∅.

(** One template with charges and one without. *)
Definition charged : Topology :=
  mkTopology [0; 0] ["ION"] {["charges" := [VFloat 1; VFloat (-1)]]} ∅.
Definition plain : Topology := mkTopology [0] ["SOL"] ∅ ∅.
Definition mixed : list PackmolStructure :=
  [mkPackmolStructure charged 1 []; mkPackmolStructure plain 1 []].
Definition mixed_blocks : list Block := [(0, charged); (1, plain)].
Definition packed_mixed : Topology :=
  mkTopology (packed_resindices 0 mixed_blocks) (packed_resnames mixed_blocks) ∅ ∅.

(** A template without atoms. *)
Definition nothing : Topology := mkTopology [] [] ∅ ∅.
Definition nothings : list PackmolStructure := [mkPackmolStructure nothing 1 []].

(** Packed structures whose first residue name is no label, or the
    label of a descriptor that does not exist. *)
Definition unlabelled : Topology := mkTopology [0] ["SOL"] ∅ ∅.
Definition mislabelled : Topology := mkTopology [0] ["R7"] ∅ ∅.

(** Collaborators. *)
Definition shown (name : Py.str) : string :=
  string_of_list_ascii (map ascii_of_N name).
Definition writer (g : Topology) : written :=
  Written (String.concat " " (map shown (resnames g))).
Definition broken_writer (g : Topology) : written := Failed OSError None.
Definition reader (content : option string) : result Topology :=
  match content with
  | Some _ => Ok packed
  | None => Raise OSError
  end.
Definition failing_shell (cmd : string) (fs : gmap string string)
  : CompletedProcess * gmap string string :=
  (mkCompleted 173 [] (list_ascii_of_string "cannot converge"), fs).
Definition working_shell (cmd : string) (fs : gmap string string)
  : CompletedProcess * gmap string string :=
  (mkCompleted 0 (list_ascii_of_string "Success!") [], <[PACKMOL_OUT := "ATOM"]> fs).
Definition ascii_decode (b : list ascii) : option string :=
  Some (string_of_list_ascii b).
Definition float_repr (x : Q) : string := "2.0".

Definition nowhere : World := mkWorld ∅ [].

End Sample.

(** ** The text of the packer's input, and further sample data *)

(** The sections of the descriptors, the first one at position [i]. *)
Fixpoint sections (i : nat) (structures : list PackmolStructure) : string :=
  match structures with
  | [] => ""
  | structure :: rest => to_packmol_inp structure i +:+ sections (S i) rest
  end.

(** What line 62 to line 65 write, and what line 71 writes. *)
Definition input_head (format_float : Q -> string) (tolerance : option Q) : string :=
  let tolerance := match tolerance with
                   | None => 2%Q
                   | Some t => t
                   end in
  let out := "# autogenerated packmol input" +:+ newline +:+ newline in
  let out := out +:+ "tolerance " +:+ format_float tolerance +:+ newline +:+ newline in
  out +:+ "filetype pdb" +:+ newline +:+ newline.

Definition input_tail : string := "output " +:+ PACKMOL_OUT +:+ newline +:+ newline.

(** The events of writing the files of positions [i], ..., [i + n - 1]. *)
Definition wrote_inputs (i n : nat) : list event :=
  map (fun k => Wrote (PACKMOL_STRUCTURE_FILES k)) (seq i n).

(** The lines of the instructions of a section. *)
Definition instruction_lines (instructions : list string) : string :=
  fold_right (fun instruction rest => "  " +:+ instruction +:+ newline +:+ rest)
             "" instructions.

Definition bonded_attr_names : list string := ["bonds"; "angles"; "dihedrals"; "impropers"].

Module More.

(** A butane-like template with one dihedral and no improper, and an
    ion; two named residues in one template. *)
Definition chain : Topology :=
  mkTopology [0; 0; 1; 1] ["HED"; "TAL"]
             {["names" := [VStr "C1"; VStr "C2"; VStr "C3"; VStr "C4"]]}
             {["bonds" := [[0; 1]; [1; 2]; [2; 3]]; "dihedrals" := [[0; 1; 2; 3]]]}.
Definition ion : Topology := mkTopology [0] ["NA"] {["names" := [VStr "NA"]]} ∅.
Definition structures : list PackmolStructure :=
  [mkPackmolStructure chain 2 ["inside box 0. 0. 0. 20. 20. 20."];
   mkPackmolStructure ion 3 []].
Definition blocks : list Block := [(1, ion); (0, chain); (0, chain)].
Definition packed : Topology :=
  mkTopology (packed_resindices 0 blocks) (packed_resnames blocks) ∅ ∅.

(** A packed atom whose label counts from the end of the list. *)
Definition from_the_end : Topology := mkTopology [0] ["R-1"] ∅ ∅.

(** Packed atoms whose label has a character between the R and the
    digit: the separator FS, which [int] does not skip, and the no-break
    space, which it does. *)
Definition separated : Topology := mkTopology [0] [[82; 28; 48]%N] ∅ ∅.
Definition spaced : Topology := mkTopology [0] [[82; 160; 49]%N] ∅ ∅.

(** A packed structure without atoms. *)
Definition no_atoms : Topology := mkTopology [] [] ∅ {["bonds" := [[0; 1]]]}.

Definition no_decode (b : list ascii) : option string := None.

(** A packer that exits with status 0 and whose output is the single
    byte FF, which is no UTF-8. *)
Definition garbled_shell (cmd : string) (fs : gmap string string)
  : CompletedProcess * gmap string string :=
  (mkCompleted 0 [ascii_of_nat 255] [], <[PACKMOL_OUT := "ATOM"]> fs).

(** A writer that leaves the residue name fields of the records, a line
    per atom, and the reader of these lines.  The writer gives up on a
    name that does not fit a line. *)
Definition line_feed : ascii := ascii_of_nat 10.

Definition pdb_line (field : option Py.str) : option (list ascii) :=
  match field with
  | Some name =>
      if forallb (fun c => (c <? 256)%N && negb (c =? 10)%N) name
      then Some (map ascii_of_N name ++ [line_feed])
      else None
  | None => None
  end.

Definition pdb_writer (g : Topology) : written :=
  match mapM pdb_line (pdb_records g) with
  | Some lines => Written (string_of_list_ascii (concat lines))
  | None => Failed OSError None
  end.

Fixpoint lines (line text : list ascii) : list (list ascii) :=
  match text with
  | [] => []
  | c :: rest =>
      if Ascii.eqb c line_feed then rev line :: lines [] rest
      else lines (c :: line) rest
  end.

Definition pdb_fields (text : string) : list (option Py.str) :=
  map (fun line => Some (map N_of_ascii line)) (lines [] (list_ascii_of_string text)).
Definition no_reader (content : option string) : result Topology := Raise OSError.

End More.

(** * Properties *)

(** ** The Python primitives on a few inputs *)

Example int_plain : Py.int "12" = Some 12%Z.
Proof. reflexivity. Qed.
Example int_signed_spaced : Py.int " -1_0 " = Some (-10)%Z.
Proof. reflexivity. Qed.
Example int_empty : Py.int "" = None.
Proof. reflexivity. Qed.
Example int_double_underscore : Py.int "1__0" = None.
Proof. reflexivity. Qed.
Example int_letters : Py.int "OL" = None.
Proof. reflexivity. Qed.
Example int_after_separator : Py.int [28; 49]%N = None.
Proof. reflexivity. Qed.
Example int_after_no_break_space : Py.int [160; 49]%N = Some 1%Z.
Proof. reflexivity. Qed.
Example int_next_line_around : Py.int [133; 55; 133]%N = Some 7%Z.
Proof. reflexivity. Qed.
Example int_arabic_indic : Py.int [1633; 1634]%N = Some 12%Z.
Proof. reflexivity. Qed.
Example int_superscript : Py.int [178]%N = None.
Proof. reflexivity. Qed.
Example int_blank_inside : Py.int "1 2" = None.
Proof. reflexivity. Qed.
Example decode_plain : Py.decode_utf8 (list_ascii_of_string "Success!") = Some "Success!".
Proof. reflexivity. Qed.
Example decode_byte_255 : Py.decode_utf8 [ascii_of_nat 255] = None.
Proof. reflexivity. Qed.
Example decode_two_bytes :
  Py.utf8_valid [ascii_of_nat 195; ascii_of_nat 169] = true
  /\ Py.utf8_valid [ascii_of_nat 195] = false
  /\ Py.utf8_valid [ascii_of_nat 237; ascii_of_nat 160; ascii_of_nat 128] = false.
Proof. repeat split. Qed.
Example repr_escapes :
  Py.repr_bytes [ascii_of_nat 39; ascii_of_nat 10; ascii_of_nat 200]
  = String "b" (String Py.dquote (String Py.squote
      (String Py.backslash (String "n" (String Py.backslash
        (String "x" (String "c" (String "8" (String Py.dquote EmptyString))))))))).
Proof. reflexivity. Qed.
Example pdb_resname_cut : pdb_resname "R1000" = "R100".
Proof. reflexivity. Qed.
Example label_with_no_break_space :
  template_at Sample.structures (initial_walk Sample.structures More.spaced)
  = Ok Sample.B.
Proof. reflexivity. Qed.
Example label_with_separator :
  template_at Sample.structures (initial_walk Sample.structures More.separated)
  = Raise (ValueError None).
Proof. reflexivity. Qed.
Example getitem_last : Py.getitem [10; 20; 30] (-1)%Z = Ok 30.
Proof. reflexivity. Qed.
Example getitem_below : Py.getitem [10; 20; 30] (-4)%Z = Raise IndexError.
Proof. reflexivity. Qed.
Example repr_plain :
  Py.repr_bytes (list_ascii_of_string "cannot converge") = "b'cannot converge'".
Proof. reflexivity. Qed.
Example label_12 : replica_label 12 = "R12".
Proof. reflexivity. Qed.
Example structure_section :
  to_packmol_inp (mkPackmolStructure Sample.B 1 ["fixed 0. 0. 0. 0. 0. 0."]) 1
  = "structure input1.pdb" +:+ newline +:+ "  number 1" +:+ newline
      +:+ "  fixed 0. 0. 0. 0. 0. 0." +:+ newline
      +:+ "end structure" +:+ newline +:+ newline.
Proof. reflexivity. Qed.

(** ** Labels survive printing and parsing *)

Section Labels.

Lemma digit_not_space c : Py.isdigit c = true -> Py.isspace c = false.
Proof.
  unfold Py.isdigit, Py.isspace. intros H.
  apply andb_true_iff in H as [H1 H2].
  apply Nat.leb_le in H1. apply Nat.leb_le in H2.
  apply orb_false_iff. split.
  - apply andb_false_iff. right. apply Nat.leb_gt. lia.
  - apply Nat.eqb_neq. lia.
Qed.

Lemma to_ascii_digit c : Py.isdigit c = true -> Py.to_ascii (N_of_ascii c) = c.
Proof.
  destruct c as [[] [] [] [] [] [] [] []]; intros H; try discriminate H; reflexivity.
Qed.

Lemma to_ascii_digits l :
  Forall (fun c => Py.isdigit c = true) l ->
  map Py.to_ascii (map N_of_ascii l) = l.
Proof.
  induction 1 as [|c l Hc Hl IH]; [reflexivity|].
  cbn [map]. by rewrite (to_ascii_digit c Hc), IH.
Qed.

Lemma lstrip_digits l : Forall (fun c => Py.isdigit c = true) l -> Py.lstrip l = l.
Proof.
  destruct 1 as [|c l Hc Hl]; [reflexivity|].
  simpl. by rewrite (digit_not_space c Hc).
Qed.

Lemma strip_digits l : Forall (fun c => Py.isdigit c = true) l -> Py.strip l = l.
Proof.
  intros H. unfold Py.strip. rewrite (lstrip_digits l H).
  rewrite lstrip_digits; [apply rev_involutive|].
  by apply List.Forall_rev.
Qed.

Lemma literal_digits_all l prev :
  Forall (fun c => Py.isdigit c = true) l ->
  l <> [] \/ prev = true ->
  Py.literal_digits prev l = Some l.
Proof.
  intros H. revert prev. induction H as [|c l Hc Hl IH]; intros prev Hne.
  - destruct Hne as [Hne | ->]; [congruence | reflexivity].
  - simpl. rewrite Hc. rewrite IH; [reflexivity | by right].
Qed.

Lemma uint_digits d :
  Forall (fun c => Py.isdigit c = true)
         (list_ascii_of_string (NilEmpty.string_of_uint d)).
Proof. induction d; simpl; constructor; auto. Qed.

Lemma to_uint_nonempty n : NilEmpty.string_of_uint (N.to_uint n) <> "".
Proof.
  intros H.
  assert (Hn : N.to_uint n = Nil) by (destruct (N.to_uint n); simpl in H; congruence).
  pose proof (DecimalN.Unsigned.of_to n) as Hof. rewrite Hn in Hof.
  simpl in Hof. subst n. discriminate Hn.
Qed.

Lemma uint_nonempty_list d :
  d <> Nil -> list_ascii_of_string (NilEmpty.string_of_uint d) <> [].
Proof. by destruct d. Qed.

Lemma int_uint d :
  d <> Nil ->
  Py.int (Py.str_of_string (NilEmpty.string_of_uint d)) = Some (Z.of_N (N.of_uint d)).
Proof.
  intros Hnil. unfold Py.int, Py.str_of_string.
  pose proof (uint_digits d) as Hd.
  rewrite (to_ascii_digits _ Hd).
  rewrite (strip_digits _ Hd).
  pose proof (uint_nonempty_list d Hnil) as Hne.
  destruct (list_ascii_of_string (NilEmpty.string_of_uint d)) as [|c l] eqn:E;
    [congruence|].
  assert (Hc : Py.isdigit c = true) by (by inversion Hd).
  assert (Hm : Ascii.eqb c "-" = false).
  { apply Ascii.eqb_neq. intros ->. discriminate Hc. }
  assert (Hp : Ascii.eqb c "+" = false).
  { apply Ascii.eqb_neq. intros ->. discriminate Hc. }
  rewrite Hm, Hp.
  rewrite (literal_digits_all (c :: l) false Hd) by (by left).
  cbn [Py.int_max_str_digits Nat.ltb Nat.leb andb].
  unfold Py.digits_value. rewrite <- E, string_of_list_ascii_of_string.
  by rewrite NilEmpty.usu.
Qed.

Lemma to_uint_not_nil n : N.to_uint n <> Nil.
Proof.
  intros Hn. apply (to_uint_nonempty n). by rewrite Hn.
Qed.

Lemma int_format_nat n : Py.int (Py.format_nat n) = Some (Z.of_nat n).
Proof.
  unfold Py.format_nat. rewrite int_uint by apply to_uint_not_nil.
  rewrite DecimalN.Unsigned.of_to. by rewrite nat_N_Z.
Qed.

Lemma pos_to_uint_not_nil p : Pos.to_uint p <> Nil.
Proof.
  intros Hp. pose proof (DecimalPos.Unsigned.of_to p) as Hof.
  rewrite Hp in Hof. discriminate Hof.
Qed.

Lemma strip_signed l :
  l <> [] -> Forall (fun c => Py.isdigit c = true) l ->
  Py.strip ("-"%char :: l) = "-"%char :: l.
Proof.
  intros Hne Hl. unfold Py.strip.
  change (Py.lstrip ("-"%char :: l)) with ("-"%char :: l).
  assert (Hkeep : Py.lstrip (rev ("-"%char :: l)) = rev ("-"%char :: l)).
  { cbn [rev]. destruct (rev l) as [|c r] eqn:E.
    - apply (f_equal (@rev ascii)) in E. rewrite rev_involutive in E. done.
    - assert (Hc : Py.isdigit c = true).
      { apply List.Forall_rev in Hl. rewrite E in Hl. by inversion Hl. }
      cbn [app Py.lstrip]. by rewrite (digit_not_space c Hc). }
  rewrite Hkeep. apply rev_involutive.
Qed.

Lemma int_format_int z : Py.int (Py.format_int z) = Some z.
Proof.
  destruct z as [|p|p].
  - reflexivity.
  - unfold Py.format_int. rewrite int_uint by apply to_uint_not_nil.
    by rewrite DecimalN.Unsigned.of_to.
  - unfold Py.format_int, Py.int, Py.str_of_string.
    set (d := Pos.to_uint p).
    pose proof (uint_digits d) as Hd.
    pose proof (uint_nonempty_list d (pos_to_uint_not_nil p)) as Hne.
    change (list_ascii_of_string (String "-" (NilEmpty.string_of_uint d)))
      with ("-"%char :: list_ascii_of_string (NilEmpty.string_of_uint d)).
    cbn [map].
    change (Py.to_ascii (N_of_ascii "-")) with "-"%char.
    rewrite (to_ascii_digits _ Hd).
    rewrite (strip_signed _ Hne Hd).
    change (Ascii.eqb "-" "-") with true. cbn iota.
    rewrite (literal_digits_all _ false Hd) by (by left).
    cbn [Py.int_max_str_digits Nat.ltb Nat.leb andb].
    unfold Py.digits_value. rewrite string_of_list_ascii_of_string.
    rewrite NilEmpty.usu. cbn [option_map]. unfold d.
    change (N.of_uint (Pos.to_uint p)) with (Pos.of_uint (Pos.to_uint p)).
    by rewrite DecimalPos.Unsigned.of_to.
Qed.

Lemma int_tail_label t : Py.int (Py.tail (replica_label t)) = Some (Z.of_nat t).
Proof.
  change (Py.tail (replica_label t)) with (Py.str_of_string (Py.format_nat t)).
  apply int_format_nat.
Qed.

Lemma getitem_nat {A} (l : list A) (i : nat) :
  Py.getitem l (Z.of_nat i) = Py.of_option IndexError (l !! i).
Proof.
  unfold Py.getitem.
  destruct (Z.leb_spec 0 (Z.of_nat i)); [by rewrite Nat2Z.id | lia].
Qed.

End Labels.

(** ** The literal of a bytes object reads back *)

Lemma literal_body_repr_byte quote c rest :
  quote = Py.squote \/ quote = Py.dquote ->
  Py.literal_body quote (Py.repr_byte quote c ++ rest)
  = option_map (cons c) (Py.literal_body quote rest).
Proof.
  intros [-> | ->]; destruct c as [[] [] [] [] [] [] [] []]; reflexivity.
Qed.

Lemma literal_body_repr quote b :
  quote = Py.squote \/ quote = Py.dquote ->
  Py.literal_body quote (concat (map (Py.repr_byte quote) b) ++ [quote]) = Some b.
Proof.
  intros Hq. induction b as [|c b IH].
  - cbn [map concat app Py.literal_body]. by rewrite Ascii.eqb_refl.
  - cbn [map concat]. rewrite <- app_assoc.
    rewrite (literal_body_repr_byte quote c _ Hq). by rewrite IH.
Qed.

Lemma bytes_literal_repr b : Py.bytes_literal (Py.repr_bytes b) = Some b.
Proof.
  unfold Py.bytes_literal, Py.repr_bytes.
  rewrite list_ascii_of_string_of_list_ascii.
  set (quote := if _ : bool then Py.dquote else Py.squote).
  assert (Hq : quote = Py.squote \/ quote = Py.dquote).
  { unfold quote. destruct (_ && _); [by right | by left]. }
  change (Ascii.eqb "b" "b") with true. cbn [andb].
  replace (Ascii.eqb quote Py.squote || Ascii.eqb quote Py.dquote) with true
    by (destruct Hq as [-> | ->]; reflexivity).
  by apply literal_body_repr.
Qed.

(** ** Assignment to a slice of an array *)

Section SetValues.

Context {A : Type}.
Implicit Types vals arr pre mid post : list A.

Lemma slice_length a b arr :
  length (Py.slice a b arr) = min (b - a) (length arr - a).
Proof. unfold Py.slice. by rewrite length_take, length_drop. Qed.

Lemma set_values_fit a k vals arr :
  length vals = k -> a + k <= length arr ->
  set_values a (a + k) vals arr = Ok (take a arr ++ vals ++ drop (a + k) arr).
Proof.
  intros Hv Hk. unfold set_values. rewrite slice_length.
  replace (min (a + k - a) (length arr - a)) with k by lia.
  rewrite Hv, Nat.eqb_refl. reflexivity.
Qed.

Lemma set_values_app pre mid post vals :
  length vals = length mid ->
  set_values (length pre) (length pre + length mid) vals (pre ++ mid ++ post)
  = Ok (pre ++ vals ++ post).
Proof.
  intros Hv. rewrite (set_values_fit _ (length mid)); [|done|].
  - by rewrite take_app_length, drop_app_add, drop_app_length.
  - rewrite !length_app. lia.
Qed.

Lemma set_values_length a b vals arr arr' :
  set_values a b vals arr = Ok arr' -> length arr' = length arr.
Proof.
  unfold set_values. rewrite slice_length.
  destruct (Nat.eqb_spec (length vals) (min (b - a) (length arr - a))) as [E|E].
  - intros [= <-]. rewrite !length_app, length_take, length_drop. lia.
  - destruct vals as [|v [|? ?]]; try discriminate.
    intros [= <-].
    rewrite !length_app, length_take, length_drop, length_replicate. lia.
Qed.

Lemma set_values_mismatch a b vals arr :
  length vals <> length (Py.slice a b arr) -> length vals <> 1 ->
  set_values a b vals arr = Raise (ValueError None).
Proof.
  intros H1 H2. unfold set_values.
  destruct (Nat.eqb_spec (length vals) (length (Py.slice a b arr))); [done|].
  by destruct vals as [|v [|? ?]].
Qed.

(** A single value is given to every member of the slice. *)
Lemma set_values_broadcast n v arr :
  length arr = n -> set_values 0 n [v] arr = Ok (replicate n v).
Proof.
  intros Hn. unfold set_values. rewrite slice_length.
  replace (min (n - 0) (length arr - 0)) with n by lia.
  rewrite take_0, drop_ge by lia.
  destruct (Nat.eqb_spec (length [v]) n) as [<-|_]; [done|].
  by rewrite app_nil_r.
Qed.

Lemma set_values_whole vals arr :
  length vals = length arr -> set_values 0 (length arr) vals arr = Ok vals.
Proof.
  intros Hv. rewrite (set_values_fit 0 (length arr)) by (done || lia).
  rewrite take_0, drop_ge by (simpl; lia). by rewrite app_nil_r.
Qed.

End SetValues.

(** ** Copying the per-atom attributes of one block *)

Lemma copied_cons attr cursor b rest arr :
  copied attr cursor (b :: rest) arr
  = copied attr (cursor + n_atoms (snd b)) rest (copy1 attr cursor (snd b) arr).
Proof. reflexivity. Qed.

Lemma fold_copy_raise template lo hi e l :
  fold_left (copy_attr template lo hi) l (Raise e) = Raise e.
Proof. induction l; simpl; auto. Qed.

Lemma copy1_length attr cursor template arr :
  (forall vals, atom_attrs template !! attr = Some vals -> length vals = n_atoms template) ->
  cursor + n_atoms template <= length arr ->
  length (copy1 attr cursor template arr) = length arr.
Proof.
  intros Hwf Hle. unfold copy1. destruct (atom_attrs template !! attr) as [vals|]; [|done].
  rewrite !length_app, length_take, length_drop, (Hwf vals eq_refl). lia.
Qed.

Lemma fold_copy_attr template lo (u : Topology) (l : list string) :
  NoDup l ->
  (forall attr vals, attr ∈ l -> atom_attrs template !! attr = Some vals ->
     length vals = n_atoms template /\
     exists arr, atom_attrs u !! attr = Some arr /\ lo + n_atoms template <= length arr) ->
  exists m,
    fold_left (copy_attr template lo (lo + n_atoms template)) l (Ok u)
    = Ok (with_atom_attrs u m) /\
    forall attr,
      m !! attr = if decide (attr ∈ l)
                  then copy1 attr lo template <$> atom_attrs u !! attr
                  else atom_attrs u !! attr.
Proof.
  intros Hnd. revert u. induction Hnd as [|a l Ha Hnd IH]; intros u H.
  - exists (atom_attrs u). split; [by destruct u|].
    intros attr. by rewrite decide_False by apply not_elem_of_nil.
  - cbn [fold_left].
    assert (Hstep : exists m1,
               copy_attr template lo (lo + n_atoms template) (Ok u) a
               = Ok (with_atom_attrs u m1) /\
               m1 !! a = copy1 a lo template <$> atom_attrs u !! a /\
               forall attr, attr <> a -> m1 !! attr = atom_attrs u !! attr).
    { unfold copy_attr, copy1. simpl.
      destruct (atom_attrs template !! a) as [vals|] eqn:Ea.
      - pose proof (H a vals) as (Hv & arr & Harr & Hle);
          [apply list_elem_of_here | done |].
        unfold set_atom_attr. rewrite Harr. simpl.
        rewrite (set_values_fit _ _ _ _ Hv Hle). simpl.
        eexists. split; [reflexivity|]. split.
        + by rewrite lookup_insert_eq.
        + intros attr Hne. by rewrite lookup_insert_ne.
      - exists (atom_attrs u). split; [by destruct u|].
        split; [by destruct (atom_attrs u !! a)|done]. }
    destruct Hstep as (m1 & -> & Hm1a & Hm1).
    destruct (IH (with_atom_attrs u m1)) as (m & Hm & Hlook).
    { intros attr vals Hin Hsome. simpl.
      pose proof (H attr vals) as (Hv & arr & Harr & Hle);
        [by apply list_elem_of_further | done |].
      split; [done|]. exists arr. split; [|done].
      rewrite Hm1; [done|]. intros ->. done. }
    exists m. split; [exact Hm|].
    intros attr. rewrite Hlook. simpl.
    destruct (decide (attr = a)) as [->|Hne].
    + rewrite decide_False by done. rewrite decide_True by apply list_elem_of_here. done.
    + rewrite (Hm1 attr Hne).
      destruct (decide (attr ∈ l)).
      * by rewrite decide_True by (by apply list_elem_of_further).
      * by rewrite decide_False by (rewrite elem_of_cons; by intros [?|?]).
Qed.

(** ** One block of the walk *)

Lemma atom_attr_names_NoDup : NoDup atom_attr_names.
Proof. apply (bool_decide_unpack _). by vm_compute. Qed.

Lemma wf_template_residue template : wf_template template -> 0 < n_residues template.
Proof.
  intros [Hfirst Hri _]. apply head_Some in Hfirst as [l' Hl].
  rewrite Hl in Hri. by inversion Hri.
Qed.

Lemma wf_template_atom template : wf_template template -> 0 < n_atoms template.
Proof.
  intros [Hfirst _ _]. apply head_Some in Hfirst as [l' Hl].
  unfold n_atoms. rewrite Hl. simpl. lia.
Qed.

Lemma template_at_block structures st t template rest ipre npre :
  block_of structures (t, template) -> wf_template template ->
  resindices (new st) = ipre ++ packed_resindices (length npre) ((t, template) :: rest) ->
  length ipre = index st ->
  resnames (new st) = npre ++ packed_resnames ((t, template) :: rest) ->
  template_at structures st = Ok template /\
  resindices (new st) !! index st = Some (length npre).
Proof.
  intros Hb Hwf Hri Hi Hrn.
  pose proof (wf_template_residue _ Hwf) as Hres.
  assert (Hstart : resindices (new st) !! index st = Some (length npre)).
  { rewrite Hri, <- Hi. rewrite lookup_app_r by lia. rewrite Nat.sub_diag. simpl.
    destruct Hwf as [Hfirst _ _]. apply head_Some in Hfirst as [l' ->].
    simpl. by rewrite Nat.add_0_r. }
  split; [|done].
  unfold template_at. rewrite Hstart.
  assert (Hname : resnames (new st) !! length npre = Some (replica_label t)).
  { rewrite Hrn. rewrite lookup_app_r by lia. rewrite Nat.sub_diag. simpl.
    destruct (n_residues template); [lia | done]. }
  cbn [Py.of_option mbind result_bind Py.bind]. rewrite Hname.
  cbn [Py.of_option mbind result_bind Py.bind]. rewrite int_tail_label.
  cbn [Py.of_option mbind result_bind Py.bind].
  rewrite getitem_nat. unfold block_of in Hb. simpl in Hb.
  destruct (structures !! t) as [pms|]; simpl in *; [|done].
  by injection Hb as ->.
Qed.

Lemma loop_body_block structures st t template rest ipre npre :
  block_of structures (t, template) -> wf_template template ->
  resindices (new st) = ipre ++ packed_resindices (length npre) ((t, template) :: rest) ->
  length ipre = index st ->
  resnames (new st) = npre ++ packed_resnames ((t, template) :: rest) ->
  provisioned template (new st) ->
  exists m,
    loop_body structures st
    = Ok (mkWalk (index st + n_atoms template)
                 (mkTopology (resindices (new st))
                             (npre ++ resnames template ++ packed_resnames rest)
                             m (connections (new st)))
                 (extend template "bonds" (index st) (bonds st))
                 (extend template "angles" (index st) (angles st))
                 (extend template "dihedrals" (index st) (dihedrals st))
                 (extend template "impropers" (index st) (impropers st))) /\
    forall attr,
      m !! attr = if decide (attr ∈ atom_attr_names)
                  then copy1 attr (index st) template <$> atom_attrs (new st) !! attr
                  else atom_attrs (new st) !! attr.
Proof.
  intros Hb Hwf Hri Hi Hrn Hprov.
  destruct (template_at_block _ _ _ _ _ _ _ Hb Hwf Hri Hi Hrn) as [Ht Hstart].
  unfold loop_body. rewrite Ht, Hstart.
  cbn [Py.of_option mbind result_bind Py.bind].
  unfold set_resnames. rewrite Hrn.
  change (packed_resnames ((t, template) :: rest))
    with (replicate (n_residues template) (replica_label t) ++ packed_resnames rest).
  pose proof (set_values_app npre (replicate (n_residues template) (replica_label t))
                (packed_resnames rest) (resnames template)) as Hset.
  rewrite length_replicate in Hset. rewrite Hset by done. clear Hset.
  cbn [Py.of_option mbind mret result_ret result_bind Py.bind].
  set (u := with_resnames (new st) (npre ++ resnames template ++ packed_resnames rest)).
  destruct (fold_copy_attr template (index st) u atom_attr_names atom_attr_names_NoDup)
    as (m & Hfold & Hm).
  { intros attr vals Hin Hsome. split; [by apply (wf_attrs _ Hwf attr)|].
    destruct (Hprov attr vals Hin Hsome) as (arr & Harr & Hlen).
    exists arr. split; [done|]. rewrite Hlen. unfold n_atoms at 2. rewrite Hri.
    simpl. rewrite !length_app, length_map. unfold n_atoms. lia. }
  rewrite Hfold. cbn [Py.of_option mbind mret result_ret result_bind Py.bind].
  exists m. split; [done|]. exact Hm.
Qed.

(** ** The walk over a packing *)

Lemma extend_offset template attr cursor acc rest t :
  extend template attr cursor acc ++ offset_tuples attr (cursor + n_atoms template) rest
  = acc ++ offset_tuples attr cursor ((t, template) :: rest).
Proof.
  unfold extend. simpl.
  destruct (connections template !! attr); by rewrite <- ?app_assoc.
Qed.

Lemma provisioned_copy template template' u m rn cursor :
  (forall attr,
      m !! attr = if decide (attr ∈ atom_attr_names)
                  then copy1 attr cursor template' <$> atom_attrs u !! attr
                  else atom_attrs u !! attr) ->
  wf_template template' -> cursor + n_atoms template' <= n_atoms u ->
  provisioned template' u ->
  provisioned template u ->
  provisioned template (mkTopology (resindices u) rn m (connections u)).
Proof.
  intros Hm Hwf Hle Hown Hprov attr vals Hin Hsome.
  destruct (Hprov attr vals Hin Hsome) as (arr & Harr & Hlen).
  rewrite Hm, decide_True by done. simpl. rewrite Harr. simpl.
  eexists. split; [reflexivity|]. unfold n_atoms. simpl.
  unfold copy1. destruct (atom_attrs template' !! attr) as [vals'|] eqn:E; [|done].
  rewrite !length_app, length_take, length_drop, (wf_attrs _ Hwf attr vals' E).
  unfold n_atoms in *. lia.
Qed.

Lemma walk_blocks structures blocks :
  Forall (fun b => block_of structures b /\ wf_template (snd b)) blocks ->
  forall st ipre npre,
    resindices (new st) = ipre ++ packed_resindices (length npre) blocks ->
    length ipre = index st ->
    resnames (new st) = npre ++ packed_resnames blocks ->
    Forall (fun b => provisioned (snd b) (new st)) blocks ->
    exists m,
      while_loop (length blocks) structures st
      = Some (Ok (mkWalk (index st + total_atoms blocks)
                         (mkTopology (resindices (new st))
                                     (npre ++ restored_resnames blocks)
                                     m (connections (new st)))
                         (bonds st ++ offset_tuples "bonds" (index st) blocks)
                         (angles st ++ offset_tuples "angles" (index st) blocks)
                         (dihedrals st ++ offset_tuples "dihedrals" (index st) blocks)
                         (impropers st ++ offset_tuples "impropers" (index st) blocks))) /\
      forall attr,
        m !! attr = if decide (attr ∈ atom_attr_names)
                    then copied attr (index st) blocks <$> atom_attrs (new st) !! attr
                    else atom_attrs (new st) !! attr.
Proof.
  induction 1 as [|[t template] rest [Hb Hwf] Hrest IH]; intros st ipre npre Hri Hi Hrn Hprov.
  - exists (atom_attrs (new st)). split.
    + simpl in Hri, Hrn. rewrite app_nil_r in Hri, Hrn.
      cbn [length while_loop]. unfold n_atoms at 1. rewrite Hri, Hi, Nat.ltb_irrefl.
      unfold total_atoms. simpl. rewrite !app_nil_r, Nat.add_0_r, <- Hri, <- Hrn.
      by destruct st as [? [] ? ? ? ?].
    + intros attr. simpl. destruct (decide _); [|done].
      by destruct (atom_attrs (new st) !! attr).
  - pose proof (wf_template_atom _ Hwf) as Hk. simpl in Hk.
    inversion Hprov as [|? ? Hp1 Hp2]; subst.
    destruct (loop_body_block _ _ _ _ _ _ _ Hb Hwf Hri Hi Hrn Hp1) as (m1 & Hbody & Hm1).
    assert (Hlen : index st + n_atoms template <= n_atoms (new st)).
    { unfold n_atoms at 2. rewrite Hri. simpl. rewrite !length_app, length_map.
      unfold n_atoms. lia. }
    cbn [length while_loop].
    replace (index st <? n_atoms (new st)) with true
      by (symmetry; apply Nat.ltb_lt; lia).
    rewrite Hbody.
    match goal with |- context [while_loop _ _ ?s] => set (st1 := s) end.
    destruct (IH st1 (ipre ++ map (fun ri => length npre + ri) (resindices template))
                  (npre ++ resnames template)) as (m & Hloop & Hm).
    { simpl. rewrite Hri. simpl. rewrite <- app_assoc. do 3 f_equal.
      rewrite length_app. reflexivity. }
    { simpl. rewrite length_app, length_map. unfold n_atoms. lia. }
    { simpl. by rewrite <- app_assoc. }
    { simpl. eapply Forall_impl; [exact Hp2|]. intros b Hpb.
      by eapply provisioned_copy. }
    exists m. split.
    + rewrite Hloop. simpl. do 2 f_equal.
      unfold total_atoms. simpl.
      rewrite !(extend_offset _ _ _ _ _ t). simpl.
      rewrite <- !app_assoc. f_equal. lia.
    + intros attr. rewrite Hm. simpl. rewrite Hm1.
      destruct (decide (attr ∈ atom_attr_names)); [|done].
      by destruct (atom_attrs (new st) !! attr).
Qed.

(** ** Attribute provisioning *)

Lemma add_required_fst structures st attr :
  fst (add_required structures st attr)
  = if any_hasattr structures attr then add_TopologyAttr attr (fst st) else fst st.
Proof.
  unfold add_required, any_hasattr.
  destruct (existsb _ structures); [|done]. by destruct (negb _).
Qed.

Lemma add_required_snd structures st attr :
  snd (add_required structures st attr)
  = if any_hasattr structures attr && negb (all_hasattr structures attr)
    then snd st ++ [partial_warning] else snd st.
Proof.
  unfold add_required, any_hasattr, all_hasattr.
  destruct (existsb _ structures); [|done]. by destruct (negb _).
Qed.

Lemma fold_add_required structures l :
  NoDup l ->
  forall u ws,
    let r := fst (fold_left (add_required structures) l (u, ws)) in
    resindices r = resindices u /\ resnames r = resnames u /\
    connections r = connections u /\
    forall attr,
      atom_attrs r !! attr
      = if decide (attr ∈ l)
        then (if any_hasattr structures attr
              then Some (replicate (n_atoms u) (blank attr))
              else atom_attrs u !! attr)
        else atom_attrs u !! attr.
Proof.
  induction 1 as [|a l Ha Hnd IH]; intros u ws; cbn zeta.
  - simpl. repeat split.
  - cbn [fold_left].
    destruct (add_required structures (u, ws) a) as [u1 ws1] eqn:E.
    pose proof (add_required_fst structures (u, ws) a) as Hu1.
    rewrite E in Hu1. simpl in Hu1.
    destruct (IH u1 ws1) as (H1 & H2 & H3 & H4).
    assert (Hsame : resindices u1 = resindices u /\ resnames u1 = resnames u /\
                    connections u1 = connections u).
    { rewrite Hu1. by destruct (any_hasattr structures a). }
    destruct Hsame as (S1 & S2 & S3).
    rewrite H1, H2, H3. repeat split; try done.
    intros attr. rewrite H4.
    assert (Hn : n_atoms u1 = n_atoms u) by (unfold n_atoms; by rewrite S1).
    rewrite Hn.
    destruct (decide (attr = a)) as [->|Hne].
    + rewrite decide_False by done. rewrite decide_True by apply list_elem_of_here.
      rewrite Hu1. destruct (any_hasattr structures a); [|done].
      simpl. by rewrite lookup_insert_eq.
    + assert (Hlook : atom_attrs u1 !! attr = atom_attrs u !! attr).
      { rewrite Hu1. destruct (any_hasattr structures a); [|done].
        simpl. by rewrite lookup_insert_ne. }
      rewrite Hlook.
      destruct (decide (attr ∈ l)).
      * by rewrite decide_True by (by apply list_elem_of_further).
      * by rewrite decide_False by (rewrite elem_of_cons; by intros [?|?]).
Qed.

Lemma fold_add_required_warnings structures l u ws :
  snd (fold_left (add_required structures) l (u, ws))
  = ws ++ flat_map (fun attr =>
                      if any_hasattr structures attr && negb (all_hasattr structures attr)
                      then [partial_warning] else []) l.
Proof.
  revert u ws. induction l as [|a l IH]; intros u ws.
  - simpl. by rewrite app_nil_r.
  - cbn [fold_left flat_map].
    destruct (add_required structures (u, ws) a) as [u1 ws1] eqn:E.
    rewrite IH.
    pose proof (add_required_snd structures (u, ws) a) as Hws.
    rewrite E in Hws. simpl in Hws. rewrite Hws.
    destruct (_ && _); [by rewrite <- app_assoc | done].
Qed.

Lemma copied_blank attr blocks :
  Forall (fun b => wf_template (snd b)) blocks ->
  forall pre,
    copied attr (length pre) blocks (pre ++ replicate (total_atoms blocks) (blank attr))
    = pre ++ restored_attr attr blocks.
Proof.
  induction 1 as [|[t template] rest Hwf Hrest IH]; intros pre.
  - simpl. reflexivity.
  - rewrite copied_cons. unfold total_atoms. simpl. fold (total_atoms rest).
    rewrite replicate_add.
    assert (Hc : copy1 attr (length pre) template
                       (pre ++ replicate (n_atoms template) (blank attr)
                            ++ replicate (total_atoms rest) (blank attr))
                 = (pre ++ match atom_attrs template !! attr with
                           | Some vals => vals
                           | None => replicate (n_atoms template) (blank attr)
                           end) ++ replicate (total_atoms rest) (blank attr)).
    { unfold copy1. destruct (atom_attrs template !! attr) as [vals|] eqn:E.
      - rewrite take_app_length, drop_app_add.
        rewrite <- (length_replicate (n_atoms template) (blank attr)) at 1.
        rewrite drop_app_length. by rewrite <- app_assoc.
      - by rewrite <- app_assoc. }
    rewrite Hc.
    replace (length pre + n_atoms template)
      with (length (pre ++ match atom_attrs template !! attr with
                           | Some vals => vals
                           | None => replicate (n_atoms template) (blank attr)
                           end)).
    + rewrite IH. by rewrite <- app_assoc.
    + rewrite length_app. f_equal.
      destruct (atom_attrs template !! attr) as [vals|] eqn:E.
      * by apply (wf_attrs _ Hwf attr).
      * by rewrite length_replicate.
Qed.

Lemma copied_absent attr blocks cursor arr :
  Forall (fun b => atom_attrs (snd b) !! attr = None) blocks ->
  copied attr cursor blocks arr = arr.
Proof.
  intros H. revert cursor arr. induction H as [|b rest Hb Hrest IH]; intros cursor arr.
  - reflexivity.
  - rewrite copied_cons. rewrite IH. unfold copy1. by rewrite Hb.
Qed.

Lemma block_hasattr structures b attr vals :
  block_of structures b -> atom_attrs (snd b) !! attr = Some vals ->
  any_hasattr structures attr = true.
Proof.
  unfold block_of. intros Hb Hsome.
  destruct (structures !! fst b) as [pms|] eqn:E; [|done].
  simpl in Hb. injection Hb as Hag.
  unfold any_hasattr. apply existsb_exists. exists pms. split.
  - apply list_elem_of_In. by eapply list_elem_of_lookup_2.
  - unfold hasattr. apply bool_decide_eq_true. rewrite Hag, Hsome. by eexists.
Qed.

(** ** Attaching the bonded lists *)

Lemma attach_fields st :
  resindices (attach st) = resindices (new st) /\
  resnames (attach st) = resnames (new st) /\
  atom_attrs (attach st) = atom_attrs (new st).
Proof.
  unfold attach.
  destruct (nonempty (bonds st)), (nonempty (angles st)),
    (nonempty (dihedrals st)), (nonempty (impropers st)); done.
Qed.

Lemma attach_bonds st :
  connections (attach st) !! "bonds"
  = if nonempty (bonds st) then Some (bonds st) else connections (new st) !! "bonds".
Proof.
  unfold attach, add_connections.
  destruct (nonempty (bonds st)), (nonempty (angles st)),
    (nonempty (dihedrals st)), (nonempty (impropers st)); simpl;
    by simplify_map_eq.
Qed.

Lemma attach_angles st :
  connections (attach st) !! "angles"
  = if nonempty (angles st) then Some (bonds st) else connections (new st) !! "angles".
Proof.
  unfold attach, add_connections.
  destruct (nonempty (bonds st)), (nonempty (angles st)),
    (nonempty (dihedrals st)), (nonempty (impropers st)); simpl;
    by simplify_map_eq.
Qed.

Lemma attach_dihedrals st :
  connections (attach st) !! "dihedrals"
  = if nonempty (dihedrals st) then Some (dihedrals st)
    else connections (new st) !! "dihedrals".
Proof.
  unfold attach, add_connections.
  destruct (nonempty (bonds st)), (nonempty (angles st)),
    (nonempty (dihedrals st)), (nonempty (impropers st)); simpl;
    by simplify_map_eq.
Qed.

(** ** Reassembly of a packing *)

Lemma packed_resindices_length r blocks :
  length (packed_resindices r blocks) = total_atoms blocks.
Proof.
  revert r. induction blocks as [|b rest IH]; intros r; [done|].
  simpl. rewrite length_app, length_map, IH. reflexivity.
Qed.

Lemma reassign_packing structures blocks u :
  Forall (fun b => block_of structures b /\ wf_template (snd b)) blocks ->
  is_packing blocks u ->
  exists m,
    snd (reassign_topology (length blocks) structures u)
    = Some (Ok (attach (mkWalk (total_atoms blocks)
                               (mkTopology (resindices u) (restored_resnames blocks)
                                           m (connections u))
                               (offset_tuples "bonds" 0 blocks)
                               (offset_tuples "angles" 0 blocks)
                               (offset_tuples "dihedrals" 0 blocks)
                               (offset_tuples "impropers" 0 blocks)))) /\
    forall attr,
      m !! attr
      = if decide (attr ∈ atom_attr_names)
        then (if any_hasattr structures attr
              then Some (restored_attr attr blocks)
              else atom_attrs u !! attr)
        else atom_attrs u !! attr.
Proof.
  intros Hblocks [Hri Hrn].
  destruct (fold_add_required structures atom_attr_names atom_attr_names_NoDup u [])
    as (P1 & P2 & P3 & P4).
  set (st0 := initial_walk structures u).
  assert (Hn : n_atoms u = total_atoms blocks).
  { unfold n_atoms. by rewrite Hri, packed_resindices_length. }
  destruct (walk_blocks structures blocks Hblocks st0 [] []) as (m & Hloop & Hm).
  { unfold st0, initial_walk. cbn [new]. by rewrite P1. }
  { reflexivity. }
  { unfold st0, initial_walk. cbn [new]. by rewrite P2. }
  { apply Forall_forall. intros b Hb attr vals Hin Hsome.
    rewrite Forall_forall in Hblocks. destruct (Hblocks b Hb) as [Hof _].
    unfold st0, initial_walk. cbn [new]. rewrite P4.
    rewrite decide_True by done.
    rewrite (block_hasattr structures b attr vals Hof Hsome).
    eexists. split; [reflexivity|]. rewrite length_replicate.
    unfold n_atoms. by rewrite P1. }
  exists m. split.
  - unfold reassign_topology. cbn [snd]. fold st0. rewrite Hloop.
    unfold st0, initial_walk. cbn [new index bonds angles dihedrals impropers].
    by rewrite P1, P3.
  - intros attr. rewrite Hm. unfold st0, initial_walk. cbn [new index].
    rewrite P4. destruct (decide (attr ∈ atom_attr_names)) as [Hin|]; [|done].
    destruct (any_hasattr structures attr) eqn:Hany.
    + simpl. f_equal. rewrite Hn. apply (copied_blank attr blocks) with (pre := []).
      eapply Forall_impl; [exact Hblocks|]. by intros b [_ ?].
    + assert (Habs : Forall (fun b => atom_attrs (snd b) !! attr = None) blocks).
      { eapply Forall_impl; [exact Hblocks|]. intros b [Hof _].
        destruct (atom_attrs (snd b) !! attr) as [vals|] eqn:E; [|done].
        pose proof (block_hasattr structures b attr vals Hof E). congruence. }
      destruct (atom_attrs u !! attr) as [arr|]; [|done].
      simpl. by rewrite copied_absent.
Qed.

(** ** General facts about one iteration and about the loop *)

Lemma copy_attr_fields template lo hi u attr u' :
  copy_attr template lo hi (Ok u) attr = Ok u' ->
  resindices u' = resindices u /\ resnames u' = resnames u /\
  connections u' = connections u.
Proof.
  unfold copy_attr. cbn [mbind result_bind Py.bind].
  destruct (atom_attrs template !! attr) as [vals|]; [|by intros [= <-]].
  unfold set_atom_attr. intros H.
  destruct (atom_attrs u !! attr) as [arr|]; [|discriminate H].
  cbn [Py.of_option mbind result_bind Py.bind] in H.
  destruct (set_values lo hi vals arr); [|discriminate H].
  cbn [mbind mret result_ret result_bind Py.bind] in H. by injection H as <-.
Qed.

Lemma fold_copy_fields template lo hi l u u' :
  fold_left (copy_attr template lo hi) l (Ok u) = Ok u' ->
  resindices u' = resindices u /\ resnames u' = resnames u /\
  connections u' = connections u.
Proof.
  revert u. induction l as [|a l IH]; intros u H.
  - simpl in H. by injection H as <-.
  - cbn [fold_left] in H.
    destruct (copy_attr template lo hi (Ok u) a) as [u1|e] eqn:E.
    + destruct (copy_attr_fields _ _ _ _ _ _ E) as (A1 & A2 & A3).
      destruct (IH _ H) as (B1 & B2 & B3). by rewrite B1, B2, B3.
    + by rewrite fold_copy_raise in H.
Qed.

Lemma loop_body_inv structures st st' :
  loop_body structures st = Ok st' ->
  exists template,
    template_at structures st = Ok template /\
    index st' = index st + n_atoms template /\
    resindices (new st') = resindices (new st) /\
    connections (new st') = connections (new st) /\
    bonds st' = extend template "bonds" (index st) (bonds st) /\
    angles st' = extend template "angles" (index st) (angles st).
Proof.
  unfold loop_body. intros H.
  destruct (template_at structures st) as [template|] eqn:Et; [|discriminate H].
  cbn [mbind result_bind Py.bind] in H.
  destruct (Py.of_option IndexError (resindices (new st) !! index st)) as [r|];
    [|discriminate H].
  cbn [mbind result_bind Py.bind] in H.
  destruct (set_resnames _ _ _ (new st)) as [u1|] eqn:E1; [|discriminate H].
  cbn [mbind result_bind Py.bind] in H.
  destruct (fold_left _ _ (Ok u1)) as [u2|] eqn:E2; [|discriminate H].
  cbn [mbind mret result_ret result_bind Py.bind] in H. injection H as <-.
  exists template. cbn [index new bonds angles].
  destruct (fold_copy_fields _ _ _ _ _ _ E2) as (A1 & A2 & A3).
  unfold set_resnames in E1.
  destruct (set_values _ _ _ (resnames (new st))); [|discriminate E1].
  cbn [mbind mret result_ret result_bind Py.bind] in E1. injection E1 as <-.
  by rewrite A1, A3.
Qed.

Lemma getitem_In {A} (l : list A) z x : Py.getitem l z = Ok x -> x ∈ l.
Proof.
  unfold Py.getitem. intros H.
  repeat match type of H with
         | context [if ?c then _ else _] => destruct c
         end; try discriminate H.
  all: match type of H with
       | Py.of_option _ (?l0 !! ?i) = _ =>
           destruct (l0 !! i) eqn:E; [|discriminate H];
           injection H as <-; by eapply list_elem_of_lookup_2
       end.
Qed.

Lemma template_at_In structures st template :
  template_at structures st = Ok template ->
  exists pms, pms ∈ structures /\ ag pms = template.
Proof.
  unfold template_at. intros H.
  destruct (Py.of_option IndexError (resindices (new st) !! index st)); [|discriminate H].
  cbn [mbind result_bind Py.bind] in H.
  destruct (Py.of_option IndexError (resnames (new st) !! a)) as [name|]; [|discriminate H].
  cbn [mbind result_bind Py.bind] in H.
  destruct (Py.of_option (ValueError None) (Py.int (Py.tail name))) as [z|];
    [|discriminate H].
  cbn [mbind result_bind Py.bind] in H.
  destruct (Py.getitem structures z) as [pms|] eqn:E; [|discriminate H].
  cbn [mbind mret result_ret result_bind Py.bind] in H. injection H as <-.
  exists pms. split; [by eapply getitem_In | done].
Qed.

Lemma while_loop_mono structures fuel fuel' st r :
  while_loop fuel structures st = Some r -> fuel <= fuel' ->
  while_loop fuel' structures st = Some r.
Proof.
  revert fuel' st. induction fuel as [|fuel IH]; intros fuel' st H Hle.
  - simpl in H. destruct fuel'; simpl; by destruct (index st <? n_atoms (new st)).
  - destruct fuel' as [|fuel']; [lia|].
    simpl in *. destruct (index st <? n_atoms (new st)); [|done].
    destruct (loop_body structures st); [|done]. apply IH; [done | lia].
Qed.

Lemma while_loop_det structures fuel fuel' st r r' :
  while_loop fuel structures st = Some r ->
  while_loop fuel' structures st = Some r' -> r = r'.
Proof.
  intros H H'.
  destruct (Nat.le_ge_cases fuel fuel') as [Hle|Hle].
  - rewrite (while_loop_mono _ _ _ _ _ H Hle) in H'. congruence.
  - rewrite (while_loop_mono _ _ _ _ _ H' Hle) in H. congruence.
Qed.

(** A run from a reachable state is the end of a run from the start. *)
Lemma reaches_run structures st0 st :
  reaches structures st0 st ->
  forall fuel r, while_loop fuel structures st = Some r ->
                 exists fuel', while_loop fuel' structures st0 = Some r.
Proof.
  induction 1 as [|st st' Hreach IH Hlt Hbody]; intros fuel r Hrun.
  - by exists fuel.
  - apply (IH (S fuel)). simpl.
    replace (index st <? n_atoms (new st)) with true
      by (symmetry; by apply Nat.ltb_lt).
    by rewrite Hbody.
Qed.

(** A run from the start that ends passes through the reachable states. *)
Lemma run_reaches structures st0 st :
  reaches structures st0 st ->
  forall fuel r, while_loop fuel structures st0 = Some r ->
                 exists fuel', while_loop fuel' structures st = Some r.
Proof.
  induction 1 as [|st st' Hreach IH Hlt Hbody]; intros fuel r Hrun.
  - by exists fuel.
  - destruct (IH fuel r Hrun) as [fuel' Hst].
    destruct fuel' as [|fuel']; simpl in Hst;
      replace (index st <? n_atoms (new st)) with true in Hst
        by (symmetry; by apply Nat.ltb_lt); [discriminate|].
    rewrite Hbody in Hst. by exists fuel'.
Qed.

Lemma reaches_trans structures st0 st1 st2 :
  reaches structures st0 st1 -> reaches structures st1 st2 ->
  reaches structures st0 st2.
Proof.
  intros H1 H2. induction H2; [done|]. by eapply reaches_step.
Qed.

(** ** Termination of the walk *)

Lemma walk_terminates structures st0 :
  (forall st template,
      reaches structures st0 st -> index st < n_atoms (new st) ->
      template_at structures st = Ok template -> 0 < n_atoms template) ->
  forall fuel st,
    reaches structures st0 st -> n_atoms (new st) - index st <= fuel ->
    while_loop fuel structures st <> None.
Proof.
  intros Hpos. induction fuel as [|fuel IH]; intros st Hreach Hle.
  - simpl. destruct (Nat.ltb_spec (index st) (n_atoms (new st))); [lia | done].
  - simpl. destruct (Nat.ltb_spec (index st) (n_atoms (new st))) as [Hlt|]; [|done].
    destruct (loop_body structures st) as [st'|e] eqn:Hbody; [|done].
    destruct (loop_body_inv _ _ _ Hbody) as (template & Ht & Hi & Hri & _).
    pose proof (Hpos st template Hreach Hlt Ht) as Hk.
    apply IH; [by eapply reaches_step|].
    unfold n_atoms in *. rewrite Hri. lia.
Qed.

Lemma fold_copy_dom template lo hi l u u' :
  fold_left (copy_attr template lo hi) l (Ok u) = Ok u' ->
  forall attr, is_Some (atom_attrs u !! attr) -> is_Some (atom_attrs u' !! attr).
Proof.
  revert u. induction l as [|a l IH]; intros u H attr Hsome.
  - simpl in H. by injection H as <-.
  - cbn [fold_left] in H.
    destruct (copy_attr template lo hi (Ok u) a) as [u1|e] eqn:E;
      [|by rewrite fold_copy_raise in H].
    apply (IH u1 H). clear H IH.
    unfold copy_attr in E. cbn [mbind result_bind Py.bind] in E.
    destruct (atom_attrs template !! a) as [vals|]; [|by injection E as <-].
    unfold set_atom_attr in E.
    destruct (atom_attrs u !! a) as [arr|]; [|discriminate E].
    cbn [Py.of_option mbind result_bind Py.bind] in E.
    destruct (set_values lo hi vals arr) as [arr'|]; [|discriminate E].
    cbn [mbind mret result_ret result_bind Py.bind] in E. injection E as <-.
    simpl. destruct (decide (a = attr)) as [->|Hne].
    + rewrite lookup_insert_eq. by eexists.
    + by rewrite lookup_insert_ne.
Qed.

Lemma loop_body_dom structures st st' attr :
  loop_body structures st = Ok st' ->
  is_Some (atom_attrs (new st) !! attr) -> is_Some (atom_attrs (new st') !! attr).
Proof.
  unfold loop_body. intros H Hsome.
  destruct (template_at structures st) as [template|]; [|discriminate H].
  cbn [mbind result_bind Py.bind] in H.
  destruct (Py.of_option IndexError (resindices (new st) !! index st)) as [r|];
    [|discriminate H].
  cbn [mbind result_bind Py.bind] in H.
  destruct (set_resnames _ _ _ (new st)) as [u1|] eqn:E1; [|discriminate H].
  cbn [mbind result_bind Py.bind] in H.
  destruct (fold_left _ _ (Ok u1)) as [u2|] eqn:E2; [|discriminate H].
  cbn [mbind mret result_ret result_bind Py.bind] in H. injection H as <-.
  cbn [new]. apply (fold_copy_dom _ _ _ _ _ _ E2).
  unfold set_resnames in E1.
  destruct (set_values _ _ _ (resnames (new st))); [|discriminate E1].
  cbn [mbind mret result_ret result_bind Py.bind] in E1. by injection E1 as <-.
Qed.

Lemma reaches_provisioned structures u st attr :
  reaches structures (initial_walk structures u) st ->
  attr ∈ atom_attr_names -> any_hasattr structures attr = true ->
  is_Some (atom_attrs (new st) !! attr).
Proof.
  intros Hreach Hin Hany. induction Hreach as [|st st' _ IH _ Hbody].
  - destruct (fold_add_required structures atom_attr_names atom_attr_names_NoDup u [])
      as (_ & _ & _ & P4).
    unfold initial_walk. cbn [new]. rewrite P4, decide_True, Hany by done. by eexists.
  - by eapply loop_body_dom.
Qed.

(** A template without atoms leaves the cursor and the universe as they
    are. *)
Lemma fold_copy_empty template lo l u :
  n_atoms template = 0 ->
  (forall attr vals, atom_attrs template !! attr = Some vals ->
                     length vals = n_atoms template) ->
  (forall attr vals, attr ∈ l -> atom_attrs template !! attr = Some vals ->
                     is_Some (atom_attrs u !! attr)) ->
  fold_left (copy_attr template lo (lo + n_atoms template)) l (Ok u) = Ok u.
Proof.
  intros Hz Hwf. induction l as [|a l IH]; intros Hprov; [done|].
  cbn [fold_left].
  assert (Hstep : copy_attr template lo (lo + n_atoms template) (Ok u) a = Ok u).
  { unfold copy_attr. cbn [mbind result_bind Py.bind].
    destruct (atom_attrs template !! a) as [vals|] eqn:E; [|done].
    destruct (Hprov a vals) as [arr Harr]; [apply list_elem_of_here | done |].
    pose proof (Hwf a vals E) as Hlen. rewrite Hz in Hlen.
    destruct vals; [|discriminate Hlen].
    unfold set_atom_attr. rewrite Harr.
    cbn [Py.of_option mbind result_bind Py.bind].
    unfold set_values. rewrite slice_length, Hz.
    replace (min (lo + 0 - lo) (length arr - lo)) with 0 by lia.
    cbn [length Nat.eqb app]. rewrite Nat.add_0_r, take_drop.
    cbn [mbind mret result_ret result_bind Py.bind].
    rewrite insert_id by done. by destruct u. }
  rewrite Hstep. apply IH. intros attr vals Hin. apply Hprov.
  by apply list_elem_of_further.
Qed.

Lemma loop_body_empty structures st template :
  template_at structures st = Ok template ->
  index st < n_atoms (new st) ->
  n_atoms template = 0 -> n_residues template = 0 ->
  (forall attr vals, atom_attrs template !! attr = Some vals ->
                     length vals = n_atoms template) ->
  (forall attr vals, attr ∈ atom_attr_names -> atom_attrs template !! attr = Some vals ->
                     is_Some (atom_attrs (new st) !! attr)) ->
  exists st', loop_body structures st = Ok st' /\
              index st' = index st /\ new st' = new st.
Proof.
  intros Ht Hlt Hz Hr Hwf Hprov.
  unfold loop_body. rewrite Ht. cbn [mbind result_bind Py.bind].
  destruct (resindices (new st) !! index st) as [r|] eqn:Er.
  2:{ apply lookup_ge_None in Er. unfold n_atoms in Hlt. lia. }
  cbn [Py.of_option mbind result_bind Py.bind].
  assert (Hnames : resnames template = []).
  { unfold n_residues in Hr. by destruct (resnames template). }
  unfold set_resnames, set_values. rewrite slice_length, Hr, Hnames.
  replace (min (r + 0 - r) (length (resnames (new st)) - r)) with 0 by lia.
  cbn [length Nat.eqb app]. rewrite Nat.add_0_r, take_drop.
  cbn [mbind mret result_ret result_bind Py.bind].
  replace (with_resnames (new st) (resnames (new st))) with (new st)
    by (by destruct (new st)).
  rewrite fold_copy_empty by done.
  cbn [mbind mret result_ret result_bind Py.bind].
  eexists. split; [reflexivity|]. cbn [index new]. split; [lia | done].
Qed.

Lemma loop_body_cursor structures st1 st2 st1' :
  index st1 = index st2 -> new st1 = new st2 ->
  loop_body structures st1 = Ok st1' ->
  exists st2', loop_body structures st2 = Ok st2' /\
               index st2' = index st1' /\ new st2' = new st1'.
Proof.
  intros Hi Hn. unfold loop_body, template_at. rewrite Hi, Hn.
  unfold mbind, mret, result_bind, result_ret. intros H.
  repeat match type of H with
         | Py.bind ?r _ = _ => destruct r; cbn [Py.bind] in H |- *; [|discriminate H]
         end.
  injection H as <-. eexists. split; [reflexivity|]. done.
Qed.

Lemma stuck_forever structures st :
  index st < n_atoms (new st) ->
  (exists st', loop_body structures st = Ok st' /\
               index st' = index st /\ new st' = new st) ->
  forall fuel, while_loop fuel structures st = None.
Proof.
  intros Hlt Hstuck fuel. revert st Hlt Hstuck.
  induction fuel as [|fuel IH]; intros st Hlt (st' & Hbody & Hi & Hn); simpl;
    replace (index st <? n_atoms (new st)) with true
      by (symmetry; by apply Nat.ltb_lt); [done|].
  rewrite Hbody. apply IH.
  - by rewrite Hi, Hn.
  - destruct (loop_body_cursor structures st st' st') as (st'' & H1 & H2 & H3); try done.
    exists st''. repeat split; congruence.
Qed.

(** ** Labelling a template for the packer *)

Lemma with_ag_id self : with_ag self (ag self) = self.
Proof. by destruct self. Qed.

Lemma set_resnames_label index g :
  set_resnames 0 (n_residues g) [replica_label index] g = Ok (relabel index g).
Proof.
  unfold set_resnames, relabel.
  by rewrite (set_values_broadcast (n_residues g)).
Qed.

Lemma set_resnames_restore index g :
  set_resnames 0 (n_residues (relabel index g)) (resnames g) (relabel index g) = Ok g.
Proof.
  unfold set_resnames, relabel, n_residues. cbn [resnames with_resnames].
  rewrite set_values_whole by (by rewrite length_replicate).
  by destruct g.
Qed.

Lemma save_structure_written pdb_write self index w text :
  pdb_write (relabel index (ag self)) = Written text ->
  save_structure pdb_write self index w
  = (Ok tt, self, write_file (PACKMOL_STRUCTURE_FILES index) text w).
Proof.
  intros Hw. unfold save_structure. rewrite set_resnames_label, Hw.
  cbn [ag with_ag]. rewrite set_resnames_restore.
  by destruct self.
Qed.

Lemma save_structure_failed pdb_write self index w e partial :
  pdb_write (relabel index (ag self)) = Failed e partial ->
  save_structure pdb_write self index w
  = (Raise e, with_ag self (relabel index (ag self)),
     match partial with
     | Some text => write_file (PACKMOL_STRUCTURE_FILES index) text w
     | None => w
     end).
Proof.
  intros Hw. unfold save_structure. by rewrite set_resnames_label, Hw.
Qed.

Lemma relabel_atom_resname index g i ri :
  resindices g !! i = Some ri -> ri < n_residues g ->
  atom_resname (relabel index g) i = Some (replica_label index).
Proof.
  intros Hi Hri. unfold atom_resname, relabel. cbn [resindices resnames with_resnames].
  rewrite Hi. simpl. by apply lookup_replicate_2.
Qed.

(** ** What the steps before loading add to the trace *)


Lemma owr_refl w : only_writes_and_runs w w.
Proof. exists []. by rewrite app_nil_r. Qed.

Lemma owr_trans w1 w2 w3 :
  only_writes_and_runs w1 w2 -> only_writes_and_runs w2 w3 ->
  only_writes_and_runs w1 w3.
Proof.
  intros (e1 & H1 & F1) (e2 & H2 & F2). exists (e1 ++ e2). split.
  - by rewrite H2, H1, app_assoc.
  - by apply Forall_app.
Qed.

Lemma owr_write_file name text w : only_writes_and_runs w (write_file name text w).
Proof. exists [Wrote name]. split; [done|]. by repeat constructor. Qed.

Lemma owr_loaded w w' name :
  only_writes_and_runs w w' -> Loaded name ∈ trace w' -> Loaded name ∈ trace w.
Proof.
  intros (evs & -> & Hevs) Hin. apply elem_of_app in Hin as [Hin|Hin]; [done|].
  rewrite Forall_forall in Hevs. by specialize (Hevs _ Hin).
Qed.

Lemma save_structure_trace pdb_write self index w :
  only_writes_and_runs w (snd (save_structure pdb_write self index w)).
Proof.
  unfold save_structure. rewrite set_resnames_label.
  destruct (pdb_write _) as [text|e [text|]]; cbn [snd].
  - cbn [ag with_ag]. rewrite set_resnames_restore. apply owr_write_file.
  - apply owr_write_file.
  - apply owr_refl.
Qed.

Lemma write_structures_trace pdb_write todo i out w :
  only_writes_and_runs w (snd (write_structures pdb_write i todo out w)).
Proof.
  revert i out w. induction todo as [|structure rest IH]; intros i out w.
  - apply owr_refl.
  - cbn [write_structures].
    pose proof (save_structure_trace pdb_write structure i w) as Hs.
    destruct (save_structure pdb_write structure i w) as [[[?|e] s'] w1]; cbn [snd] in *.
    + pose proof (IH (S i) (out +:+ to_packmol_inp structure i) w1) as Hr.
      destruct (write_structures _ _ _ _ w1) as [[[r rest'] out'] w2]; cbn [snd] in *.
      by eapply owr_trans.
    + done.
Qed.

Lemma make_packmol_input_trace pdb_write format_float structures tolerance w :
  only_writes_and_runs
    w (snd (make_packmol_input pdb_write format_float structures tolerance w)).
Proof.
  unfold make_packmol_input.
  match goal with
  | |- context [write_structures ?a ?b ?c ?d ?e] =>
      pose proof (write_structures_trace a c b d e) as Hw;
      destruct (write_structures a b c d e) as [[[[?|?] ss] out'] w1]
  end; cbn [snd] in *; (eapply owr_trans; [exact Hw | apply owr_write_file]).
Qed.

(** ** Positions inside a packing *)

Lemma lookup_map {A B} (f : A -> B) (l : list A) i : map f l !! i = f <$> l !! i.
Proof. revert i. induction l as [|x l IH]; intros [|i]; simpl; auto. Qed.

Lemma total_atoms_app pre post :
  total_atoms (pre ++ post) = total_atoms pre + total_atoms post.
Proof. unfold total_atoms. by rewrite map_app, sum_list_with_app. Qed.

Lemma total_residues_app pre post :
  total_residues (pre ++ post) = total_residues pre + total_residues post.
Proof. unfold total_residues. by rewrite map_app, sum_list_with_app. Qed.

Lemma offset_tuples_app attr cursor pre post :
  offset_tuples attr cursor (pre ++ post)
  = offset_tuples attr cursor pre ++ offset_tuples attr (cursor + total_atoms pre) post.
Proof.
  revert cursor. induction pre as [|b pre IH]; intros cursor.
  - unfold total_atoms. simpl. by rewrite Nat.add_0_r.
  - simpl. rewrite IH, <- app_assoc. unfold total_atoms. simpl.
    by rewrite Nat.add_assoc.
Qed.

Lemma packed_resindices_app r pre post :
  packed_resindices r (pre ++ post)
  = packed_resindices r pre ++ packed_resindices (r + total_residues pre) post.
Proof.
  revert r. induction pre as [|b pre IH]; intros r.
  - unfold total_residues. simpl. by rewrite Nat.add_0_r.
  - simpl. rewrite IH, <- app_assoc. unfold total_residues. simpl.
    by rewrite Nat.add_assoc.
Qed.

Lemma packed_resnames_length blocks :
  length (packed_resnames blocks) = total_residues blocks.
Proof.
  induction blocks as [|b rest IH]; [done|].
  unfold packed_resnames, total_residues in *. simpl.
  by rewrite length_app, length_replicate, IH.
Qed.

Lemma restored_resnames_length blocks :
  length (restored_resnames blocks) = total_residues blocks.
Proof.
  induction blocks as [|b rest IH]; [done|].
  unfold restored_resnames, total_residues in *. simpl.
  by rewrite length_app, IH.
Qed.

Lemma restored_attr_length attr blocks :
  Forall (fun b => wf_template (snd b)) blocks ->
  length (restored_attr attr blocks) = total_atoms blocks.
Proof.
  induction 1 as [|b rest Hwf Hrest IH]; [done|].
  unfold restored_attr, total_atoms in *. simpl. rewrite length_app, IH. f_equal.
  destruct (atom_attrs (snd b) !! attr) as [vals|] eqn:E.
  - by apply (wf_attrs _ Hwf attr).
  - by rewrite length_replicate.
Qed.

(** The atom [j] of the block after [pre]. *)
Lemma packed_resindices_lookup pre t template post j ri :
  resindices template !! j = Some ri ->
  packed_resindices 0 (pre ++ (t, template) :: post) !! (total_atoms pre + j)
  = Some (total_residues pre + ri).
Proof.
  intros Hj. rewrite packed_resindices_app.
  rewrite lookup_app_r by (rewrite packed_resindices_length; lia).
  rewrite packed_resindices_length.
  replace (total_atoms pre + j - total_atoms pre) with j by lia.
  simpl. rewrite lookup_app_l.
  - by rewrite lookup_map, Hj.
  - rewrite length_map. by eapply lookup_lt_Some.
Qed.

Lemma packed_resnames_lookup pre t template post ri :
  ri < n_residues template ->
  packed_resnames (pre ++ (t, template) :: post) !! (total_residues pre + ri)
  = Some (replica_label t).
Proof.
  intros Hri. unfold packed_resnames. rewrite flat_map_app.
  fold (packed_resnames pre).
  rewrite lookup_app_r by (rewrite packed_resnames_length; lia).
  rewrite packed_resnames_length.
  replace (total_residues pre + ri - total_residues pre) with ri by lia.
  simpl. rewrite lookup_app_l by (by rewrite length_replicate).
  by apply lookup_replicate_2.
Qed.

Lemma restored_resnames_lookup pre t template post ri :
  ri < n_residues template ->
  restored_resnames (pre ++ (t, template) :: post) !! (total_residues pre + ri)
  = resnames template !! ri.
Proof.
  intros Hri. unfold restored_resnames. rewrite flat_map_app.
  fold (restored_resnames pre).
  rewrite lookup_app_r by (rewrite restored_resnames_length; lia).
  rewrite restored_resnames_length.
  replace (total_residues pre + ri - total_residues pre) with ri by lia.
  simpl. by rewrite lookup_app_l.
Qed.

Lemma restored_attr_lookup attr pre t template post j :
  Forall (fun b => wf_template (snd b)) pre ->
  atom_attrs template !! attr = None -> j < n_atoms template ->
  restored_attr attr (pre ++ (t, template) :: post) !! (total_atoms pre + j)
  = Some (blank attr).
Proof.
  intros Hpre Hnone Hj. unfold restored_attr. rewrite flat_map_app.
  fold (restored_attr attr pre).
  rewrite lookup_app_r by (rewrite restored_attr_length by done; lia).
  rewrite restored_attr_length by done.
  replace (total_atoms pre + j - total_atoms pre) with j by lia.
  simpl. rewrite Hnone.
  rewrite lookup_app_l by (by rewrite length_replicate).
  by apply lookup_replicate_2.
Qed.

(** ** The angles list is attached from the bonds list *)

Lemma angles_attached_from_bonds structures blocks u :
  Forall (fun b => block_of structures b /\ wf_template (snd b)) blocks ->
  is_packing blocks u ->
  exists final,
    snd (reassign_topology (length blocks) structures u) = Some (Ok final) /\
    connections final !! "angles"
    = if nonempty (offset_tuples "angles" 0 blocks)
      then Some (offset_tuples "bonds" 0 blocks)
      else connections u !! "angles".
Proof.
  intros Hblocks Hpack.
  destruct (reassign_packing structures blocks u Hblocks Hpack) as (m & Hrun & _).
  eexists. split; [exact Hrun|]. by rewrite attach_angles.
Qed.

(** ** The sample templates are well formed *)

Module SampleFacts.

Import Sample.

Ltac wf_sample :=
  match goal with |- wf_template ?t => unfold t end;
  split;
  [ reflexivity
  | unfold n_residues; simpl;
    repeat first [apply Forall_nil_2 | apply Forall_cons_2; [lia|]]
  | intros attr vals Hlook; cbn [atom_attrs] in Hlook;
    first [ by rewrite lookup_empty in Hlook
          | apply lookup_singleton_Some in Hlook as [_ <-]; reflexivity ] ].

Lemma wf_A : wf_template A.
Proof. wf_sample. Qed.
Lemma wf_B : wf_template B.
Proof. wf_sample. Qed.
Lemma wf_W : wf_template W.
Proof. wf_sample. Qed.
Lemma wf_R0named : wf_template R0named.
Proof. wf_sample. Qed.
Lemma wf_charged : wf_template charged.
Proof. wf_sample. Qed.
Lemma wf_plain : wf_template plain.
Proof. wf_sample. Qed.

Lemma wf_pair : wf_template pair.
Proof. wf_sample. Qed.
Lemma wf_named_pair : wf_template named_pair.
Proof. wf_sample. Qed.

Lemma named_pair_provisioned :
  provisioned named_pair (new (initial_walk named_pairs short)).
Proof.
  intros attr vals _ Hlook. unfold named_pair in Hlook. cbn [atom_attrs] in Hlook.
  apply lookup_singleton_Some in Hlook as [<- _]. by eexists.
Qed.

Lemma pair_provisioned : provisioned pair (new (initial_walk pairs short)).
Proof.
  intros attr vals _ Hlook. unfold pair in Hlook. cbn [atom_attrs] in Hlook.
  by rewrite lookup_empty in Hlook.
Qed.

Lemma blocks_ok :
  Forall (fun b => block_of structures b /\ wf_template (snd b)) blocks.
Proof.
  unfold blocks.
  repeat first [apply Forall_nil_2 | apply Forall_cons_2; [split|]];
    first [reflexivity | exact wf_A | exact wf_B].
Qed.

Lemma mixed_blocks_ok :
  Forall (fun b => block_of mixed b /\ wf_template (snd b)) mixed_blocks.
Proof.
  unfold mixed_blocks.
  repeat first [apply Forall_nil_2 | apply Forall_cons_2; [split|]];
    first [reflexivity | exact wf_charged | exact wf_plain].
Qed.

Lemma R0named_blocks_ok :
  Forall (fun b => block_of [mkPackmolStructure R0named 1 []] b /\ wf_template (snd b))
         [(0, R0named)].
Proof.
  repeat first [apply Forall_nil_2 | apply Forall_cons_2; [split|]];
    first [reflexivity | exact wf_R0named].
Qed.

End SampleFacts.

(** * The claims *)

(** C1.  The claim wants the [angles] attribute built from the templates'
    own angle tuples.  On a single water (bonds (0,1), (0,2), angle
    (1,0,2)) [reassign_topology] attaches the two bond pairs as the
    [angles] attribute; the shifted angle tuples, which the loop did
    collect, are [(1,0,2)]. *)
Theorem C1_angles_hold_the_bonds :
  exists final,
    snd (reassign_topology 1 Sample.water Sample.packed_water) = Some (Ok final) /\
    connections final !! "angles" = Some [[0; 1]; [0; 2]] /\
    offset_tuples "angles" 0 [(0, Sample.W)] = [[1; 0; 2]].
Proof. eexists. split; [vm_compute; reflexivity|]. split; reflexivity. Qed.

(** C3.  An iteration of the walk at cursor c, for a template that
    defines the bond pair (a,b), appends the template's bond tuples shifted
    by c, among them (a+c, b+c), to the bonds collected so far.  In the
    reassembly of a packing, the cursor of a block being the number of
    atoms before it, the [bonds] attribute is the sequence of these
    contributions in block order.  For A (three atoms, bonds (0,1), (1,2))
    twice and B (two atoms, bond (0,1)) once the bonds are (0,1), (1,2),
    (3,4), (4,5), (6,7). *)
Theorem C3_bond_offsets :
  (forall structures st st' template tuples a b,
      template_at structures st = Ok template ->
      loop_body structures st = Ok st' ->
      connections template !! "bonds" = Some tuples ->
      [a; b] ∈ tuples ->
      bonds st' = bonds st ++ map (map (fun i => i + index st)) tuples /\
      [a + index st; b + index st] ∈ bonds st') /\
  (forall structures blocks u pre t template post tuples a b,
      Forall (fun blk => block_of structures blk /\ wf_template (snd blk)) blocks ->
      is_packing blocks u ->
      blocks = pre ++ (t, template) :: post ->
      connections template !! "bonds" = Some tuples ->
      [a; b] ∈ tuples ->
      exists final,
        snd (reassign_topology (length blocks) structures u) = Some (Ok final) /\
        connections final !! "bonds"
        = Some (offset_tuples "bonds" 0 pre
                  ++ map (map (fun i => i + total_atoms pre)) tuples
                  ++ offset_tuples "bonds" (total_atoms pre + n_atoms template) post) /\
        [a + total_atoms pre; b + total_atoms pre]
          ∈ map (map (fun i => i + total_atoms pre)) tuples) /\
  (exists final,
      snd (reassign_topology 3 Sample.structures Sample.packed) = Some (Ok final) /\
      connections final !! "bonds" = Some [[0; 1]; [1; 2]; [3; 4]; [4; 5]; [6; 7]]).
Proof.
  assert (Hshift : forall c tuples a b,
             [a; b] ∈ tuples -> [a + c; b + c] ∈ map (map (fun i => i + c)) tuples).
  { intros c tuples a b Hin. apply list_elem_of_In. apply in_map_iff. exists [a; b].
    split; [done | by apply list_elem_of_In]. }
  split; [|split].
  - intros structures st st' template tuples a b Ht Hbody Hb Hin.
    destruct (loop_body_inv _ _ _ Hbody) as (template' & Ht' & _ & _ & _ & Hbonds & _).
    rewrite Ht in Ht'. injection Ht' as <-.
    rewrite Hbonds. unfold extend. rewrite Hb. split; [done|].
    apply elem_of_app. right. by apply Hshift.
  - intros structures blocks u pre t template post tuples a b Hblocks Hpack -> Hb Hin.
    destruct (reassign_packing structures _ u Hblocks Hpack) as (m & Hrun & _).
    eexists. split; [exact Hrun|].
    pose proof (Hshift (total_atoms pre) tuples a b Hin) as Hmem.
    split; [|done].
    rewrite attach_bonds. cbn [bonds new connections].
    rewrite offset_tuples_app. cbn [offset_tuples snd]. rewrite Hb.
    rewrite Nat.add_0_l.
    destruct (map (map (fun i => i + total_atoms pre)) tuples) as [|x l] eqn:E.
    + by apply elem_of_nil in Hmem.
    + by destruct (offset_tuples "bonds" 0 pre).
  - eexists. split; [vm_compute; reflexivity | reflexivity].
Qed.

Lemma C3_bond_offsets_witness :
  (exists st',
      loop_body Sample.structures (initial_walk Sample.structures Sample.packed) = Ok st' /\
      bonds st' = [] ++ [[0; 1]; [1; 2]]) /\
  exists final,
    snd (reassign_topology 3 Sample.structures Sample.packed) = Some (Ok final) /\
    connections final !! "bonds"
    = Some ([[0; 1]; [1; 2]] ++ [[3; 4]; [4; 5]] ++ [[6; 7]]) /\
    [1 + 3; 2 + 3] ∈ [[3; 4]; [4; 5]].
Proof.
  assert (Hin : [1; 2] ∈ [[0; 1]; [1; 2]]) by (apply list_elem_of_In; simpl; auto).
  split.
  - destruct (loop_body Sample.structures
                        (initial_walk Sample.structures Sample.packed))
      as [st'|e] eqn:Hbody; [|vm_compute in Hbody; discriminate Hbody].
    exists st'. split; [reflexivity|].
    apply (proj1 C3_bond_offsets Sample.structures
                 (initial_walk Sample.structures Sample.packed) st' Sample.A
                 [[0; 1]; [1; 2]] 1 2 eq_refl Hbody eq_refl Hin).
  - apply (proj1 (proj2 C3_bond_offsets) Sample.structures Sample.blocks Sample.packed
                 [(0, Sample.A)] 0 Sample.A [(1, Sample.B)] [[0; 1]; [1; 2]] 1 2).
    + exact SampleFacts.blocks_ok.
    + split; reflexivity.
    + reflexivity.
    + reflexivity.
    + exact Hin.
Defined.

(** C6, the claim as stated.  A template whose own residue name is ["R0"],
    first in the list: after reassembly its atom carries the name ["R0"],
    which is the replica label it had in the packed structure. *)
Lemma C6_label_kept :
  exists final,
    snd (reassign_topology 1 [mkPackmolStructure Sample.R0named 1 []] Sample.short)
    = Some (Ok final) /\
    atom_resname Sample.short 0 = Some (replica_label 0) /\
    atom_resname final 0 = Some (replica_label 0).
Proof. eexists. split; [vm_compute; reflexivity|]. split; reflexivity. Qed.

(** C6, amended.  For a packed structure made of whole replica blocks, in
    any order, [reassign_topology] returns a structure whose residue names
    are the templates' own, block after block: the atom j of a block, which
    carried the label of its descriptor, carries the name of the residue
    of the template that the atom j of the template is in.  (It differs
    from the label when the template's own name does.) *)
Theorem C6_residue_names_restored structures blocks u :
  Forall (fun b => block_of structures b /\ wf_template (snd b)) blocks ->
  is_packing blocks u ->
  exists final,
    snd (reassign_topology (length blocks) structures u) = Some (Ok final) /\
    resnames final = restored_resnames blocks /\
    forall pre t template post j ri,
      blocks = pre ++ (t, template) :: post ->
      resindices template !! j = Some ri ->
      atom_resname u (total_atoms pre + j) = Some (replica_label t) /\
      atom_resname final (total_atoms pre + j) = resnames template !! ri /\
      is_Some (resnames template !! ri).
Proof.
  intros Hblocks Hpack.
  destruct (reassign_packing structures blocks u Hblocks Hpack) as (m & Hrun & _).
  eexists. split; [exact Hrun|].
  destruct (attach_fields
              (mkWalk (total_atoms blocks)
                      (mkTopology (resindices u) (restored_resnames blocks) m
                                  (connections u))
                      (offset_tuples "bonds" 0 blocks) (offset_tuples "angles" 0 blocks)
                      (offset_tuples "dihedrals" 0 blocks)
                      (offset_tuples "impropers" 0 blocks))) as (F1 & F2 & _).
  cbn [new resindices resnames] in F1, F2.
  split; [exact F2|].
  intros pre t template post j ri -> Hj.
  destruct Hpack as [Hri Hrn].
  assert (Hwf : wf_template template).
  { rewrite Forall_forall in Hblocks.
    destruct (Hblocks (t, template)) as [_ Hwf]; [|done].
    apply elem_of_app. right. apply list_elem_of_here. }
  assert (Hlt : ri < n_residues template).
  { pose proof (wf_resindices _ Hwf) as Hall.
    rewrite Forall_forall in Hall. apply Hall. by eapply list_elem_of_lookup_2. }
  unfold atom_resname. rewrite F1, F2, Hri, Hrn.
  rewrite (packed_resindices_lookup _ _ _ _ _ _ Hj). simpl.
  rewrite packed_resnames_lookup, restored_resnames_lookup by done.
  repeat split. by apply lookup_lt_is_Some.
Qed.

Lemma C6_residue_names_restored_witness :
  exists final,
    snd (reassign_topology 3 Sample.structures Sample.packed) = Some (Ok final) /\
    resnames final = ["SOL"; "SOL"; "ION"] /\
    atom_resname Sample.packed 7 = Some "R1" /\
    atom_resname final 7 = Some "ION".
Proof.
  destruct (C6_residue_names_restored Sample.structures Sample.blocks Sample.packed
              SampleFacts.blocks_ok (conj eq_refl eq_refl))
    as (final & Hrun & Hnames & Hatoms).
  exists final. split; [exact Hrun|]. split; [exact Hnames|].
  destruct (Hatoms [(0, Sample.A); (0, Sample.A)] 1 Sample.B [] 1 0 eq_refl eq_refl)
    as (H1 & H2 & _).
  split; [exact H1 | exact H2].
Defined.

(** C7.  For each of [types], [names], [charges], [masses]: the universe
    gets a blank array for the attribute exactly when some template has
    it (otherwise its entry is left as it was); the round of that attribute
    adds the warning exactly when some template has it and not all of
    them; and on a packing the walk then completes, the array holding the
    templates' values block after block and blanks on the blocks of the
    templates without the attribute. *)
Theorem C7_attribute_provisioning :
  (forall structures u attr,
      attr ∈ atom_attr_names ->
      atom_attrs (new (initial_walk structures u)) !! attr
      = (if any_hasattr structures attr
         then Some (replicate (n_atoms u) (blank attr))
         else atom_attrs u !! attr) /\
      (forall st,
          snd (add_required structures st attr)
          = if any_hasattr structures attr && negb (all_hasattr structures attr)
            then snd st ++ [partial_warning] else snd st) /\
      (forall fuel,
          fst (reassign_topology fuel structures u) = partial_warnings structures)) /\
  (forall structures blocks u attr,
      attr ∈ atom_attr_names ->
      any_hasattr structures attr = true ->
      Forall (fun b => block_of structures b /\ wf_template (snd b)) blocks ->
      is_packing blocks u ->
      exists final,
        snd (reassign_topology (length blocks) structures u) = Some (Ok final) /\
        atom_attrs final !! attr = Some (restored_attr attr blocks) /\
        forall pre t template post j,
          blocks = pre ++ (t, template) :: post ->
          atom_attrs template !! attr = None -> j < n_atoms template ->
          restored_attr attr blocks !! (total_atoms pre + j) = Some (blank attr)).
Proof.
  split.
  - intros structures u attr Hin. split; [|split].
    + destruct (fold_add_required structures atom_attr_names atom_attr_names_NoDup u [])
        as (_ & _ & _ & P4).
      unfold initial_walk. cbn [new]. by rewrite P4, decide_True.
    + intros st. apply add_required_snd.
    + intros fuel. unfold reassign_topology. cbn [fst].
      by rewrite fold_add_required_warnings.
  - intros structures blocks u attr Hin Hany Hblocks Hpack.
    destruct (reassign_packing structures blocks u Hblocks Hpack) as (m & Hrun & Hm).
    eexists. split; [exact Hrun|]. split.
    + match goal with
      | |- atom_attrs (attach ?s) !! _ = _ =>
          destruct (attach_fields s) as (_ & _ & ->)
      end.
      cbn [new atom_attrs]. by rewrite Hm, decide_True, Hany.
    + intros pre t template post j -> Hnone Hj.
      apply restored_attr_lookup; [|done|done].
      apply Forall_app in Hblocks as [Hpre _].
      eapply Forall_impl; [exact Hpre|]. by intros b [_ ?].
Qed.

Lemma C7_attribute_provisioning_witness :
  (atom_attrs (new (initial_walk Sample.mixed Sample.packed_mixed)) !! "charges"
   = Some [VFloat 0; VFloat 0; VFloat 0] /\
   fst (reassign_topology 2 Sample.mixed Sample.packed_mixed) = [partial_warning]) /\
  exists final,
    snd (reassign_topology 2 Sample.mixed Sample.packed_mixed) = Some (Ok final) /\
    atom_attrs final !! "charges" = Some [VFloat 1; VFloat (-1); VFloat 0].
Proof.
  assert (Hin : "charges" ∈ atom_attr_names)
    by (apply (bool_decide_unpack _); by vm_compute).
  split.
  - destruct (proj1 C7_attribute_provisioning Sample.mixed Sample.packed_mixed
                    "charges" Hin) as (H1 & _ & H3).
    split; [exact H1 | exact (H3 2)].
  - destruct (proj2 C7_attribute_provisioning Sample.mixed Sample.mixed_blocks
                    Sample.packed_mixed "charges" Hin eq_refl
                    SampleFacts.mixed_blocks_ok (conj eq_refl eq_refl))
      as (final & Hrun & Hattr & _).
    exists final. split; [exact Hrun | exact Hattr].
Defined.

(** ** A template larger than what is left *)

Lemma set_values_raises {A} a b (vals arr : list A) e :
  set_values a b vals arr = Raise e -> e = ValueError None.
Proof.
  unfold set_values. destruct (_ =? _); [done|].
  destruct vals as [|v [|? ?]]; congruence.
Qed.

Lemma fold_copy_overrun template lo (l : list string) u :
  lo < n_atoms u -> n_atoms u < lo + n_atoms template ->
  (forall attr vals, atom_attrs template !! attr = Some vals ->
                     length vals = n_atoms template) ->
  (forall attr vals, attr ∈ l -> atom_attrs template !! attr = Some vals ->
                     exists arr, atom_attrs u !! attr = Some arr /\ length arr = n_atoms u) ->
  (exists attr, attr ∈ l /\ is_Some (atom_attrs template !! attr)) ->
  fold_left (copy_attr template lo (lo + n_atoms template)) l (Ok u)
  = Raise (ValueError None).
Proof.
  intros Hlo Hover Hwf. induction l as [|a l IH]; intros Hprov (attr & Hin & Hsome).
  - by apply elem_of_nil in Hin.
  - cbn [fold_left]. unfold copy_attr at 2. cbn [mbind result_bind Py.bind].
    destruct (atom_attrs template !! a) as [vals|] eqn:Ea.
    + destruct (Hprov a vals) as (arr & Harr & Hlen);
        [apply list_elem_of_here | done |].
      unfold set_atom_attr. rewrite Harr.
      cbn [Py.of_option mbind result_bind Py.bind].
      rewrite set_values_mismatch.
      * cbn [mbind result_bind Py.bind]. apply fold_copy_raise.
      * rewrite slice_length, (Hwf a vals Ea). lia.
      * rewrite (Hwf a vals Ea). lia.
    + apply IH.
      * intros attr' vals' Hin'. apply Hprov. by apply list_elem_of_further.
      * exists attr. split; [|done].
        apply elem_of_cons in Hin as [->|Hin]; [|done].
        rewrite Ea in Hsome. by destruct Hsome.
Qed.

Lemma fold_copy_none template lo hi (l : list string) u :
  (forall attr, attr ∈ l -> atom_attrs template !! attr = None) ->
  fold_left (copy_attr template lo hi) l (Ok u) = Ok u.
Proof.
  induction l as [|a l IH]; intros Hnone; [done|].
  cbn [fold_left]. unfold copy_attr at 2. cbn [mbind result_bind Py.bind].
  rewrite (Hnone a) by apply list_elem_of_here.
  apply IH. intros attr Hin. apply Hnone. by apply list_elem_of_further.
Qed.

(** C2, the claim as stated.  One descriptor with a two-atom template that
    has no per-atom attribute, and a packed structure of one atom labelled
    for it: the template has more atoms than remain, and
    [reassign_topology] returns a structure. *)
Lemma C2_overrun_returns :
  exists final,
    n_atoms Sample.short - 0 < n_atoms Sample.pair /\
    snd (reassign_topology 1 Sample.pairs Sample.short) = Some (Ok final).
Proof. eexists. split; [vm_compute; lia | vm_compute; reflexivity]. Qed.

(** C2, amended.  The walk has no block-size check.  When the template at
    the cursor has more atoms than remain, the slice of atoms ends with
    the structure: if the template defines one of the four per-atom
    attributes (one value per atom, the universe holding the array the
    provisioning loop made) the iteration raises the library's
    [ValueError]; if it defines none and its residue names fit in the
    residues from the cursor's on, the iteration completes, the cursor is
    past the end and the walk stops there. *)
Theorem C2_overrun structures st template :
  index st < n_atoms (new st) ->
  template_at structures st = Ok template ->
  n_atoms (new st) < index st + n_atoms template ->
  (forall attr vals, atom_attrs template !! attr = Some vals ->
                     length vals = n_atoms template) ->
  provisioned template (new st) ->
  ((exists attr, attr ∈ atom_attr_names /\ is_Some (atom_attrs template !! attr)) ->
   loop_body structures st = Raise (ValueError None)) /\
  ((forall attr, attr ∈ atom_attr_names -> atom_attrs template !! attr = None) ->
   forall r,
     resindices (new st) !! index st = Some r ->
     r + n_residues template <= n_residues (new st) ->
     exists st',
       loop_body structures st = Ok st' /\
       index st' = index st + n_atoms template /\
       forall fuel, while_loop fuel structures st' = Some (Ok st')).
Proof.
  intros Hlt Ht Hover Hwf Hprov.
  destruct (resindices (new st) !! index st) as [r|] eqn:Er.
  2:{ apply lookup_ge_None in Er. unfold n_atoms in Hlt. lia. }
  split.
  - intros Hhas. unfold loop_body. rewrite Ht, Er.
    cbn [Py.of_option mbind result_bind Py.bind].
    unfold set_resnames.
    destruct (set_values r (r + n_residues template) (resnames template)
                         (resnames (new st))) as [rn|e] eqn:Es.
    + cbn [mbind mret result_ret result_bind Py.bind].
      rewrite fold_copy_overrun; done.
    + cbn [mbind result_bind Py.bind]. by rewrite (set_values_raises _ _ _ _ _ Es).
  - intros Hnone r' [= <-] Hfit. unfold loop_body. rewrite Ht, Er.
    cbn [Py.of_option mbind result_bind Py.bind].
    unfold set_resnames. rewrite set_values_fit by done.
    cbn [mbind mret result_ret result_bind Py.bind].
    rewrite fold_copy_none by done.
    cbn [mbind mret result_ret result_bind Py.bind].
    eexists. split; [reflexivity|]. cbn [index new]. split; [done|].
    intros fuel. unfold n_atoms in *.
    destruct fuel; simpl; unfold n_atoms; simpl;
      destruct (Nat.ltb_spec (index st + length (resindices template))
                             (length (resindices (new st)))); (lia || done).
Qed.

Lemma C2_overrun_witness :
  loop_body Sample.named_pairs (initial_walk Sample.named_pairs Sample.short)
  = Raise (ValueError None) /\
  exists st',
    loop_body Sample.pairs (initial_walk Sample.pairs Sample.short) = Ok st' /\
    index st' = 2 /\
    forall fuel, while_loop fuel Sample.pairs st' = Some (Ok st').
Proof.
  split.
  - apply (C2_overrun Sample.named_pairs (initial_walk Sample.named_pairs Sample.short)
                      Sample.named_pair).
    + vm_compute. lia.
    + reflexivity.
    + vm_compute. lia.
    + exact (wf_attrs _ SampleFacts.wf_named_pair).
    + exact SampleFacts.named_pair_provisioned.
    + exists "names". split; [|by eexists].
      apply (bool_decide_unpack _). by vm_compute.
  - apply (C2_overrun Sample.pairs (initial_walk Sample.pairs Sample.short)
                      Sample.pair) with (r := 0).
    + vm_compute. lia.
    + reflexivity.
    + vm_compute. lia.
    + exact (wf_attrs _ SampleFacts.wf_pair).
    + exact SampleFacts.pair_provisioned.
    + intros attr _. apply lookup_empty.
    + reflexivity.
    + vm_compute. lia.
Defined.

Lemma initial_walk_n_atoms structures u :
  n_atoms (new (initial_walk structures u)) = n_atoms u.
Proof.
  destruct (fold_add_required structures atom_attr_names atom_attr_names_NoDup u [])
    as (P1 & _).
  unfold initial_walk, n_atoms. cbn [new]. by rewrite P1.
Qed.

Lemma reassign_outcome fuel structures u :
  snd (reassign_topology fuel structures u)
  = match while_loop fuel structures (initial_walk structures u) with
    | None => None
    | Some (Raise e) => Some (Raise e)
    | Some (Ok st) => Some (Ok (attach st))
    end.
Proof. reflexivity. Qed.

(** C9.  If every template the walk comes to refer to has at least one
    atom, the walk ends, with a structure or with an exception, within as
    many iterations as the packed structure has atoms.  If the walk comes
    to a cursor whose template is an empty group (no atoms, no residues),
    the iteration completes and leaves the cursor where it was, and no
    amount of fuel lets [reassign_topology] finish. *)
Theorem C9_walk_termination :
  (forall structures u,
      (forall st template,
          reaches structures (initial_walk structures u) st ->
          index st < n_atoms (new st) ->
          template_at structures st = Ok template ->
          0 < n_atoms template) ->
      snd (reassign_topology (n_atoms u) structures u) <> None) /\
  (forall structures u st template,
      reaches structures (initial_walk structures u) st ->
      index st < n_atoms (new st) ->
      template_at structures st = Ok template ->
      n_atoms template = 0 -> n_residues template = 0 ->
      (forall attr vals, atom_attrs template !! attr = Some vals ->
                         length vals = n_atoms template) ->
      (exists st', loop_body structures st = Ok st' /\ index st' = index st) /\
      forall fuel, snd (reassign_topology fuel structures u) = None).
Proof.
  split.
  - intros structures u Hpos. rewrite reassign_outcome.
    pose proof (walk_terminates structures (initial_walk structures u) Hpos
                  (n_atoms u) (initial_walk structures u)
                  (reaches_refl _ _)) as Hterm.
    rewrite initial_walk_n_atoms in Hterm.
    destruct (while_loop (n_atoms u) structures (initial_walk structures u))
      as [[st|e]|]; [done | done |].
    exfalso. apply Hterm; [|done]. unfold initial_walk. cbn [index]. lia.
  - intros structures u st template Hreach Hlt Ht Hz Hr Hwf.
    assert (Hprov : forall attr vals,
               attr ∈ atom_attr_names -> atom_attrs template !! attr = Some vals ->
               is_Some (atom_attrs (new st) !! attr)).
    { intros attr vals Hin Hsome.
      apply (reaches_provisioned structures u st attr Hreach Hin).
      destruct (template_at_In _ _ _ Ht) as (pms & Hpms & Hag).
      unfold any_hasattr. apply existsb_exists. exists pms.
      split; [by apply list_elem_of_In|].
      unfold hasattr. apply bool_decide_eq_true. rewrite Hag, Hsome. by eexists. }
    destruct (loop_body_empty structures st template Ht Hlt Hz Hr Hwf Hprov)
      as (st' & Hbody & Hi & Hn).
    split; [by exists st'|].
    intros fuel. rewrite reassign_outcome.
    destruct (while_loop fuel structures (initial_walk structures u)) as [r|] eqn:Hrun;
      [|done].
    destruct (run_reaches _ _ _ Hreach fuel r Hrun) as [fuel' Hst].
    rewrite (stuck_forever structures st Hlt) in Hst; [done|].
    by exists st'.
Qed.

Lemma C9_walk_termination_witness :
  snd (reassign_topology 8 Sample.structures Sample.packed) <> None /\
  (exists st',
      loop_body Sample.nothings (initial_walk Sample.nothings Sample.short) = Ok st' /\
      index st' = 0) /\
  forall fuel, snd (reassign_topology fuel Sample.nothings Sample.short) = None.
Proof.
  split.
  - apply (proj1 C9_walk_termination Sample.structures Sample.packed).
    intros st template _ _ Ht.
    destruct (template_at_In _ _ _ Ht) as (pms & Hpms & <-).
    unfold Sample.structures in Hpms.
    apply elem_of_cons in Hpms as [->|Hpms]; [vm_compute; lia|].
    apply elem_of_cons in Hpms as [->|Hpms]; [vm_compute; lia|].
    by apply elem_of_nil in Hpms.
  - apply (proj2 C9_walk_termination Sample.nothings Sample.short
                 (initial_walk Sample.nothings Sample.short) Sample.nothing).
    + apply reaches_refl.
    + vm_compute. lia.
    + reflexivity.
    + reflexivity.
    + reflexivity.
    + intros attr vals Hlook. unfold Sample.nothing in Hlook.
      cbn [atom_attrs] in Hlook. by rewrite lookup_empty in Hlook.
Defined.

(** ** Labels that do not lead to a descriptor *)

Lemma getitem_out_of_range {A} (l : list A) z :
  (z < - Z.of_nat (length l) \/ Z.of_nat (length l) <= z)%Z ->
  Py.getitem l z = Raise IndexError.
Proof.
  intros Hz. unfold Py.getitem.
  destruct (Z.leb_spec 0 z).
  - rewrite (proj2 (lookup_ge_None l (Z.to_nat z))); [done | lia].
  - destruct (Z.leb_spec (- Z.of_nat (length l)) z); [lia | done].
Qed.

Lemma walk_raises structures u st e :
  reaches structures (initial_walk structures u) st ->
  index st < n_atoms (new st) ->
  loop_body structures st = Raise e ->
  (exists fuel, snd (reassign_topology fuel structures u) = Some (Raise e)) /\
  forall fuel final, snd (reassign_topology fuel structures u) <> Some (Ok final).
Proof.
  intros Hreach Hlt Hbody.
  assert (Hone : while_loop 1 structures st = Some (Raise e)).
  { simpl. replace (index st <? n_atoms (new st)) with true
      by (symmetry; by apply Nat.ltb_lt). by rewrite Hbody. }
  destruct (reaches_run _ _ _ Hreach 1 _ Hone) as [fuel0 Hrun0].
  split.
  - exists fuel0. by rewrite reassign_outcome, Hrun0.
  - intros fuel final. rewrite reassign_outcome.
    destruct (while_loop fuel structures (initial_walk structures u))
      as [[st'|e']|] eqn:Hrun; try done.
    pose proof (while_loop_det _ _ _ _ _ _ Hrun Hrun0). done.
Qed.

(** C10.  When the walk comes to a cursor whose atom has a residue name
    that, without its first character, is no integer literal,
    [reassign_topology] raises the [ValueError] of [int]; when it is the
    literal of an integer outside the index range of the descriptor list,
    the [IndexError] of the list access.  In neither case does any run
    return a structure.  What is a literal is what [int] accepts of a
    [str]: blanks around it, a sign, digits of any script, single
    underscores between digits. *)
Theorem C10_bad_label structures u st ri name :
  reaches structures (initial_walk structures u) st ->
  index st < n_atoms (new st) ->
  resindices (new st) !! index st = Some ri ->
  resnames (new st) !! ri = Some name ->
  (Py.int (Py.tail name) = None ->
   (exists fuel, snd (reassign_topology fuel structures u)
                 = Some (Raise (ValueError None))) /\
   forall fuel final, snd (reassign_topology fuel structures u) <> Some (Ok final)) /\
  (forall z,
      Py.int (Py.tail name) = Some z ->
      (z < - Z.of_nat (length structures) \/ Z.of_nat (length structures) <= z)%Z ->
      (exists fuel, snd (reassign_topology fuel structures u) = Some (Raise IndexError)) /\
      forall fuel final, snd (reassign_topology fuel structures u) <> Some (Ok final)).
Proof.
  intros Hreach Hlt Hri Hname. split.
  - intros Hint. apply (walk_raises structures u st _ Hreach Hlt).
    unfold loop_body, template_at. rewrite Hri.
    cbn [Py.of_option mbind result_bind Py.bind]. rewrite Hname.
    cbn [Py.of_option mbind result_bind Py.bind]. by rewrite Hint.
  - intros z Hint Hz. apply (walk_raises structures u st _ Hreach Hlt).
    unfold loop_body, template_at. rewrite Hri.
    cbn [Py.of_option mbind result_bind Py.bind]. rewrite Hname.
    cbn [Py.of_option mbind result_bind Py.bind]. rewrite Hint.
    cbn [Py.of_option mbind result_bind Py.bind].
    by rewrite getitem_out_of_range.
Qed.

Lemma C10_bad_label_witness :
  (exists fuel, snd (reassign_topology fuel Sample.structures Sample.unlabelled)
                = Some (Raise (ValueError None))) /\
  (exists fuel, snd (reassign_topology fuel Sample.structures More.separated)
                = Some (Raise (ValueError None))) /\
  (exists fuel, snd (reassign_topology fuel Sample.structures Sample.mislabelled)
                = Some (Raise IndexError)).
Proof.
  split; [|split].
  - apply (C10_bad_label Sample.structures Sample.unlabelled
                         (initial_walk Sample.structures Sample.unlabelled) 0 "SOL").
    + apply reaches_refl.
    + vm_compute. lia.
    + reflexivity.
    + reflexivity.
    + reflexivity.
  - apply (C10_bad_label Sample.structures More.separated
                         (initial_walk Sample.structures More.separated) 0
                         [82; 28; 48]%N).
    + apply reaches_refl.
    + vm_compute. lia.
    + reflexivity.
    + reflexivity.
    + reflexivity.
  - apply (C10_bad_label Sample.structures Sample.mislabelled
                         (initial_walk Sample.structures Sample.mislabelled) 0 "R7")
      with (z := 7%Z).
    + apply reaches_refl.
    + vm_compute. lia.
    + reflexivity.
    + reflexivity.
    + reflexivity.
    + right. vm_compute. discriminate.
Defined.

(** ** The label in the coordinate file *)

Lemma pdb_records_relabel index g :
  Forall (fun ri => ri < n_residues g) (resindices g) ->
  pdb_records (relabel index g)
  = replicate (n_atoms g) (Some (pdb_resname (replica_label index))).
Proof.
  unfold pdb_records, relabel, n_atoms. cbn [resindices resnames with_resnames].
  induction 1 as [|ri l Hri Hl IH]; [reflexivity|].
  cbn [map length replicate]. rewrite IH. f_equal.
  by rewrite (lookup_replicate_2 _ _ _ Hri).
Qed.

Lemma label_shape index :
  exists digits,
    replica_label index = Py.str_of_string "R" ++ digits /\
    Py.int digits = Some (Z.of_nat index).
Proof.
  exists (Py.str_of_string (Py.format_nat index)). split; [reflexivity|].
  apply int_format_nat.
Qed.

Lemma label_fits index :
  index < 1000 -> pdb_resname (replica_label index) = replica_label index.
Proof.
  intros Hlt.
  assert (Hall : forallb (fun i => bool_decide (pdb_resname (replica_label i)
                                                 = replica_label i))
                         (seq 0 1000) = true) by (vm_compute; reflexivity).
  rewrite List.forallb_forall in Hall.
  apply (bool_decide_eq_true_1 _), Hall, in_seq. lia.
Qed.

Lemma of_uint_acc_bound d acc :
  (Z.pos (Pos.of_uint_acc d acc) < (Z.pos acc + 1) * 10 ^ Z.of_nat (nb_digits d))%Z.
Proof.
  revert acc. induction d as [|d IH|d IH|d IH|d IH|d IH|d IH|d IH|d IH|d IH|d IH];
    intros acc; cbn [Pos.of_uint_acc nb_digits];
    [rewrite Z.pow_0_r; lia | ..];
    rewrite Nat2Z.inj_succ, Z.pow_succ_r by lia;
    match goal with
    | |- (Z.pos (Pos.of_uint_acc _ ?a) < _)%Z => specialize (IH a)
    end;
    assert (0 < 10 ^ Z.of_nat (nb_digits d))%Z by (apply Z.pow_pos_nonneg; lia);
    nia.
Qed.

Lemma of_uint_bound d : (Z.of_N (Pos.of_uint d) < 10 ^ Z.of_nat (nb_digits d))%Z.
Proof.
  induction d as [|d IH|d IH|d IH|d IH|d IH|d IH|d IH|d IH|d IH|d IH];
    cbn [Pos.of_uint nb_digits];
    [rewrite Z.pow_0_r; lia | ..];
    rewrite Nat2Z.inj_succ, Z.pow_succ_r by lia;
    assert (0 < 10 ^ Z.of_nat (nb_digits d))%Z by (apply Z.pow_pos_nonneg; lia);
    [lia | ..];
    match goal with
    | |- (Z.of_N (N.pos (Pos.of_uint_acc _ ?a)) < _)%Z =>
        pose proof (of_uint_acc_bound d a)
    end;
    cbn [Z.of_N]; lia.
Qed.

Lemma length_string_of_uint d :
  length (list_ascii_of_string (NilEmpty.string_of_uint d)) = nb_digits d.
Proof. induction d; cbn; congruence. Qed.

Lemma length_format_nat n :
  1000 <= n -> 4 <= length (list_ascii_of_string (Py.format_nat n)).
Proof.
  intros Hn. unfold Py.format_nat. rewrite length_string_of_uint.
  pose proof (of_uint_bound (N.to_uint (N.of_nat n))) as Hb.
  change (Pos.of_uint (N.to_uint (N.of_nat n)))
    with (N.of_uint (N.to_uint (N.of_nat n))) in Hb.
  rewrite DecimalN.Unsigned.of_to in Hb.
  destruct (le_lt_dec 4 (nb_digits (N.to_uint (N.of_nat n)))) as [|Hshort]; [done|].
  assert (10 ^ Z.of_nat (nb_digits (N.to_uint (N.of_nat n))) <= 10 ^ 3)%Z
    by (apply Z.pow_le_mono_r; lia).
  lia.
Qed.

Lemma label_cut index :
  1000 <= index -> pdb_resname (replica_label index) <> replica_label index.
Proof.
  intros Hge Heq. apply (f_equal length) in Heq.
  unfold pdb_resname in Heq. rewrite length_take in Heq.
  pose proof (length_format_nat index Hge) as Hlen.
  change (replica_label index)
    with (N_of_ascii "R" :: Py.str_of_string (Py.format_nat index)) in Heq.
  unfold Py.str_of_string in Heq. cbn [length] in Heq.
  rewrite length_map in Heq. lia.
Qed.

Lemma lines_line line name rest :
  Forall (fun c => c <> More.line_feed) name ->
  More.lines line (name ++ More.line_feed :: rest)
  = (rev line ++ name) :: More.lines [] rest.
Proof.
  intros Hname. revert line.
  induction Hname as [|c name Hc Hname IH]; intros line.
  - cbn [app More.lines]. rewrite Ascii.eqb_refl. by rewrite app_nil_r.
  - cbn [app More.lines]. destruct (Ascii.eqb_spec c More.line_feed); [done|].
    rewrite IH. cbn [rev]. by rewrite <- app_assoc.
Qed.

Lemma pdb_line_inv field line :
  More.pdb_line field = Some line ->
  exists name,
    field = Some name /\ line = map ascii_of_N name ++ [More.line_feed] /\
    Forall (fun c => c <> More.line_feed) (map ascii_of_N name) /\
    map N_of_ascii (map ascii_of_N name) = name.
Proof.
  destruct field as [name|]; [|discriminate]. cbn [More.pdb_line].
  destruct (forallb _ name) eqn:Hall; [|discriminate].
  intros [= <-]. exists name. split; [done|]. split; [done|].
  rewrite List.forallb_forall in Hall.
  assert (Hin : forall c, In c name -> (c < 256)%N /\ c <> 10%N).
  { intros c Hc. specialize (Hall c Hc). apply andb_true_iff in Hall as [H1 H2].
    apply N.ltb_lt in H1. apply negb_true_iff, N.eqb_neq in H2. done. }
  clear Hall. induction name as [|c name IH]; [done|].
  destruct (Hin c (or_introl eq_refl)) as [Hlt Hne].
  destruct IH as [IH1 IH2]; [intros c' Hc'; apply Hin; by right|].
  cbn [map]. split.
  - apply Forall_cons_2; [|done].
    intros Heq. apply (f_equal N_of_ascii) in Heq.
    rewrite (N_ascii_embedding c Hlt) in Heq. done.
  - by rewrite (N_ascii_embedding c Hlt), IH2.
Qed.

Lemma pdb_fields_of_lines fields written_lines :
  Forall2 (fun field line => More.pdb_line field = Some line) fields written_lines ->
  map (fun line => Some (map N_of_ascii line)) (More.lines [] (concat written_lines))
  = fields.
Proof.
  induction 1 as [|field line fields written_lines Hline Hrest IH]; [reflexivity|].
  destruct (pdb_line_inv field line Hline) as (name & -> & -> & Hname & Hback).
  cbn [concat]. rewrite <- app_assoc. cbn [app].
  rewrite (lines_line [] _ _ Hname). cbn [rev app map]. by rewrite Hback, IH.
Qed.

Lemma pdb_writer_writes_pdb : writes_pdb More.pdb_writer More.pdb_fields.
Proof.
  intros g text. unfold More.pdb_writer, More.pdb_fields.
  destruct (mapM More.pdb_line (pdb_records g)) as [written_lines|] eqn:Hlines;
    [|discriminate].
  intros [= <-]. rewrite list_ascii_of_string_of_list_ascii.
  apply pdb_fields_of_lines. by apply mapM_Some.
Qed.

(** C4, the claim as stated.  It takes the file to carry the label
    whatever the position.  The residue name field of a PDB record has
    four columns: with a PDB writer, for the descriptor at position 1000
    with three atoms in one residue, [save_structure] returns normally, the
    template is as before, and every record of [input1000.pdb] carries
    ["R100"], the label of position 100, not ["R1000"]. *)
Theorem C4_label_cut_at_1000 :
  let self := mkPackmolStructure Sample.A 1 [] in
  writes_pdb More.pdb_writer More.pdb_fields /\
  exists w' text,
    save_structure More.pdb_writer self 1000 Sample.nowhere = (Ok tt, self, w') /\
    files w' !! "input1000.pdb" = Some text /\
    More.pdb_fields text = [Some "R100"; Some "R100"; Some "R100"] /\
    replica_label 1000 = "R1000" /\
    replica_label 100 = "R100".
Proof. split; [apply pdb_writer_writes_pdb|]. do 2 eexists. repeat split. Qed.

(** C4, amended.  Let the writer be a PDB writer.  When [save_structure]
    returns normally for position [index], the descriptor is what it was
    before the call, residue names included, and the file of that position
    has one record for every atom of the template, each with the first
    four characters of the label in its residue name field.  The label is
    an R followed by digits that read as [index]: the records hold the
    whole label when [index] is below 1000, and a cut one from 1000 on. *)
Theorem C4_save_structure_round_trip pdb_write records self index w self' w' :
  writes_pdb pdb_write records ->
  Forall (fun ri => ri < n_residues (ag self)) (resindices (ag self)) ->
  save_structure pdb_write self index w = (Ok tt, self', w') ->
  self' = self /\
  (exists digits,
      replica_label index = Py.str_of_string "R" ++ digits /\
      Py.int digits = Some (Z.of_nat index)) /\
  exists text,
    files w' !! PACKMOL_STRUCTURE_FILES index = Some text /\
    records text
    = replicate (n_atoms (ag self)) (Some (pdb_resname (replica_label index))) /\
    (index < 1000 ->
     records text = replicate (n_atoms (ag self)) (Some (replica_label index))) /\
    (1000 <= index -> 0 < n_atoms (ag self) ->
     records text <> replicate (n_atoms (ag self)) (Some (replica_label index))).
Proof.
  intros Hpdb Hwf Hsave.
  destruct (pdb_write (relabel index (ag self))) as [text|e partial] eqn:Hw.
  - rewrite (save_structure_written _ _ _ _ _ Hw) in Hsave.
    injection Hsave as <- <-. split; [done|]. split; [apply label_shape|].
    exists text.
    assert (Hrecords : records text
                       = replicate (n_atoms (ag self))
                                   (Some (pdb_resname (replica_label index)))).
    { rewrite (Hpdb _ _ Hw). by apply pdb_records_relabel. }
    split; [|split; [|split]].
    + unfold write_file. cbn [files]. by rewrite lookup_insert_eq.
    + exact Hrecords.
    + intros Hlt. by rewrite Hrecords, (label_fits index Hlt).
    + intros Hge Hatoms Heq. rewrite Hrecords in Heq.
      destruct (n_atoms (ag self)) as [|n]; [lia|].
      cbn [replicate] in Heq.
      apply (label_cut index Hge). congruence.
  - rewrite (save_structure_failed _ _ _ _ _ _ Hw) in Hsave. discriminate Hsave.
Qed.

Lemma C4_save_structure_round_trip_witness :
  let self := mkPackmolStructure Sample.A 2 [] in
  save_structure More.pdb_writer self 12 Sample.nowhere
  = (Ok tt, self,
     write_file "input12.pdb" ("R12" +:+ newline +:+ "R12" +:+ newline +:+ "R12" +:+ newline)
                Sample.nowhere) /\
  resnames (ag self) = ["SOL"] /\
  (exists text,
      files (write_file "input12.pdb"
                        ("R12" +:+ newline +:+ "R12" +:+ newline +:+ "R12" +:+ newline)
                        Sample.nowhere) !! "input12.pdb" = Some text /\
      More.pdb_fields text = [Some "R12"; Some "R12"; Some "R12"]) /\
  Py.int "12" = Some 12%Z.
Proof.
  intros self.
  assert (Hsave : save_structure More.pdb_writer self 12 Sample.nowhere
                  = (Ok tt, self,
                     write_file "input12.pdb"
                                ("R12" +:+ newline +:+ "R12" +:+ newline
                                   +:+ "R12" +:+ newline) Sample.nowhere))
    by reflexivity.
  split; [exact Hsave|]. split; [reflexivity|].
  assert (Hwf : Forall (fun ri => ri < n_residues (ag self)) (resindices (ag self))).
  { repeat apply Forall_cons_2; [cbn; lia ..|apply Forall_nil_2]. }
  destruct (C4_save_structure_round_trip _ _ _ _ _ _ _ pdb_writer_writes_pdb Hwf Hsave)
    as (_ & (digits & Hlabel & Hint) & text & Hfile & _ & Hfits & _).
  split.
  - exists text. split; [exact Hfile|]. apply Hfits. lia.
  - injection Hlabel as <-. exact Hint.
Defined.

(** C5.  The claim wants the residue names back on every exit.  With a
    writer that raises, [save_structure] on template A (residue name
    ["SOL"]) at position 0 lets the exception through and leaves the
    template with the label ["R0"] as its residue name: the restoring
    assignment comes after the write and is not reached. *)
Theorem C5_failed_write_leaves_label :
  exists self' w',
    save_structure Sample.broken_writer (mkPackmolStructure Sample.A 2 []) 0
                   Sample.nowhere
    = (Raise OSError, self', w') /\
    resnames Sample.A = ["SOL"] /\
    resnames (ag self') = ["R0"].
Proof. do 2 eexists. split; [reflexivity|]. split; reflexivity. Qed.

(** ** The packer's exit status *)

Lemma run_packmol_nonzero run_shell decode w p fs :
  run_shell ("packmol < " +:+ PACKMOL_INP) (files w) = (p, fs) ->
  returncode p <> 0%Z ->
  run_packmol run_shell decode w
  = (Raise (ValueError (Some (packmol_failed p))),
     mkWorld fs (trace w ++ [Ran ("packmol < " +:+ PACKMOL_INP)])).
Proof.
  intros Hrun Hrc. unfold run_packmol. rewrite Hrun.
  destruct (Z.eqb_spec (returncode p) 0); [done | reflexivity].
Qed.

Lemma run_packmol_zero run_shell decode w p fs text :
  run_shell ("packmol < " +:+ PACKMOL_INP) (files w) = (p, fs) ->
  returncode p = 0%Z ->
  decode (stdout p) = Some text ->
  run_packmol run_shell decode w
  = (Ok tt, write_file "packmol.stdout" text
                       (mkWorld fs (trace w ++ [Ran ("packmol < " +:+ PACKMOL_INP)]))).
Proof.
  intros Hrun Hrc Hdec. unfold run_packmol. rewrite Hrun, Hrc, Hdec. reflexivity.
Qed.

Lemma run_packmol_undecodable run_shell decode w p fs :
  run_shell ("packmol < " +:+ PACKMOL_INP) (files w) = (p, fs) ->
  returncode p = 0%Z ->
  decode (stdout p) = None ->
  run_packmol run_shell decode w
  = (Raise UnicodeDecodeError,
     write_file "packmol.stdout" ""
                (mkWorld fs (trace w ++ [Ran ("packmol < " +:+ PACKMOL_INP)]))).
Proof.
  intros Hrun Hrc Hdec. unfold run_packmol. rewrite Hrun, Hrc, Hdec. reflexivity.
Qed.

(** C8, the claim as stated.  It lets [run_packmol] return normally
    on every zero exit status.  Here the packer exits with status 0 and
    its output is the byte FF, which is no UTF-8: [p.stdout.decode()] on
    line 87 raises [UnicodeDecodeError], after line 86 has opened the
    log file, which stays empty. *)
Theorem C8_undecodable_output :
  exists p fs w',
    More.garbled_shell "packmol < packmol.inp" (files Sample.nowhere) = (p, fs) /\
    returncode p = 0%Z /\
    stdout p = [ascii_of_nat 255] /\
    run_packmol More.garbled_shell Py.decode_utf8 Sample.nowhere
    = (Raise UnicodeDecodeError, w') /\
    files w' !! "packmol.stdout" = Some "".
Proof. do 3 eexists. repeat split. Qed.

(** C8, amended.  When the packer exits with a nonzero status,
    [run_packmol] raises a [ValueError] whose message holds the exit code
    in decimal and the captured standard error as Python prints bytes; the
    decimal reads back as the exit code and the printed bytes as the
    captured ones.
    [packmol] passes the error on having loaded nothing: the loads in its
    trace are those that were there before the call.  When the packer
    exits with status zero, [run_packmol] writes the decoded output to
    [packmol.stdout] and returns normally if the output decodes, and
    raises [UnicodeDecodeError], leaving the log file empty, if it does
    not.  For exit status 173 and standard error [cannot converge] the
    message is as displayed. *)
Theorem C8_packer_exit_status pdb_write pdb_read run_shell decode format_float :
  (forall w p fs,
      run_shell "packmol < packmol.inp" (files w) = (p, fs) ->
      returncode p <> 0%Z ->
      run_packmol run_shell decode w
      = (Raise (ValueError
                  (Some ("Packmol failed with errorcode "
                           +:+ Py.format_int (returncode p)
                           +:+ " and stderr: " +:+ Py.repr_bytes (stderr p)))),
         mkWorld fs (trace w ++ [Ran "packmol < packmol.inp"]))) /\
  (forall code : Z, Py.int (Py.format_int code) = Some code) /\
  (forall captured : list ascii,
      Py.bytes_literal (Py.repr_bytes captured) = Some captured) /\
  (forall fuel structures tolerance w structures' w1 p fs,
      make_packmol_input pdb_write format_float structures tolerance w
      = (Ok tt, structures', w1) ->
      run_shell "packmol < packmol.inp" (files w1) = (p, fs) ->
      returncode p <> 0%Z ->
      exists w',
        packmol pdb_write pdb_read run_shell decode format_float
                fuel structures tolerance w
        = (Some (Raise (ValueError
                          (Some ("Packmol failed with errorcode "
                                   +:+ Py.format_int (returncode p)
                                   +:+ " and stderr: " +:+ Py.repr_bytes (stderr p))))),
           structures', [], w') /\
        forall name, Loaded name ∈ trace w' -> Loaded name ∈ trace w) /\
  (forall w p fs text,
      run_shell "packmol < packmol.inp" (files w) = (p, fs) ->
      returncode p = 0%Z ->
      decode (stdout p) = Some text ->
      run_packmol run_shell decode w
      = (Ok tt, write_file "packmol.stdout" text
                           (mkWorld fs (trace w ++ [Ran "packmol < packmol.inp"])))) /\
  (forall w p fs,
      run_shell "packmol < packmol.inp" (files w) = (p, fs) ->
      returncode p = 0%Z ->
      decode (stdout p) = None ->
      run_packmol run_shell decode w
      = (Raise UnicodeDecodeError,
         write_file "packmol.stdout" ""
                    (mkWorld fs (trace w ++ [Ran "packmol < packmol.inp"])))) /\
  packmol_failed (mkCompleted 173 [] (list_ascii_of_string "cannot converge"))
  = "Packmol failed with errorcode 173 and stderr: b'cannot converge'".
Proof.
  split; [|split; [|split; [|split; [|split; [|split]]]]].
  - intros w p fs Hrun Hrc.
    exact (run_packmol_nonzero run_shell decode w p fs Hrun Hrc).
  - exact int_format_int.
  - exact bytes_literal_repr.
  - intros fuel structures tolerance w structures' w1 p fs Hinput Hrun Hrc.
    eexists. split.
    + unfold packmol. rewrite Hinput.
      rewrite (run_packmol_nonzero run_shell decode w1 p fs Hrun Hrc). reflexivity.
    + intros name Hin.
      pose proof (make_packmol_input_trace pdb_write format_float structures
                                           tolerance w) as Htrace.
      rewrite Hinput in Htrace. cbn [snd] in Htrace.
      apply (owr_loaded w w1 name Htrace).
      cbn [trace] in Hin. apply elem_of_app in Hin as [Hin|Hin]; [done|].
      apply list_elem_of_singleton in Hin. discriminate Hin.
  - intros w p fs text Hrun Hrc Hdec.
    exact (run_packmol_zero run_shell decode w p fs text Hrun Hrc Hdec).
  - intros w p fs Hrun Hrc Hdec.
    exact (run_packmol_undecodable run_shell decode w p fs Hrun Hrc Hdec).
  - reflexivity.
Qed.

Lemma C8_packer_exit_status_witness :
  (exists w',
      packmol Sample.writer Sample.reader Sample.failing_shell Py.decode_utf8
              Sample.float_repr 8 Sample.structures None Sample.nowhere
      = (Some (Raise (ValueError
                        (Some "Packmol failed with errorcode 173 and stderr: b'cannot converge'"))),
         Sample.structures, [], w') /\
      forall name, Loaded name ∈ trace w' -> Loaded name ∈ trace Sample.nowhere) /\
  Py.int "173" = Some 173%Z /\
  Py.bytes_literal "b'cannot converge'" = Some (list_ascii_of_string "cannot converge") /\
  fst (run_packmol Sample.working_shell Py.decode_utf8 Sample.nowhere) = Ok tt /\
  files (snd (run_packmol Sample.working_shell Py.decode_utf8 Sample.nowhere))
    !! "packmol.stdout" = Some "Success!" /\
  fst (run_packmol More.garbled_shell Py.decode_utf8 Sample.nowhere)
  = Raise UnicodeDecodeError /\
  files (snd (run_packmol More.garbled_shell Py.decode_utf8 Sample.nowhere))
    !! "packmol.stdout" = Some "".
Proof.
  pose proof (C8_packer_exit_status Sample.writer Sample.reader) as Hfail.
  split; [|split; [|split; [|split; [|split; [|split]]]]].
  - destruct (Hfail Sample.failing_shell Py.decode_utf8 Sample.float_repr)
      as (_ & _ & _ & Hpack & _).
    set (w1 := snd (make_packmol_input Sample.writer Sample.float_repr
                                       Sample.structures None Sample.nowhere)).
    destruct (Hpack 8 Sample.structures None Sample.nowhere Sample.structures w1
                    (mkCompleted 173 [] (list_ascii_of_string "cannot converge"))
                    (files w1))
      as (w' & Hrun & Hloads).
    + reflexivity.
    + reflexivity.
    + discriminate.
    + exists w'. split; [exact Hrun | exact Hloads].
  - destruct (Hfail Sample.failing_shell Py.decode_utf8 Sample.float_repr)
      as (_ & Hcode & _).
    exact (Hcode 173%Z).
  - destruct (Hfail Sample.failing_shell Py.decode_utf8 Sample.float_repr)
      as (_ & _ & Hbytes & _).
    exact (Hbytes (list_ascii_of_string "cannot converge")).
  - destruct (Hfail Sample.working_shell Py.decode_utf8 Sample.float_repr)
      as (_ & _ & _ & _ & Hzero & _).
    by rewrite (Hzero Sample.nowhere _ _ "Success!" eq_refl eq_refl eq_refl).
  - destruct (Hfail Sample.working_shell Py.decode_utf8 Sample.float_repr)
      as (_ & _ & _ & _ & Hzero & _).
    by rewrite (Hzero Sample.nowhere _ _ "Success!" eq_refl eq_refl eq_refl).
  - destruct (Hfail More.garbled_shell Py.decode_utf8 Sample.float_repr)
      as (_ & _ & _ & _ & _ & Hnone & _).
    by rewrite (Hnone Sample.nowhere _ _ eq_refl eq_refl eq_refl).
  - destruct (Hfail More.garbled_shell Py.decode_utf8 Sample.float_repr)
      as (_ & _ & _ & _ & _ & Hnone & _).
    by rewrite (Hnone Sample.nowhere _ _ eq_refl eq_refl eq_refl).
Defined.

(** * Further properties of the module *)

(** ** Strings and file names *)

Lemma append_assoc (a b c : string) : (a +:+ b) +:+ c = a +:+ b +:+ c.
Proof.
  induction a as [|x a IH]; [done|].
  change (String x ((a +:+ b) +:+ c) = String x (a +:+ b +:+ c)). by f_equal.
Qed.

Lemma append_nil_r (a : string) : a +:+ "" = a.
Proof.
  induction a as [|x a IH]; [done|].
  change (String x (a +:+ "") = String x a). by f_equal.
Qed.

Lemma list_ascii_of_append (a b : string) :
  list_ascii_of_string (a +:+ b) = list_ascii_of_string a ++ list_ascii_of_string b.
Proof.
  induction a as [|x a IH]; [done|].
  change (x :: list_ascii_of_string (a +:+ b)
          = x :: list_ascii_of_string a ++ list_ascii_of_string b). by f_equal.
Qed.

Lemma append_inv_tail (a b c : string) : a +:+ c = b +:+ c -> a = b.
Proof.
  intros H. apply (f_equal list_ascii_of_string) in H.
  rewrite !list_ascii_of_append in H. apply app_inv_tail in H.
  rewrite <- (string_of_list_ascii_of_string a), <- (string_of_list_ascii_of_string b).
  by rewrite H.
Qed.

Lemma format_nat_inj i j : Py.format_nat i = Py.format_nat j -> i = j.
Proof.
  intros H. pose proof (int_format_nat i) as Hi. rewrite H, int_format_nat in Hi.
  injection Hi as Hi. lia.
Qed.

Lemma structure_file_inj i j :
  PACKMOL_STRUCTURE_FILES i = PACKMOL_STRUCTURE_FILES j -> i = j.
Proof.
  unfold PACKMOL_STRUCTURE_FILES. intros H. apply String.app_inj in H.
  apply append_inv_tail in H. by apply format_nat_inj.
Qed.

Lemma structure_file_not_input i : PACKMOL_STRUCTURE_FILES i <> PACKMOL_INP.
Proof. discriminate. Qed.

(** X1.  The label written for the descriptor at position t reads back as
    t: the first character dropped, the rest is the integer literal of t;
    and two positions never get the same label. *)
Theorem X1_label_round_trip :
  (forall t, Py.int (Py.tail (replica_label t)) = Some (Z.of_nat t)) /\
  (forall t t', replica_label t = replica_label t' -> t = t').
Proof.
  split; [apply int_tail_label|].
  intros t t' H. pose proof (int_tail_label t) as Ht.
  rewrite H, int_tail_label in Ht. injection Ht as Ht. lia.
Qed.

(** X2.  The coordinate files of two positions have different names, and
    none of them is the input file, the packed output or the log file. *)
Theorem X2_file_names_distinct :
  (forall i j, PACKMOL_STRUCTURE_FILES i = PACKMOL_STRUCTURE_FILES j -> i = j) /\
  (forall i, PACKMOL_STRUCTURE_FILES i <> PACKMOL_INP /\
             PACKMOL_STRUCTURE_FILES i <> PACKMOL_OUT /\
             PACKMOL_STRUCTURE_FILES i <> "packmol.stdout").
Proof.
  split; [apply structure_file_inj|].
  intros i. repeat split; discriminate.
Qed.

(** ** A section of the input file *)

Lemma fold_instructions instructions out :
  fold_left (fun out instruction => out +:+ "  " +:+ instruction +:+ newline)
            instructions out
  = out +:+ instruction_lines instructions.
Proof.
  revert out. induction instructions as [|x l IH]; intros out.
  - simpl. by rewrite append_nil_r.
  - cbn [fold_left instruction_lines fold_right]. rewrite IH.
    by rewrite !append_assoc.
Qed.

(** X3.  A section is the [structure] line with the file name of the
    position, the [number] line with the count in decimal, the
    instructions in their order, each on a line of its own after two
    blanks, and [end structure] followed by an empty line; the
    instructions of a concatenation are those of its parts, one after the
    other. *)
Theorem X3_section_text :
  (forall self i,
      to_packmol_inp self i
      = "structure " +:+ PACKMOL_STRUCTURE_FILES i +:+ newline
          +:+ "  number " +:+ Py.format_int (number self) +:+ newline
          +:+ instruction_lines (instructions self)
          +:+ "end structure" +:+ newline +:+ newline) /\
  (forall l1 l2,
      instruction_lines (l1 ++ l2) = instruction_lines l1 +:+ instruction_lines l2).
Proof.
  split.
  - intros self i. unfold to_packmol_inp. rewrite fold_instructions.
    by rewrite !append_assoc.
  - intros l1 l2. induction l1 as [|x l1 IH]; [done|].
    cbn [app instruction_lines fold_right]. fold (instruction_lines (l1 ++ l2)).
    fold (instruction_lines l1). by rewrite IH, !append_assoc.
Qed.

(** ** Input generation as a whole *)

Lemma wrote_inputs_S i n :
  wrote_inputs i (S n) = Wrote (PACKMOL_STRUCTURE_FILES i) :: wrote_inputs (S i) n.
Proof. reflexivity. Qed.

Lemma write_structures_ok pdb_write todo :
  forall i out w,
    (forall k s, todo !! k = Some s ->
                 exists text, pdb_write (relabel (i + k) (ag s)) = Written text) ->
    exists fs,
      write_structures pdb_write i todo out w
      = (Ok tt, todo, out +:+ sections i todo,
         mkWorld fs (trace w ++ wrote_inputs i (length todo))) /\
      (forall k s text,
          todo !! k = Some s ->
          pdb_write (relabel (i + k) (ag s)) = Written text ->
          fs !! PACKMOL_STRUCTURE_FILES (i + k) = Some text) /\
      (forall name,
          (forall k, k < length todo -> name <> PACKMOL_STRUCTURE_FILES (i + k)) ->
          fs !! name = files w !! name).
Proof.
  induction todo as [|s rest IH]; intros i out w Hall.
  - exists (files w). split; [|split].
    + cbn [write_structures sections length]. unfold wrote_inputs. simpl.
      rewrite append_nil_r, app_nil_r. by destruct w.
    + intros k s text Hk. by rewrite lookup_nil in Hk.
    + done.
  - destruct (Hall 0 s eq_refl) as [text Htext]. rewrite Nat.add_0_r in Htext.
    cbn [write_structures]. rewrite (save_structure_written _ _ _ _ _ Htext).
    destruct (IH (S i) (out +:+ to_packmol_inp s i)
                 (write_file (PACKMOL_STRUCTURE_FILES i) text w)) as (fs & -> & Hfs & Hother).
    { intros k s' Hk. replace (S i + k) with (i + S k) by lia. by apply (Hall (S k)). }
    exists fs. split; [|split].
    + cbn [sections length trace write_file]. rewrite wrote_inputs_S.
      rewrite append_assoc, <- app_assoc. reflexivity.
    + intros [|k] s' text' Hk Hw.
      * injection Hk as <-. rewrite Nat.add_0_r in Hw |- *.
        rewrite Hother.
        -- cbn [files write_file]. rewrite lookup_insert_eq. congruence.
        -- intros k _ Heq. apply structure_file_inj in Heq. lia.
      * replace (i + S k) with (S i + k) in Hw |- * by lia. by eapply Hfs.
    + intros name Hname. rewrite Hother.
      * cbn [files write_file]. rewrite lookup_insert_ne; [done|].
        intros Heq. apply (Hname 0); [simpl; lia|]. by rewrite Nat.add_0_r.
      * intros k Hk Heq. apply (Hname (S k)); [simpl; lia|].
        by replace (i + S k) with (S i + k) by lia.
Qed.

Lemma make_packmol_input_ok pdb_write format_float structures tolerance w :
  (forall k s, structures !! k = Some s ->
               exists text, pdb_write (relabel k (ag s)) = Written text) ->
  exists fs,
    make_packmol_input pdb_write format_float structures tolerance w
    = (Ok tt, structures,
       mkWorld (<[PACKMOL_INP := input_head format_float tolerance
                                   +:+ sections 0 structures +:+ input_tail]> fs)
               (trace w ++ wrote_inputs 0 (length structures) ++ [Wrote PACKMOL_INP])) /\
    (forall k s text,
        structures !! k = Some s ->
        pdb_write (relabel k (ag s)) = Written text ->
        fs !! PACKMOL_STRUCTURE_FILES k = Some text) /\
    (forall name,
        (forall k, k < length structures -> name <> PACKMOL_STRUCTURE_FILES k) ->
        fs !! name = files w !! name).
Proof.
  intros Hall. unfold make_packmol_input.
  match goal with
  | |- context [write_structures _ 0 structures ?o w] => set (out := o)
  end.
  destruct (write_structures_ok pdb_write structures 0 out w Hall)
    as (fs & -> & Hfs & Hother).
  exists fs. split; [|split].
  - unfold write_file. cbn [files trace]. rewrite append_assoc, <- app_assoc.
    reflexivity.
  - exact Hfs.
  - exact Hother.
Qed.

(** X4.  When every coordinate write succeeds, [make_packmol_input]
    returns normally and leaves every descriptor as it was; it writes the
    coordinate files in the order of the list and the input file last,
    runs nothing and loads nothing. *)
Theorem X4_input_generation_succeeds pdb_write format_float structures tolerance w :
  (forall k s, structures !! k = Some s ->
               exists text, pdb_write (relabel k (ag s)) = Written text) ->
  exists w',
    make_packmol_input pdb_write format_float structures tolerance w
    = (Ok tt, structures, w') /\
    trace w' = trace w ++ wrote_inputs 0 (length structures) ++ [Wrote PACKMOL_INP].
Proof.
  intros Hall.
  destruct (make_packmol_input_ok pdb_write format_float structures tolerance w Hall)
    as (fs & Hrun & _).
  eexists. split; [exact Hrun | reflexivity].
Qed.

(** X5.  When every coordinate write succeeds, the file of position k
    holds, after [make_packmol_input], what the writer made of the template
    of descriptor k under the label of k: no later write replaces it.
    Files that are neither the input file nor the coordinate file of a
    position of the list are as they were. *)
Theorem X5_input_files pdb_write format_float structures tolerance w :
  (forall k s, structures !! k = Some s ->
               exists text, pdb_write (relabel k (ag s)) = Written text) ->
  let w' := snd (make_packmol_input pdb_write format_float structures tolerance w) in
  (forall k s text,
      structures !! k = Some s ->
      pdb_write (relabel k (ag s)) = Written text ->
      files w' !! PACKMOL_STRUCTURE_FILES k = Some text) /\
  (forall name,
      name <> PACKMOL_INP ->
      (forall k, k < length structures -> name <> PACKMOL_STRUCTURE_FILES k) ->
      files w' !! name = files w !! name).
Proof.
  intros Hall.
  destruct (make_packmol_input_ok pdb_write format_float structures tolerance w Hall)
    as (fs & Hrun' & Hfs & Hother).
  rewrite Hrun'. cbn [snd files]. split.
  - intros k s text Hk Hw.
    rewrite lookup_insert_ne by (apply not_eq_sym, structure_file_not_input).
    by eapply Hfs.
  - intros name Hne Hname. rewrite lookup_insert_ne by done. by apply Hother.
Qed.

(** X6.  The input file a successful [make_packmol_input] leaves is the
    header with the tolerance (2.0 when none is given) and the file type,
    the sections of the descriptors in the order of the list, and the
    [output] line; the writer has no part in it. *)
Theorem X6_input_text pdb_write format_float structures tolerance w w' structures' :
  make_packmol_input pdb_write format_float structures tolerance w
  = (Ok tt, structures', w') ->
  files w' !! PACKMOL_INP
  = Some (input_head format_float tolerance +:+ sections 0 structures +:+ input_tail) /\
  input_head format_float None = input_head format_float (Some 2%Q).
Proof.
  intros Hrun. split; [|reflexivity].
  unfold make_packmol_input in Hrun.
  match type of Hrun with
  | context [write_structures _ 0 structures ?o w] => set (out := o) in Hrun
  end.
  assert (Htext : forall todo i o v,
             snd (fst (write_structures pdb_write i todo o v)) = o +:+ sections i todo
             \/ exists e, fst (fst (fst (write_structures pdb_write i todo o v))) = Raise e).
  { induction todo as [|s rest IH]; intros i o v.
    - left. cbn [write_structures sections fst snd]. by rewrite append_nil_r.
    - cbn [write_structures].
      destruct (save_structure pdb_write s i v) as [[[[]|e] s'] v1].
      + destruct (IH (S i) (o +:+ to_packmol_inp s i) v1) as [Heq|[e He]].
        * left. destruct (write_structures _ _ _ _ v1) as [[[r rest'] o'] v2].
          cbn [fst snd] in *. rewrite Heq. cbn [sections]. by rewrite append_assoc.
        * right. exists e.
          destruct (write_structures _ _ _ _ v1) as [[[r rest'] o'] v2].
          cbn [fst snd] in *. done.
      + right. by exists e. }
  destruct (Htext structures 0 out w) as [Heq|[e He]].
  - destruct (write_structures pdb_write 0 structures out w) as [[[[[]|e] ss] o'] v].
    + injection Hrun as _ <-. cbn [fst snd] in Heq. subst o'.
      unfold write_file. cbn [files]. rewrite lookup_insert_eq. f_equal.
      unfold out, input_head, input_tail. by rewrite !append_assoc.
    + discriminate Hrun.
  - destruct (write_structures pdb_write 0 structures out w) as [[[[[]|e'] ss] o'] v];
      cbn [fst] in He; [discriminate He | discriminate Hrun].
Qed.




(** ** The pipeline *)


(** X9.  When every coordinate write succeeds, the packer exits with
    status zero, its output decodes and the packed file loads, [packmol]
    returns what [reassign_topology] makes of the loaded structure and of
    the descriptors, which are as the caller gave them.  The loader is
    given the packed file as the packer left it, and the steps happen in
    the order: coordinate files, input file, packer, log file, load. *)
Theorem X9_pipeline_succeeds
        pdb_write pdb_read run_shell decode format_float
        fuel structures tolerance w p fs text u :
  (forall k s, structures !! k = Some s ->
               exists text, pdb_write (relabel k (ag s)) = Written text) ->
  run_shell "packmol < packmol.inp"
            (files (snd (make_packmol_input pdb_write format_float structures tolerance w)))
  = (p, fs) ->
  returncode p = 0%Z ->
  decode (stdout p) = Some text ->
  pdb_read (fs !! PACKMOL_OUT) = Ok u ->
  exists w',
    packmol pdb_write pdb_read run_shell decode format_float fuel structures tolerance w
    = (snd (reassign_topology fuel structures u), structures,
       fst (reassign_topology fuel structures u), w') /\
    trace w' = trace w ++ wrote_inputs 0 (length structures)
                 ++ [Wrote PACKMOL_INP; Ran "packmol < packmol.inp";
                     Wrote "packmol.stdout"; Loaded PACKMOL_OUT].
Proof.
  intros Hall Hshell Hrc Hdec Hread.
  destruct (make_packmol_input_ok pdb_write format_float structures tolerance w Hall)
    as (fs0 & Hrun & _).
  rewrite Hrun in Hshell. cbn [snd] in Hshell.
  unfold packmol. rewrite Hrun.
  rewrite (run_packmol_zero run_shell decode _ p fs text Hshell Hrc Hdec).
  unfold load_packmol_output, write_file. cbn [files trace].
  rewrite lookup_insert_ne by discriminate. rewrite Hread.
  destruct (reassign_topology fuel structures u) as [warned r].
  eexists. split; [reflexivity|]. cbn [trace]. by rewrite <- !app_assoc.
Qed.

(** X10.  When the packer exits with status zero and its output does not
    decode, [packmol] raises [UnicodeDecodeError]: the log file is left
    empty and the packed file is not loaded. *)
Theorem X10_pipeline_undecodable_output
        pdb_write pdb_read run_shell decode format_float
        fuel structures tolerance w p fs :
  (forall k s, structures !! k = Some s ->
               exists text, pdb_write (relabel k (ag s)) = Written text) ->
  run_shell "packmol < packmol.inp"
            (files (snd (make_packmol_input pdb_write format_float structures tolerance w)))
  = (p, fs) ->
  returncode p = 0%Z ->
  decode (stdout p) = None ->
  exists w',
    packmol pdb_write pdb_read run_shell decode format_float fuel structures tolerance w
    = (Some (Raise UnicodeDecodeError), structures, [], w') /\
    files w' !! "packmol.stdout" = Some "" /\
    forall name, Loaded name ∈ trace w' -> Loaded name ∈ trace w.
Proof.
  intros Hall Hshell Hrc Hdec.
  destruct (make_packmol_input_ok pdb_write format_float structures tolerance w Hall)
    as (fs0 & Hrun & _).
  rewrite Hrun in Hshell. cbn [snd files] in Hshell.
  unfold packmol. rewrite Hrun. unfold run_packmol. cbn [files trace].
  change ("packmol < " +:+ PACKMOL_INP) with "packmol < packmol.inp".
  rewrite Hshell, Hrc, Hdec. cbn [Z.eqb].
  eexists. split; [reflexivity|]. unfold write_file. cbn [files trace]. split.
  - by rewrite lookup_insert_eq.
  - intros name Hin. rewrite !elem_of_app in Hin.
    destruct Hin as [[[Hin|[Hin|Hin]]|Hin]|Hin]; [done | | | |].
    + unfold wrote_inputs in Hin. apply list_elem_of_In, in_map_iff in Hin.
      by destruct Hin as (k & Hk & _).
    + apply list_elem_of_singleton in Hin. discriminate Hin.
    + apply list_elem_of_singleton in Hin. discriminate Hin.
    + apply list_elem_of_singleton in Hin. discriminate Hin.
Qed.

(** X11.  When the packed file does not load, [packmol] passes the
    loader's exception on; [reassign_topology] is not reached, so no
    warning is emitted, and the descriptors are as the caller gave
    them. *)
Theorem X11_pipeline_load_fails
        pdb_write pdb_read run_shell decode format_float
        fuel structures tolerance w p fs text e :
  (forall k s, structures !! k = Some s ->
               exists text, pdb_write (relabel k (ag s)) = Written text) ->
  run_shell "packmol < packmol.inp"
            (files (snd (make_packmol_input pdb_write format_float structures tolerance w)))
  = (p, fs) ->
  returncode p = 0%Z ->
  decode (stdout p) = Some text ->
  pdb_read (fs !! PACKMOL_OUT) = Raise e ->
  exists w',
    packmol pdb_write pdb_read run_shell decode format_float fuel structures tolerance w
    = (Some (Raise e), structures, [], w').
Proof.
  intros Hall Hshell Hrc Hdec Hread.
  destruct (make_packmol_input_ok pdb_write format_float structures tolerance w Hall)
    as (fs0 & Hrun & _).
  rewrite Hrun in Hshell. cbn [snd] in Hshell.
  unfold packmol. rewrite Hrun.
  rewrite (run_packmol_zero run_shell decode _ p fs text Hshell Hrc Hdec).
  unfold load_packmol_output, write_file. cbn [files trace].
  rewrite lookup_insert_ne by discriminate. rewrite Hread.
  eexists. reflexivity.
Qed.

(** ** What reassembly leaves alone *)

Lemma copy_attr_frame template lo hi u a u' :
  copy_attr template lo hi (Ok u) a = Ok u' ->
  (forall attr, attr <> a -> atom_attrs u' !! attr = atom_attrs u !! attr) /\
  (forall attr arr, atom_attrs u !! attr = Some arr ->
                    exists arr', atom_attrs u' !! attr = Some arr' /\
                                 length arr' = length arr).
Proof.
  unfold copy_attr. cbn [mbind result_bind Py.bind].
  destruct (atom_attrs template !! a) as [vals|].
  2:{ intros [= <-]. split; [done|]. intros attr arr ->. by eexists. }
  unfold set_atom_attr. intros H.
  destruct (atom_attrs u !! a) as [arr0|] eqn:Ea; [|discriminate H].
  cbn [Py.of_option mbind result_bind Py.bind] in H.
  destruct (set_values lo hi vals arr0) as [arr1|] eqn:Es; [|discriminate H].
  cbn [mbind mret result_ret result_bind Py.bind] in H. injection H as <-.
  cbn [atom_attrs with_atom_attrs]. split.
  - intros attr Hne. by rewrite lookup_insert_ne.
  - intros attr arr Harr. destruct (decide (attr = a)) as [->|Hne].
    + rewrite lookup_insert_eq. eexists. split; [done|].
      rewrite (set_values_length _ _ _ _ _ Es). congruence.
    + rewrite lookup_insert_ne by done. by eexists.
Qed.

Lemma fold_copy_frame template lo hi l u u' :
  fold_left (copy_attr template lo hi) l (Ok u) = Ok u' ->
  (forall attr, attr ∉ l -> atom_attrs u' !! attr = atom_attrs u !! attr) /\
  (forall attr arr, atom_attrs u !! attr = Some arr ->
                    exists arr', atom_attrs u' !! attr = Some arr' /\
                                 length arr' = length arr).
Proof.
  revert u. induction l as [|a l IH]; intros u H.
  - simpl in H. injection H as <-. split; [done|]. intros attr arr ->. by eexists.
  - cbn [fold_left] in H.
    destruct (copy_attr template lo hi (Ok u) a) as [u1|e] eqn:E;
      [|by rewrite fold_copy_raise in H].
    destruct (copy_attr_frame _ _ _ _ _ _ E) as [F1 F2].
    destruct (IH u1 H) as [G1 G2]. split.
    + intros attr Hnot. apply not_elem_of_cons in Hnot as [Hne Hnot].
      by rewrite G1, F1.
    + intros attr arr Harr. destruct (F2 attr arr Harr) as (arr1 & Harr1 & Hlen1).
      destruct (G2 attr arr1 Harr1) as (arr2 & Harr2 & Hlen2).
      exists arr2. split; [done | congruence].
Qed.

Lemma loop_body_frame structures st st' :
  loop_body structures st = Ok st' ->
  length (resnames (new st')) = length (resnames (new st)) /\
  (forall attr, attr ∉ atom_attr_names ->
                atom_attrs (new st') !! attr = atom_attrs (new st) !! attr) /\
  (forall attr arr, atom_attrs (new st) !! attr = Some arr ->
                    exists arr', atom_attrs (new st') !! attr = Some arr' /\
                                 length arr' = length arr).
Proof.
  unfold loop_body. intros H.
  destruct (template_at structures st) as [template|]; [|discriminate H].
  cbn [mbind result_bind Py.bind] in H.
  destruct (Py.of_option IndexError (resindices (new st) !! index st)) as [r|];
    [|discriminate H].
  cbn [mbind result_bind Py.bind] in H.
  destruct (set_resnames _ _ _ (new st)) as [u1|] eqn:E1; [|discriminate H].
  cbn [mbind result_bind Py.bind] in H.
  destruct (fold_left _ _ (Ok u1)) as [u2|] eqn:E2; [|discriminate H].
  cbn [mbind mret result_ret result_bind Py.bind] in H. injection H as <-.
  cbn [new].
  destruct (fold_copy_fields _ _ _ _ _ _ E2) as (_ & A2 & _).
  destruct (fold_copy_frame _ _ _ _ _ _ E2) as [F1 F2].
  unfold set_resnames in E1.
  destruct (set_values _ _ _ (resnames (new st))) as [rn|] eqn:Es; [|discriminate E1].
  cbn [mbind mret result_ret result_bind Py.bind] in E1. injection E1 as <-.
  cbn [resnames atom_attrs with_resnames] in *.
  split; [|split].
  - rewrite A2. by apply set_values_length in Es.
  - exact F1.
  - exact F2.
Qed.

Lemma while_loop_inv structures (P : walk -> Prop) :
  (forall st st', P st -> loop_body structures st = Ok st' -> P st') ->
  forall fuel st st',
    P st -> while_loop fuel structures st = Some (Ok st') -> P st'.
Proof.
  intros Hstep. induction fuel as [|fuel IH]; intros st st' HP Hrun; simpl in Hrun;
    destruct (index st <? n_atoms (new st)); try discriminate Hrun;
    try (by injection Hrun as <-).
  destruct (loop_body structures st) as [st1|e] eqn:Hbody; [|discriminate Hrun].
  apply (IH st1 st'); [by eapply Hstep | done].
Qed.

Lemma attach_connections_other st name :
  name ∉ bonded_attr_names ->
  connections (attach st) !! name = connections (new st) !! name.
Proof.
  unfold bonded_attr_names. rewrite !not_elem_of_cons. intros (N1 & N2 & N3 & N4 & _).
  unfold attach, add_connections.
  destruct (nonempty (bonds st)), (nonempty (angles st)),
    (nonempty (dihedrals st)), (nonempty (impropers st));
    cbn [connections with_connections]; by rewrite ?lookup_insert_ne.
Qed.

Lemma reassign_returns fuel structures u final :
  snd (reassign_topology fuel structures u) = Some (Ok final) ->
  exists st, while_loop fuel structures (initial_walk structures u) = Some (Ok st) /\
             final = attach st.
Proof.
  rewrite reassign_outcome.
  destruct (while_loop fuel structures (initial_walk structures u)) as [[st|e]|];
    [|done|done].
  intros [= <-]. by exists st.
Qed.

(** X12.  Whatever the descriptors and the packed structure are, a
    structure that [reassign_topology] returns has the atoms and the
    residues it was given: the residue of every atom and the number of
    residues are unchanged, and each of the four per-atom attributes that
    some template defines has one value per atom. *)
Theorem X12_reassembly_keeps_atoms fuel structures u final :
  snd (reassign_topology fuel structures u) = Some (Ok final) ->
  resindices final = resindices u /\
  n_residues final = n_residues u /\
  forall attr,
    attr ∈ atom_attr_names -> any_hasattr structures attr = true ->
    exists arr, atom_attrs final !! attr = Some arr /\ length arr = n_atoms final.
Proof.
  intros Hret. destruct (reassign_returns _ _ _ _ Hret) as (st & Hrun & ->).
  destruct (fold_add_required structures atom_attr_names atom_attr_names_NoDup u [])
    as (P1 & P2 & _ & P4).
  set (P := fun s : walk =>
              resindices (new s) = resindices u /\
              length (resnames (new s)) = length (resnames u) /\
              forall attr,
                attr ∈ atom_attr_names -> any_hasattr structures attr = true ->
                exists arr, atom_attrs (new s) !! attr = Some arr /\
                            length arr = n_atoms u).
  assert (HP : P st).
  { apply (while_loop_inv structures P) with (fuel := fuel)
                                             (st := initial_walk structures u);
      [|  |exact Hrun].
    - intros s s' (I1 & I2 & I3) Hbody.
      destruct (loop_body_inv _ _ _ Hbody) as (_ & _ & _ & Hri & _).
      destruct (loop_body_frame _ _ _ Hbody) as (F1 & _ & F3).
      split; [congruence|]. split; [congruence|].
      intros attr Hin Hany. destruct (I3 attr Hin Hany) as (arr & Harr & Hlen).
      destruct (F3 attr arr Harr) as (arr' & Harr' & Hlen').
      exists arr'. split; [done | congruence].
    - unfold P, initial_walk. cbn [new]. split; [done|]. split; [by rewrite P2|].
      intros attr Hin Hany. rewrite P4, decide_True, Hany by done.
      eexists. split; [done|]. by rewrite length_replicate. }
  destruct HP as (I1 & I2 & I3).
  destruct (attach_fields st) as (A1 & A2 & A3).
  split; [congruence|]. split; [unfold n_residues; congruence|].
  intros attr Hin Hany. destruct (I3 attr Hin Hany) as (arr & Harr & Hlen).
  exists arr. rewrite A3. split; [done|]. unfold n_atoms in *. congruence.
Qed.

(** X13.  A structure that [reassign_topology] returns has every per-atom
    attribute other than [types], [names], [charges], [masses], and every
    bonded attribute other than [bonds], [angles], [dihedrals],
    [impropers], as the packed structure had it. *)
Theorem X13_reassembly_frame fuel structures u final :
  snd (reassign_topology fuel structures u) = Some (Ok final) ->
  (forall attr, attr ∉ atom_attr_names ->
                atom_attrs final !! attr = atom_attrs u !! attr) /\
  (forall name, name ∉ bonded_attr_names ->
                connections final !! name = connections u !! name).
Proof.
  intros Hret. destruct (reassign_returns _ _ _ _ Hret) as (st & Hrun & ->).
  destruct (fold_add_required structures atom_attr_names atom_attr_names_NoDup u [])
    as (_ & _ & P3 & P4).
  set (P := fun s : walk =>
              connections (new s) = connections u /\
              forall attr, attr ∉ atom_attr_names ->
                           atom_attrs (new s) !! attr = atom_attrs u !! attr).
  assert (HP : P st).
  { apply (while_loop_inv structures P) with (fuel := fuel)
                                             (st := initial_walk structures u);
      [|  |exact Hrun].
    - intros s s' (I1 & I2) Hbody.
      destruct (loop_body_inv _ _ _ Hbody) as (_ & _ & _ & _ & Hc & _).
      destruct (loop_body_frame _ _ _ Hbody) as (_ & F2 & _).
      split; [congruence|]. intros attr Hnot. by rewrite F2, I2.
    - unfold P, initial_walk. cbn [new]. split; [done|].
      intros attr Hnot. by rewrite P4, decide_False. }
  destruct HP as (I1 & I2).
  destruct (attach_fields st) as (_ & _ & A3). split.
  - intros attr Hnot. rewrite A3. by apply I2.
  - intros name Hnot. rewrite attach_connections_other by done. by rewrite I1.
Qed.

(** ** Edge cases of the walk *)

Lemma while_loop_done fuel structures st :
  n_atoms (new st) <= index st -> while_loop fuel structures st = Some (Ok st).
Proof.
  intros Hle.
  destruct fuel; simpl; destruct (Nat.ltb_spec (index st) (n_atoms (new st)));
    (lia || done).
Qed.

(** X14.  On a packed structure without atoms the loop body is never
    entered: [reassign_topology] returns, whatever the fuel, a structure
    with the residue names and the bonded attributes it was given; no
    bonded attribute is attached. *)
Theorem X14_no_atoms fuel structures u :
  n_atoms u = 0 ->
  exists final,
    snd (reassign_topology fuel structures u) = Some (Ok final) /\
    resnames final = resnames u /\
    connections final = connections u.
Proof.
  intros Hz.
  destruct (fold_add_required structures atom_attr_names atom_attr_names_NoDup u [])
    as (_ & P2 & P3 & _).
  assert (Hrun : while_loop fuel structures (initial_walk structures u)
                 = Some (Ok (initial_walk structures u))).
  { apply while_loop_done. rewrite initial_walk_n_atoms. lia. }
  rewrite reassign_outcome, Hrun. eexists. split; [reflexivity|].
  unfold attach, initial_walk. cbn [new bonds angles dihedrals impropers nonempty].
  by rewrite P2, P3.
Qed.

Lemma template_at_no_descriptors st e :
  template_at [] st = Raise e -> e = IndexError \/ e = ValueError None.
Proof.
  unfold template_at. intros H.
  destruct (resindices (new st) !! index st) as [ri|];
    cbn [Py.of_option mbind result_bind Py.bind] in H; [|injection H as <-; by left].
  destruct (resnames (new st) !! ri) as [name|];
    cbn [Py.of_option mbind result_bind Py.bind] in H; [|injection H as <-; by left].
  destruct (Py.int (Py.tail name)) as [z|];
    cbn [Py.of_option mbind result_bind Py.bind] in H; [|injection H as <-; by right].
  rewrite getitem_out_of_range in H by (simpl; lia).
  cbn [mbind result_bind Py.bind] in H. injection H as <-. by left.
Qed.

(** X15.  With an empty list of descriptors and a packed structure that
    has atoms, [reassign_topology] never returns a structure: the first
    iteration raises, [IndexError] when the first label is an integer
    literal and [ValueError] when it is not, and nothing is warned. *)
Theorem X15_no_descriptors fuel u :
  0 < n_atoms u -> 0 < fuel ->
  exists e,
    reassign_topology fuel [] u = ([], Some (Raise e)) /\
    (e = IndexError \/ e = ValueError None).
Proof.
  intros Hn Hfuel. destruct fuel as [|fuel]; [lia|].
  unfold reassign_topology. cbn [fold_left add_required existsb snd atom_attr_names].
  assert (Hinit : initial_walk [] u = mkWalk 0 u [] [] [] []) by reflexivity.
  rewrite Hinit. cbn [while_loop index new].
  replace (0 <? n_atoms u) with true by (symmetry; by apply Nat.ltb_lt).
  destruct (loop_body [] (mkWalk 0 u [] [] [] [])) as [st'|e] eqn:Hbody.
  - destruct (loop_body_inv _ _ _ Hbody) as (template & Ht & _).
    destruct (template_at_In _ _ _ Ht) as (pms & Hin & _).
    by apply elem_of_nil in Hin.
  - exists e. split; [reflexivity|].
    unfold loop_body in Hbody.
    destruct (template_at [] (mkWalk 0 u [] [] [] [])) as [template|e'] eqn:Ht.
    + destruct (template_at_In _ _ _ Ht) as (pms & Hin & _).
      by apply elem_of_nil in Hin.
    + cbn [mbind result_bind Py.bind] in Hbody. injection Hbody as <-.
      by apply (template_at_no_descriptors _ _ Ht).
Qed.

Lemma getitem_negative {A} (l : list A) z :
  (- Z.of_nat (length l) <= z < 0)%Z ->
  exists x, l !! Z.to_nat (Z.of_nat (length l) + z) = Some x /\
            Py.getitem l z = Ok x.
Proof.
  intros Hz. unfold Py.getitem.
  destruct (Z.leb_spec 0 z); [lia|].
  destruct (Z.leb_spec (- Z.of_nat (length l)) z); [|lia].
  destruct (lookup_lt_is_Some_2 l (Z.to_nat (Z.of_nat (length l) + z))) as [x Hx];
    [lia|].
  exists x. by rewrite Hx.
Qed.

(** X16.  A label whose integer is negative, down to minus the number of
    descriptors, is taken as an index from the end of the list: the walk
    uses the template of that descriptor and raises nothing.  The label
    [R-1] selects the last descriptor. *)
Theorem X16_negative_label structures st ri name z :
  resindices (new st) !! index st = Some ri ->
  resnames (new st) !! ri = Some name ->
  Py.int (Py.tail name) = Some z ->
  (- Z.of_nat (length structures) <= z < 0)%Z ->
  exists pms,
    structures !! Z.to_nat (Z.of_nat (length structures) + z) = Some pms /\
    template_at structures st = Ok (ag pms).
Proof.
  intros Hri Hname Hint Hz.
  destruct (getitem_negative structures z Hz) as (pms & Hlook & Hget).
  exists pms. split; [done|].
  unfold template_at. rewrite Hri. cbn [Py.of_option mbind result_bind Py.bind].
  rewrite Hname. cbn [Py.of_option mbind result_bind Py.bind].
  rewrite Hint. cbn [Py.of_option mbind result_bind Py.bind].
  by rewrite Hget.
Qed.

(** ** The bonded attributes of a packing *)

Lemma attach_impropers st :
  connections (attach st) !! "impropers"
  = if nonempty (impropers st) then Some (impropers st)
    else connections (new st) !! "impropers".
Proof.
  unfold attach, add_connections.
  destruct (nonempty (bonds st)), (nonempty (angles st)),
    (nonempty (dihedrals st)), (nonempty (impropers st)); simpl;
    by simplify_map_eq.
Qed.

(** X17.  In the reassembly of a packing, each of [bonds], [dihedrals] and
    [impropers] is attached when some block contributes a tuple, and is
    then the blocks' own tuples of that attribute, each block's shifted by
    the position of its first atom, in block order; when no block
    contributes a tuple the attribute is as the packed structure had
    it. *)
Theorem X17_bonded_attributes structures blocks u attr :
  Forall (fun b => block_of structures b /\ wf_template (snd b)) blocks ->
  is_packing blocks u ->
  attr ∈ ["bonds"; "dihedrals"; "impropers"] ->
  exists final,
    snd (reassign_topology (length blocks) structures u) = Some (Ok final) /\
    connections final !! attr
    = if nonempty (offset_tuples attr 0 blocks)
      then Some (offset_tuples attr 0 blocks)
      else connections u !! attr.
Proof.
  intros Hblocks Hpack Hin.
  destruct (reassign_packing structures blocks u Hblocks Hpack) as (m & Hrun & _).
  eexists. split; [exact Hrun|].
  rewrite !elem_of_cons in Hin. destruct Hin as [->|[->|[->|Hin]]].
  - by rewrite attach_bonds.
  - by rewrite attach_dihedrals.
  - by rewrite attach_impropers.
  - by apply elem_of_nil in Hin.
Qed.

(** ** The cursor on a packing *)

Lemma walk_reaches_prefix structures pre :
  forall post st ipre npre,
    Forall (fun b => block_of structures b /\ wf_template (snd b)) (pre ++ post) ->
    resindices (new st) = ipre ++ packed_resindices (length npre) (pre ++ post) ->
    length ipre = index st ->
    resnames (new st) = npre ++ packed_resnames (pre ++ post) ->
    Forall (fun b => provisioned (snd b) (new st)) (pre ++ post) ->
    exists st',
      reaches structures st st' /\
      index st' = index st + total_atoms pre /\
      resindices (new st') = resindices (new st) /\
      resnames (new st') = npre ++ restored_resnames pre ++ packed_resnames post /\
      bonds st' = bonds st ++ offset_tuples "bonds" (index st) pre.
Proof.
  induction pre as [|[t template] pre IH]; intros post st ipre npre Hok Hri Hi Hrn Hprov.
  - exists st. split; [apply reaches_refl|]. unfold total_atoms. simpl.
    rewrite Nat.add_0_r, app_nil_r. by repeat split.
  - cbn [app] in Hok, Hri, Hrn, Hprov.
    inversion Hok as [|? ? [Hb Hwf] Hok']; subst.
    inversion Hprov as [|? ? Hp1 Hp2]; subst. cbn [snd] in Hwf, Hp1.
    destruct (loop_body_block _ _ _ _ _ _ _ Hb Hwf Hri Hi Hrn Hp1) as (m1 & Hbody & Hm1).
    pose proof (wf_template_atom _ Hwf) as Hk.
    assert (Hlen : index st + n_atoms template <= n_atoms (new st)).
    { unfold n_atoms at 2. rewrite Hri. simpl. rewrite !length_app, length_map.
      unfold n_atoms. lia. }
    match type of Hbody with _ = Ok ?s => set (st1 := s) in Hbody end.
    destruct (IH post st1 (ipre ++ map (fun ri => length npre + ri) (resindices template))
                 (npre ++ resnames template)) as (st' & Hreach & Hi' & Hri' & Hrn' & Hb').
    { done. }
    { unfold st1. cbn [new resindices]. rewrite Hri. cbn [packed_resindices snd].
      rewrite <- app_assoc. do 3 f_equal. rewrite length_app. reflexivity. }
    { unfold st1. cbn [index]. rewrite length_app, length_map. unfold n_atoms. lia. }
    { unfold st1. cbn [new resnames]. by rewrite <- app_assoc. }
    { unfold st1. cbn [new]. eapply Forall_impl; [exact Hp2|]. intros b Hpb.
      by eapply provisioned_copy. }
    exists st'. split; [|split; [|split; [|split]]].
    + eapply reaches_trans; [|exact Hreach].
      eapply reaches_step; [apply reaches_refl | lia | exact Hbody].
    + rewrite Hi'. unfold st1, total_atoms. simpl. lia.
    + by rewrite Hri'.
    + rewrite Hrn'. unfold restored_resnames. cbn [flat_map snd].
      by rewrite <- !app_assoc.
    + rewrite Hb'. unfold st1. cbn [bonds index].
      by rewrite (extend_offset _ _ _ _ _ t).
Qed.

(** X18.  On a packing the walk passes through the blocks one by one: for
    every split of the blocks into those before and those from a block
    on, it reaches a state whose cursor is the number of atoms of the
    blocks before, in which the residues of the blocks before carry the
    templates' names and the others still their labels, and the bonds
    collected are those of the blocks before.  The atoms of the structure
    are exactly the atoms of the blocks. *)
Theorem X18_cursor_on_blocks structures pre post u :
  Forall (fun b => block_of structures b /\ wf_template (snd b)) (pre ++ post) ->
  is_packing (pre ++ post) u ->
  n_atoms u = total_atoms pre + total_atoms post /\
  exists st,
    reaches structures (initial_walk structures u) st /\
    index st = total_atoms pre /\
    resnames (new st) = restored_resnames pre ++ packed_resnames post /\
    bonds st = offset_tuples "bonds" 0 pre.
Proof.
  intros Hok [Hri Hrn]. split.
  { unfold n_atoms. by rewrite Hri, packed_resindices_length, total_atoms_app. }
  destruct (fold_add_required structures atom_attr_names atom_attr_names_NoDup u [])
    as (P1 & P2 & P3 & P4).
  destruct (walk_reaches_prefix structures pre post (initial_walk structures u) [] [])
    as (st & Hreach & Hi & _ & Hnames & Hbonds).
  - done.
  - unfold initial_walk. cbn [new]. by rewrite P1.
  - reflexivity.
  - unfold initial_walk. cbn [new]. by rewrite P2.
  - apply Forall_forall. intros b Hb attr vals Hin Hsome.
    rewrite Forall_forall in Hok. destruct (Hok b Hb) as [Hof _].
    unfold initial_walk. cbn [new]. rewrite P4, decide_True by done.
    rewrite (block_hasattr structures b attr vals Hof Hsome).
    eexists. split; [reflexivity|]. rewrite length_replicate.
    unfold n_atoms. by rewrite P1.
  - exists st. by repeat split.
Qed.

(** ** Labelling and reassembly, one after the other *)

Lemma map_add_0 (l : list nat) : map (fun ri => 0 + ri) l = l.
Proof. induction l as [|x l IH]; simpl; [done | by f_equal]. Qed.

(** X19.  What [save_structure] hands to the writer for the descriptor at
    position t, taken as the packed structure of one replica, is
    reassembled in one iteration into the template's own residue names,
    with the residue of every atom as in the template and, for each of the
    four per-atom attributes the template defines, the template's
    values. *)
Theorem X19_label_then_reassemble structures t pms :
  structures !! t = Some pms ->
  wf_template (ag pms) ->
  exists final,
    snd (reassign_topology 1 structures (relabel t (ag pms))) = Some (Ok final) /\
    resindices final = resindices (ag pms) /\
    resnames final = resnames (ag pms) /\
    forall attr vals,
      attr ∈ atom_attr_names -> atom_attrs (ag pms) !! attr = Some vals ->
      atom_attrs final !! attr = Some vals.
Proof.
  intros Hlook Hwf.
  assert (Hblocks : Forall (fun b => block_of structures b /\ wf_template (snd b))
                           [(t, ag pms)]).
  { apply Forall_cons_2; [|apply Forall_nil_2]. split; [|done].
    unfold block_of. cbn [fst snd]. by rewrite Hlook. }
  assert (Hpack : is_packing [(t, ag pms)] (relabel t (ag pms))).
  { split.
    - cbn [relabel with_resnames resindices packed_resindices snd].
      by rewrite map_add_0, app_nil_r.
    - unfold packed_resnames. cbn [relabel with_resnames resnames flat_map fst snd].
      by rewrite app_nil_r. }
  destruct (reassign_packing structures _ _ Hblocks Hpack) as (m & Hrun & Hm).
  eexists. split; [exact Hrun|].
  match goal with
  | |- context [attach ?s] => destruct (attach_fields s) as (A1 & A2 & A3)
  end.
  rewrite A1, A2, A3. cbn [new resindices resnames atom_attrs relabel with_resnames].
  split; [done|]. split.
  - unfold restored_resnames. cbn [flat_map snd]. by rewrite app_nil_r.
  - intros attr vals Hin Hsome. rewrite Hm, decide_True by done.
    assert (Hof : block_of structures (t, ag pms))
      by (unfold block_of; cbn [fst snd]; by rewrite Hlook).
    rewrite (block_hasattr structures (t, ag pms) attr vals Hof Hsome).
    unfold restored_attr. cbn [flat_map snd]. by rewrite Hsome, app_nil_r.
Qed.

(** ** The further properties on the sample data *)

Module MoreFacts.

Lemma wf_chain : wf_template More.chain.
Proof. SampleFacts.wf_sample. Qed.
Lemma wf_ion : wf_template More.ion.
Proof. SampleFacts.wf_sample. Qed.

Lemma more_blocks_ok :
  Forall (fun b => block_of More.structures b /\ wf_template (snd b)) More.blocks.
Proof.
  unfold More.blocks.
  repeat first [apply Forall_nil_2 | apply Forall_cons_2; [split|]];
    first [reflexivity | exact wf_chain | exact wf_ion].
Qed.

Lemma writer_writes (structures : list PackmolStructure) :
  forall k s, structures !! k = Some s ->
              exists text, Sample.writer (relabel k (ag s)) = Written text.
Proof. intros k s _. by eexists. Qed.


End MoreFacts.

Lemma X1_label_round_trip_witness :
  Py.int (Py.tail (replica_label 12)) = Some 12%Z /\ 12 = 12.
Proof.
  split.
  - exact (proj1 X1_label_round_trip 12).
  - exact (proj2 X1_label_round_trip 12 12 eq_refl).
Defined.

Lemma X2_file_names_distinct_witness :
  3 = 3 /\ PACKMOL_STRUCTURE_FILES 3 <> PACKMOL_INP.
Proof.
  split.
  - exact (proj1 X2_file_names_distinct 3 3 eq_refl).
  - exact (proj1 (proj2 X2_file_names_distinct 3)).
Defined.

Lemma X4_input_generation_succeeds_witness :
  exists w',
    make_packmol_input Sample.writer Sample.float_repr More.structures None Sample.nowhere
    = (Ok tt, More.structures, w') /\
    trace w' = [] ++ [Wrote "input0.pdb"; Wrote "input1.pdb"] ++ [Wrote "packmol.inp"].
Proof.
  exact (X4_input_generation_succeeds Sample.writer Sample.float_repr More.structures
           None Sample.nowhere (MoreFacts.writer_writes More.structures)).
Defined.

Lemma X5_input_files_witness :
  let w' := snd (make_packmol_input Sample.writer Sample.float_repr More.structures
                                    None Sample.nowhere) in
  files w' !! "input0.pdb" = Some "R0 R0" /\
  files w' !! "input1.pdb" = Some "R1" /\
  files w' !! "output.pdb" = None.
Proof.
  destruct (X5_input_files Sample.writer Sample.float_repr More.structures None
              Sample.nowhere (MoreFacts.writer_writes More.structures))
    as [Hfiles Hother].
  split; [|split].
  - exact (Hfiles 0 _ "R0 R0" eq_refl eq_refl).
  - exact (Hfiles 1 _ "R1" eq_refl eq_refl).
  - rewrite (Hother "output.pdb"); [reflexivity | discriminate |].
    intros k _. discriminate.
Defined.

Lemma X6_input_text_witness :
  files (snd (make_packmol_input Sample.writer Sample.float_repr More.structures
                                 None Sample.nowhere)) !! "packmol.inp"
  = Some (input_head Sample.float_repr None +:+ sections 0 More.structures
            +:+ input_tail).
Proof.
  exact (proj1 (X6_input_text Sample.writer Sample.float_repr More.structures None
                  Sample.nowhere _ More.structures eq_refl)).
Defined.



Lemma X9_pipeline_succeeds_witness :
  exists w',
    packmol Sample.writer Sample.reader Sample.working_shell Sample.ascii_decode
            Sample.float_repr 8 Sample.structures None Sample.nowhere
    = (snd (reassign_topology 8 Sample.structures Sample.packed), Sample.structures,
       fst (reassign_topology 8 Sample.structures Sample.packed), w') /\
    trace w' = [] ++ [Wrote "input0.pdb"; Wrote "input1.pdb"]
                 ++ [Wrote "packmol.inp"; Ran "packmol < packmol.inp";
                     Wrote "packmol.stdout"; Loaded "output.pdb"].
Proof.
  exact (X9_pipeline_succeeds Sample.writer Sample.reader Sample.working_shell
           Sample.ascii_decode Sample.float_repr 8 Sample.structures None Sample.nowhere
           _ _ "Success!" Sample.packed
           (MoreFacts.writer_writes Sample.structures) eq_refl eq_refl eq_refl eq_refl).
Defined.

Lemma X10_pipeline_undecodable_output_witness :
  exists w',
    packmol Sample.writer Sample.reader Sample.working_shell More.no_decode
            Sample.float_repr 8 Sample.structures None Sample.nowhere
    = (Some (Raise UnicodeDecodeError), Sample.structures, [], w') /\
    files w' !! "packmol.stdout" = Some "" /\
    forall name, Loaded name ∈ trace w' -> Loaded name ∈ trace Sample.nowhere.
Proof.
  exact (X10_pipeline_undecodable_output Sample.writer Sample.reader
           Sample.working_shell More.no_decode Sample.float_repr 8 Sample.structures
           None Sample.nowhere _ _
           (MoreFacts.writer_writes Sample.structures) eq_refl eq_refl eq_refl).
Defined.

Lemma X11_pipeline_load_fails_witness :
  exists w',
    packmol Sample.writer More.no_reader Sample.working_shell Sample.ascii_decode
            Sample.float_repr 8 Sample.structures None Sample.nowhere
    = (Some (Raise OSError), Sample.structures, [], w').
Proof.
  exact (X11_pipeline_load_fails Sample.writer More.no_reader Sample.working_shell
           Sample.ascii_decode Sample.float_repr 8 Sample.structures None Sample.nowhere
           _ _ "Success!" OSError
           (MoreFacts.writer_writes Sample.structures) eq_refl eq_refl eq_refl eq_refl).
Defined.

Lemma X12_reassembly_keeps_atoms_witness :
  exists final,
    snd (reassign_topology 2 Sample.mixed Sample.packed_mixed) = Some (Ok final) /\
    resindices final = [0; 0; 1] /\
    n_residues final = 2 /\
    exists arr, atom_attrs final !! "charges" = Some arr /\ length arr = n_atoms final.
Proof.
  destruct (snd (reassign_topology 2 Sample.mixed Sample.packed_mixed))
    as [[final|e]|] eqn:Hrun;
    [|vm_compute in Hrun; discriminate Hrun|vm_compute in Hrun; discriminate Hrun].
  exists final. split; [reflexivity|].
  destruct (X12_reassembly_keeps_atoms 2 Sample.mixed Sample.packed_mixed final Hrun)
    as (H1 & H2 & H3).
  split; [exact H1|]. split; [exact H2|].
  apply H3; [|reflexivity]. apply (bool_decide_unpack _). by vm_compute.
Defined.

Lemma X13_reassembly_frame_witness :
  exists final,
    snd (reassign_topology 1 Sample.water Sample.packed_water) = Some (Ok final) /\
    atom_attrs final !! "tempfactors" = atom_attrs Sample.packed_water !! "tempfactors" /\
    connections final !! "ureybradleys"
    = connections Sample.packed_water !! "ureybradleys".
Proof.
  destruct (snd (reassign_topology 1 Sample.water Sample.packed_water))
    as [[final|e]|] eqn:Hrun;
    [|vm_compute in Hrun; discriminate Hrun|vm_compute in Hrun; discriminate Hrun].
  exists final. split; [reflexivity|].
  destruct (X13_reassembly_frame 1 Sample.water Sample.packed_water final Hrun)
    as (H1 & H2).
  split.
  - apply H1. apply (bool_decide_unpack _). by vm_compute.
  - apply H2. apply (bool_decide_unpack _). by vm_compute.
Defined.

Lemma X14_no_atoms_witness :
  exists final,
    snd (reassign_topology 0 Sample.structures More.no_atoms) = Some (Ok final) /\
    resnames final = [] /\
    connections final = {["bonds" := [[0; 1]]]}.
Proof.
  exact (X14_no_atoms 0 Sample.structures More.no_atoms eq_refl).
Defined.

Lemma X15_no_descriptors_witness :
  exists e,
    reassign_topology 1 [] Sample.short = ([], Some (Raise e)) /\
    (e = IndexError \/ e = ValueError None).
Proof.
  apply (X15_no_descriptors 1 Sample.short); vm_compute; lia.
Defined.

Lemma X16_negative_label_witness :
  exists pms,
    Sample.structures !! 1 = Some pms /\
    template_at Sample.structures (initial_walk Sample.structures More.from_the_end)
    = Ok (ag pms).
Proof.
  apply (X16_negative_label Sample.structures
                            (initial_walk Sample.structures More.from_the_end)
                            0 "R-1" (-1)%Z eq_refl eq_refl eq_refl).
  vm_compute. split; [discriminate | reflexivity].
Defined.

Lemma X17_bonded_attributes_witness :
  exists final,
    snd (reassign_topology 3 More.structures More.packed) = Some (Ok final) /\
    connections final !! "dihedrals"
    = if nonempty (offset_tuples "dihedrals" 0 More.blocks)
      then Some [[1; 2; 3; 4]; [5; 6; 7; 8]]
      else None.
Proof.
  apply (X17_bonded_attributes More.structures More.blocks More.packed "dihedrals"
           MoreFacts.more_blocks_ok (conj eq_refl eq_refl)).
  apply (bool_decide_unpack _). by vm_compute.
Defined.

Lemma X18_cursor_on_blocks_witness :
  n_atoms More.packed = 1 + 8 /\
  exists st,
    reaches More.structures (initial_walk More.structures More.packed) st /\
    index st = 1 /\
    resnames (new st) = resnames More.ion ++ ["R0"; "R0"; "R0"; "R0"] /\
    bonds st = [].
Proof.
  exact (X18_cursor_on_blocks More.structures [(1, More.ion)]
           [(0, More.chain); (0, More.chain)] More.packed
           MoreFacts.more_blocks_ok (conj eq_refl eq_refl)).
Defined.

Lemma X19_label_then_reassemble_witness :
  exists final,
    snd (reassign_topology 1 More.structures (relabel 0 More.chain)) = Some (Ok final) /\
    resindices final = [0; 0; 1; 1] /\
    resnames final = ["HED"; "TAL"] /\
    forall attr vals,
      attr ∈ atom_attr_names -> atom_attrs More.chain !! attr = Some vals ->
      atom_attrs final !! attr = Some vals.
Proof.
  exact (X19_label_then_reassemble More.structures 0
           (mkPackmolStructure More.chain 2 ["inside box 0. 0. 0. 20. 20. 20."])
           eq_refl MoreFacts.wf_chain).
Defined.
